(** * Ingestion lifecycle manager: a shallow embedding and its properties

    Embedded sources:
    - [Scheduler-sdk(simulated)/GlobalManager/GlobalIngestionLifecycleManager.ts]
      (the in-memory store, the lifecycle manager and the orchestrator),
    - [Ingestor/src/functions/Crawler/processWebhookRequest.ts]
      (webhook verification).

    Conventions.  A JavaScript [Map] is an insertion-ordered association
    list; objects held by the in-memory store are shared by reference in the
    source, so a field write on a stored task is a write to the store.  Every
    manager operation is run to completion before the next one starts
    ([await] interleavings are not modelled).  Platform and third-party
    functions (JSON, URL, HMAC, cron-parser, uuid, random bytes, the wall
    clock, the webhook provider, the registered plugins) are parameters;
    those that may answer differently from call to call read the history of
    effects so far.  Event listeners are taken not to throw, and what a
    plugin, the provider or a library throws is taken to have a [message]
    (see Exceptions below). *)

From Stdlib Require Import String Ascii List ZArith Bool Lia DecimalString
  RelationClasses.
Import ListNotations.

Local Open Scope string_scope.
Local Open Scope list_scope.
Local Open Scope Z_scope.

Set Implicit Arguments.
Set Warnings "-register-all,-notation-for-abbreviation".

(* ------------------------------------------------------------------ *)
(** ** JavaScript values *)

Inductive jsval : Type :=
| JUndef
| JNull
| JBool (b : bool)
| JNum (n : Z)
| JStr (s : string)
| JArr (l : list jsval)
| JObj (fields : list (string * jsval)).

(** Truthiness as used by [if (x)], [!x], [a || b] and [a && b]. *)
Definition truthy (v : jsval) : bool :=
  match v with
  | JUndef | JNull => false
  | JBool b => b
  | JNum n => negb (n =? 0)
  | JStr s => negb (s =? EmptyString)%string
  | JArr _ | JObj _ => true
  end.

Definition truthy_str (o : option string) : bool :=
  match o with
  | Some s => negb (s =? EmptyString)%string
  | None => false
  end.

(** [a || b] on values. *)
Definition js_or (a b : jsval) : jsval := if truthy a then a else b.

(** [a || b] on optional strings with a string default. *)
Definition str_or (a : option string) (b : string) : string :=
  match a with
  | Some s => if (s =? EmptyString)%string then b else s
  | None => b
  end.

Fixpoint assoc {V : Type} (k : string) (l : list (string * V)) : option V :=
  match l with
  | [] => None
  | (k', v) :: r => if (k =? k')%string then Some v else assoc k r
  end.

(** Property read [v.k] on a value that is neither [null] nor [undefined]
    (a primitive has no own property of that name). *)
Definition getprop (v : jsval) (k : string) : jsval :=
  match v with
  | JObj fs => match assoc k fs with Some x => x | None => JUndef end
  | _ => JUndef
  end.

(** Text of [${x}] for an optional string. *)
Definition tmpl (o : option string) : string :=
  match o with
  | Some s => s
  | None => "undefined"
  end.

Definition nat_to_string (n : nat) : string :=
  NilZero.string_of_uint (Nat.to_uint n).

(* ------------------------------------------------------------------ *)
(** ** Exceptions

    What is thrown, or what a promise is rejected with, is an [Error] or
    another object with a [message], and is represented by the text of that
    message: it is all the catch clauses of the embedded sources read.  A
    rejection with [undefined] or [null] is outside the model: on such a
    value the catch clauses, which read [error.message], throw a
    [TypeError] of their own, so that what is proved below about a catch
    clause taking over holds for thrown values that have a message. *)

Inductive Result (A : Type) : Type :=
| Ok (a : A)
| Throw (msg : string).
Arguments Ok {A} a.
Arguments Throw {A} msg.

(* ------------------------------------------------------------------ *)
(** ** [String.prototype.split] with a one-character separator *)

Fixpoint split_go (sep : ascii) (acc : string) (s : string) : list string :=
  match s with
  | EmptyString => [acc]
  | String c r =>
      if Ascii.eqb c sep
      then acc :: split_go sep EmptyString r
      else split_go sep (acc ++ String c EmptyString)%string r
  end.

Definition split (sep : ascii) (s : string) : list string := split_go sep EmptyString s.

(* ------------------------------------------------------------------ *)
(** ** [Map<string, V>]: insertion-ordered, keys compared by value *)

Module JsMap.
Section Ops.
Variable V : Type.

Definition t := list (string * V).

Definition empty : t := [].

Fixpoint get (k : string) (m : t) : option V :=
    match m with
    | [] => None
    | (k', v) :: r => if (k =? k')%string then Some v else get k r
    end.

  (** [set] keeps the position of an existing key and appends a new one. *)
Fixpoint set (k : string) (v : V) (m : t) : t :=
    match m with
    | [] => [(k, v)]
    | (k', v') :: r =>
        if (k =? k')%string then (k', v) :: r else (k', v') :: set k v r
    end.

Fixpoint delete (k : string) (m : t) : t :=
    match m with
    | [] => []
    | (k', v') :: r =>
        if (k =? k')%string then delete k r else (k', v') :: delete k r
    end.

Definition keys (m : t) : list string := map fst m.
Definition values (m : t) : list V := map snd m.

Definition has (k : string) (m : t) : bool :=
    match get k m with Some _ => true | None => false end.

  (** In-place change of the object stored under [k] ([Object.assign] on the
      stored reference); nothing happens when [k] is absent. *)
Definition modify (k : string) (f : V -> V) (m : t) : t :=
    match get k m with
    | Some v => set k (f v) m
    | None => m
    end.
End Ops.
End JsMap.

Arguments JsMap.get {V} k m.
Arguments JsMap.set {V} k v m.
Arguments JsMap.delete {V} k m.
Arguments JsMap.keys {V} m.
Arguments JsMap.values {V} m.
Arguments JsMap.has {V} k m.
Arguments JsMap.modify {V} k f m.

(* ------------------------------------------------------------------ *)
(** ** Data model *)

(** [GSStatus(success, code?, message?, data?)]; plain status-shaped objects
    of the source use the same record. *)
Record GSStatus : Type := mkGSStatus {
  success : bool;
  code : option Z;
  message : option string;
  data : jsval
}.

Definition GSStatus3 (s : bool) (c : Z) (m : string) : GSStatus :=
  mkGSStatus s (Some c) (Some m) JUndef.

Definition GSStatus4 (s : bool) (c : Z) (m : string) (d : jsval) : GSStatus :=
  mkGSStatus s (Some c) (Some m) d.

Inductive IngestionTaskStatus : Type := SCHEDULED | RUNNING | COMPLETED | FAILED.

Inductive ChangeType : Type := UPSERT | DELETE | UNKNOWN.

(** The plugin configuration: an open map.  The keys the manager reads
    ([repoUrl], [folderId], [meetingId], [chatId], [url]) are strings, as the
    return type [string | undefined] of [getSourceIdentifier] declares. *)
Definition Config := list (string * string).

Record PluginRef : Type := mkPluginRef {
  pluginType : string;
  config : Config
}.

Module WebhookTrigger.
Record t : Type := mk {
    endpointId : string;
    callbackurl : string;
    credentials : jsval;
    externalWebhookId : option string;
    secret : option string
  }.
End WebhookTrigger.

(** [trigger.type] is ['manual'], ['cron'] or ['webhook']. *)
Inductive IngestionTrigger : Type :=
| Manual
| Cron (expression : string)
| Webhook (w : WebhookTrigger.t).

Definition is_webhook (tr : IngestionTrigger) : bool :=
  match tr with Webhook _ => true | _ => false end.

Definition is_cron (tr : IngestionTrigger) : bool :=
  match tr with Cron _ => true | _ => false end.

Module WebhookRegistryEntry.
Record t : Type := mk {
    sourceIdentifier : string;
    endpointId : string;
    secret : string;
    externalWebhookId : string;
    registeredTasks : list string;
    webhookFlag : bool;
    startPageToken : jsval;
    nextPageToken : jsval;
    otherCrawlerSpecificTokens : jsval
  }.

  (** One property of a [Partial<WebhookRegistryEntry>]. *)
Inductive field : Type :=
  | RegisteredTasks (l : list string)
  | WebhookFlag (b : bool)
  | StartPageToken (v : jsval)
  | NextPageToken (v : jsval)
  | OtherCrawlerSpecificTokens (v : jsval).

Definition assign1 (e : t) (f : field) : t :=
    match f with
    | RegisteredTasks l =>
        mk (sourceIdentifier e) (endpointId e) (secret e) (externalWebhookId e)
           l (webhookFlag e) (startPageToken e) (nextPageToken e)
           (otherCrawlerSpecificTokens e)
    | WebhookFlag b =>
        mk (sourceIdentifier e) (endpointId e) (secret e) (externalWebhookId e)
           (registeredTasks e) b (startPageToken e) (nextPageToken e)
           (otherCrawlerSpecificTokens e)
    | StartPageToken v =>
        mk (sourceIdentifier e) (endpointId e) (secret e) (externalWebhookId e)
           (registeredTasks e) (webhookFlag e) v (nextPageToken e)
           (otherCrawlerSpecificTokens e)
    | NextPageToken v =>
        mk (sourceIdentifier e) (endpointId e) (secret e) (externalWebhookId e)
           (registeredTasks e) (webhookFlag e) (startPageToken e) v
           (otherCrawlerSpecificTokens e)
    | OtherCrawlerSpecificTokens v =>
        mk (sourceIdentifier e) (endpointId e) (secret e) (externalWebhookId e)
           (registeredTasks e) (webhookFlag e) (startPageToken e)
           (nextPageToken e) v
    end.

  (** [Object.assign(e, updates)]. *)
Definition assign (e : t) (updates : list field) : t :=
    fold_left assign1 updates e.
End WebhookRegistryEntry.

Module IngestionTaskDefinition.
  (** [entryProps] stands for the own properties [sourceIdentifier],
      [endpointId], [secret], [externalWebhookId], [registeredTasks] and
      [webhookFlag] that [registerWebhook] copies from a new registry entry
      onto the task object ([{ trigger, ...newWebhookEntry }]); [None] when
      the object has none of them.  The three token properties are fields of
      their own because [registerWebhook] also writes them directly. *)
Record t : Type := mk {
    id : string;
    name : string;
    enabled : bool;
    source : PluginRef;
    destination : option PluginRef;
    trigger : IngestionTrigger;
    currentStatus : IngestionTaskStatus;
    lastRun : option Z;
    lastRunStatus : option GSStatus;
    startPageToken : jsval;
    nextPageToken : jsval;
    otherCrawlerSpecificTokens : jsval;
    entryProps : option WebhookRegistryEntry.t
  }.

  (** One property of a [Partial<IngestionTaskDefinition>] as the modelled
      code builds them. *)
Inductive field : Type :=
  | Id (v : string)
  | Trigger (v : IngestionTrigger)
  | CurrentStatus (v : IngestionTaskStatus)
  | LastRun (v : option Z)
  | LastRunStatus (v : option GSStatus)
  | StartPageToken (v : jsval)
  | NextPageToken (v : jsval)
  | OtherCrawlerSpecificTokens (v : jsval)
  | EntryProps (e : WebhookRegistryEntry.t)
  | Name (v : string)
  | Enabled (v : bool)
  | Source (v : PluginRef)
  | Destination (v : option PluginRef).

Definition assign1 (x : t) (f : field) : t :=
    match f with
    | Id v =>
        mk v (name x) (enabled x) (source x) (destination x) (trigger x)
           (currentStatus x) (lastRun x) (lastRunStatus x) (startPageToken x)
           (nextPageToken x) (otherCrawlerSpecificTokens x) (entryProps x)
    | Trigger v =>
        mk (id x) (name x) (enabled x) (source x) (destination x) v
           (currentStatus x) (lastRun x) (lastRunStatus x) (startPageToken x)
           (nextPageToken x) (otherCrawlerSpecificTokens x) (entryProps x)
    | CurrentStatus v =>
        mk (id x) (name x) (enabled x) (source x) (destination x) (trigger x)
           v (lastRun x) (lastRunStatus x) (startPageToken x)
           (nextPageToken x) (otherCrawlerSpecificTokens x) (entryProps x)
    | LastRun v =>
        mk (id x) (name x) (enabled x) (source x) (destination x) (trigger x)
           (currentStatus x) v (lastRunStatus x) (startPageToken x)
           (nextPageToken x) (otherCrawlerSpecificTokens x) (entryProps x)
    | LastRunStatus v =>
        mk (id x) (name x) (enabled x) (source x) (destination x) (trigger x)
           (currentStatus x) (lastRun x) v (startPageToken x)
           (nextPageToken x) (otherCrawlerSpecificTokens x) (entryProps x)
    | StartPageToken v =>
        mk (id x) (name x) (enabled x) (source x) (destination x) (trigger x)
           (currentStatus x) (lastRun x) (lastRunStatus x) v
           (nextPageToken x) (otherCrawlerSpecificTokens x) (entryProps x)
    | NextPageToken v =>
        mk (id x) (name x) (enabled x) (source x) (destination x) (trigger x)
           (currentStatus x) (lastRun x) (lastRunStatus x) (startPageToken x)
           v (otherCrawlerSpecificTokens x) (entryProps x)
    | OtherCrawlerSpecificTokens v =>
        mk (id x) (name x) (enabled x) (source x) (destination x) (trigger x)
           (currentStatus x) (lastRun x) (lastRunStatus x) (startPageToken x)
           (nextPageToken x) v (entryProps x)
    | EntryProps e =>
        mk (id x) (name x) (enabled x) (source x) (destination x) (trigger x)
           (currentStatus x) (lastRun x) (lastRunStatus x) (startPageToken x)
           (nextPageToken x) (otherCrawlerSpecificTokens x) (Some e)
    | Name v =>
        mk (id x) v (enabled x) (source x) (destination x) (trigger x)
           (currentStatus x) (lastRun x) (lastRunStatus x) (startPageToken x)
           (nextPageToken x) (otherCrawlerSpecificTokens x) (entryProps x)
    | Enabled v =>
        mk (id x) (name x) v (source x) (destination x) (trigger x)
           (currentStatus x) (lastRun x) (lastRunStatus x) (startPageToken x)
           (nextPageToken x) (otherCrawlerSpecificTokens x) (entryProps x)
    | Source v =>
        mk (id x) (name x) (enabled x) v (destination x) (trigger x)
           (currentStatus x) (lastRun x) (lastRunStatus x) (startPageToken x)
           (nextPageToken x) (otherCrawlerSpecificTokens x) (entryProps x)
    | Destination v =>
        mk (id x) (name x) (enabled x) (source x) v (trigger x)
           (currentStatus x) (lastRun x) (lastRunStatus x) (startPageToken x)
           (nextPageToken x) (otherCrawlerSpecificTokens x) (entryProps x)
    end.

  (** [Object.assign(x, updates)]. *)
Definition assign (x : t) (updates : list field) : t :=
    fold_left assign1 updates x.
End IngestionTaskDefinition.

Notation Task := IngestionTaskDefinition.t.
Notation Entry := WebhookRegistryEntry.t.

Module Payload.
  (** The [initialPayload] object handed to the orchestrator, with the keys
      the manager writes. *)
Record t : Type := mk {
    taskDefinition : option Task;
    webhookPayload : jsval;
    externalResourceId : option string;
    changeType : option ChangeType;
    startPageToken : jsval;
    nextPageToken : jsval;
    otherCrawlerSpecificTokens : jsval
  }.

  (** [{}] *)
Definition empty : t := mk None JUndef None None JUndef JUndef JUndef.
End Payload.

(** [{ ...initialPayload, fetchedAt }]; the timestamp is kept in
    milliseconds. *)
Record PayloadWithFetchedAt : Type := mkPayloadWithFetchedAt {
  base : option Payload.t;
  fetchedAt : Z
}.

(** [ctx.event?.time], already read as milliseconds since the epoch. *)
Record GSContext : Type := mkGSContext {
  event_time : option Z
}.

Inductive IngestionEvents : Type :=
| TASK_SCHEDULED (task : Task)
| TASK_DELETED (taskId : string)
| TASK_TRIGGERED (taskId : string)
| TASK_COMPLETED (taskId : string) (status : GSStatus)
| TASK_FAILED (taskId : string) (status : GSStatus)
| DATA_FETCHED (rawData : list jsval) (taskId : string)
| DATA_TRANSFORMED (transformedData : list jsval) (taskId : string)
| DATA_PROCESSED (transformedData : list jsval) (taskId : string)
| TASK_UPDATED (task : Task).

(** The history of observable actions, oldest first: events emitted on the
    bus, calls to collaborators, and invocations of [runOrchestrator]. *)
Inductive Effect : Type :=
| Emit (e : IngestionEvents)
| RunOrchestrator (taskId : string) (initialPayload : option Payload.t)
| SourceInitClient (taskId : string)
| SourceExecute (taskId : string) (initialPayload : option Payload.t)
| Transform (taskId : string) (rawData : list jsval)
| DestinationInit (taskId : string)
| DestinationProcessData (taskId : string) (records : list jsval)
| ProviderRegister (pluginType resource callbackUrl secret : string)
| ProviderDeregister (pluginType webhookId resourceId : string).

Definition History := list Effect.

(* ------------------------------------------------------------------ *)
(** ** Collaborators: plugins, the platform, the provider *)

(** A source instance, already bound to its task's [source.config]. *)
Record GSDataSource : Type := mkGSDataSource {
  initClient : History -> Result unit;
  execute : History -> GSContext -> option Payload.t -> Result GSStatus
}.

Definition IngestionDataTransformer : Type :=
  History -> list jsval -> PayloadWithFetchedAt -> Result (list jsval).

Record IDestinationPlugin : Type := mkIDestinationPlugin {
  init : History -> Config -> Result unit;
  processData : History -> list jsval -> Result GSStatus
}.

(** A registered source: its constructor (applied to the task's
    [source.config]) and its transformer. *)
Record SourceEntry : Type := mkSourceEntry {
  plugin : Config -> GSDataSource;
  transformer : IngestionDataTransformer
}.

Module RegisteredPlugins.
Record t : Type := mk {
  source : JsMap.t SourceEntry;
  destination : JsMap.t IDestinationPlugin
}.
End RegisteredPlugins.

(** What [DataSourceApiUtils.registerWebhook] answers, with the properties
    the manager reads. *)
Record WebhookRegistrationResult : Type := mkWebhookRegistrationResult {
  reg_success : bool;
  reg_externalId : option string;
  reg_startpageToken : jsval;
  reg_nextPageToken : jsval;
  reg_otherCrawlerSpecificTokens : jsval;
  reg_error : option string
}.

(** What [DataSourceApiUtils.deregisterWebhook] answers, as the manager
    declares it: [{ success: boolean; message?: string }]. *)
Record WebhookDeregistrationResult : Type := mkWebhookDeregistrationResult {
  dereg_success : bool;
  dereg_message : option string
}.

Record URLParts : Type := mkURLParts {
  hostname : string;
  pathname : string
}.

Record Env : Type := mkEnv {
  (** [JSON.parse]; [None] when it throws. *)
  JSON_parse : string -> option jsval;
  JSON_stringify : jsval -> string;
  (** Text of [${v}] for a value that is not a string. *)
  String_of : jsval -> string;
  (** [new URL(s)]; [None] when it throws. *)
  URL_parse : string -> option URLParts;
  (** [crypto.createHmac('sha256', secret).update(body).digest('hex')]. *)
  hmac_sha256_hex : string -> string -> string;
  (** [CronExpressionParser.parse(expr, { currentDate }).prev().toDate()];
      [Throw] when parsing or stepping throws. *)
  cron_prev : string -> Z -> Result Z;
  uuidv4 : History -> string;
  (** [crypto.randomBytes(20).toString('hex')]. *)
  randomBytes20_hex : History -> string;
  (** [new Date()], in milliseconds. *)
  wallClock : History -> Z;
  (** [DataSourceApiUtils.registerWebhook(pluginType, resource, callbackUrl,
      secret, credentials)]. *)
  provider_registerWebhook :
    History -> string -> string -> string -> string -> jsval ->
    Result WebhookRegistrationResult;
  (** [DataSourceApiUtils.deregisterWebhook(pluginType, webhookId,
      resourceId, credentials)]. *)
  provider_deregisterWebhook :
    History -> string -> string -> string -> jsval ->
    Result WebhookDeregistrationResult
}.

(* ------------------------------------------------------------------ *)
(** ** The state of the process and the monad of operations *)

Record World : Type := mkWorld {
  tasks : JsMap.t Task;
  webhookRegistrations : JsMap.t Entry;
  registeredPlugins : RegisteredPlugins.t;
  history : History
}.

Definition set_tasks (f : JsMap.t Task -> JsMap.t Task) (w : World) : World :=
  mkWorld (f (tasks w)) (webhookRegistrations w) (registeredPlugins w)
          (history w).

Definition set_webhookRegistrations
  (f : JsMap.t Entry -> JsMap.t Entry) (w : World) : World :=
  mkWorld (tasks w) (f (webhookRegistrations w)) (registeredPlugins w)
          (history w).

Definition set_registeredPlugins
  (f : RegisteredPlugins.t -> RegisteredPlugins.t) (w : World) : World :=
  mkWorld (tasks w) (webhookRegistrations w) (f (registeredPlugins w))
          (history w).

Definition record (e : Effect) (w : World) : World :=
  mkWorld (tasks w) (webhookRegistrations w) (registeredPlugins w)
          (history w ++ [e]).

Definition M (A : Type) : Type := World -> Result A * World.

Definition ret {A : Type} (a : A) : M A := fun w => (Ok a, w).

Definition bind {A B : Type} (m : M A) (f : A -> M B) : M B :=
  fun w =>
    match m w with
    | (Ok a, w') => f a w'
    | (Throw e, w') => (Throw e, w')
    end.

Definition throw {A : Type} (msg : string) : M A := fun w => (Throw msg, w).

(** [try { m } catch (error) { h error.message }] *)
Definition try_catch {A : Type} (m : M A) (h : string -> M A) : M A :=
  fun w =>
    match m w with
    | (Ok a, w') => (Ok a, w')
    | (Throw e, w') => h e w'
    end.

(** The outcome of a pure computation that may throw. *)
Definition lift {A : Type} (r : Result A) : M A := fun w => (r, w).

Definition gets {A : Type} (f : World -> A) : M A := fun w => (Ok (f w), w).

Definition update (f : World -> World) : M unit := fun w => (Ok tt, f w).

(** A call to a collaborator: it answers from the history so far, and the
    call is recorded. *)
Definition call {A : Type} (e : Effect) (f : History -> Result A) : M A :=
  fun w => (f (history w), record e w).

Definition effect (e : Effect) : M unit := update (record e).

(** [eventBus.emit(...)] *)
Definition emit (e : IngestionEvents) : M unit := effect (Emit e).

Declare Scope monad_scope.
Delimit Scope monad_scope with monad.
Notation "x <- m ;; k" := (bind m (fun x => k))
  (at level 61, m at next level, right associativity) : monad_scope.
Notation "m ;; k" := (bind m (fun _ => k))
  (at level 61, right associativity) : monad_scope.
Local Open Scope monad_scope.

(* ------------------------------------------------------------------ *)
(** ** [InMemoryDatabaseService] *)

Module InMemoryDatabaseService.

Definition getTask (taskId : string) : M (option Task) :=
  gets (fun w => JsMap.get taskId (tasks w)).

Definition saveTask (task : Task) : M unit :=
  update (set_tasks (JsMap.set (IngestionTaskDefinition.id task) task)).

Definition updateTask (taskId : string)
  (updates : list IngestionTaskDefinition.field) : M unit :=
  update (set_tasks
            (JsMap.modify taskId
               (fun t => IngestionTaskDefinition.assign t updates))).

Definition deleteTask (taskId : string) : M unit :=
  update (set_tasks (JsMap.delete taskId)).

Definition listAllTasks : M (list Task) :=
  gets (fun w => JsMap.values (tasks w)).

Definition getWebhookRegistration (sourceIdentifier : string)
  : M (option Entry) :=
  gets (fun w => JsMap.get sourceIdentifier (webhookRegistrations w)).

Definition saveWebhookRegistration (entry : Entry) : M unit :=
  update (set_webhookRegistrations
            (JsMap.set (WebhookRegistryEntry.sourceIdentifier entry) entry)).

Definition updateWebhookRegistration (sourceIdentifier : string)
  (updates : list WebhookRegistryEntry.field) : M unit :=
  update (set_webhookRegistrations
            (JsMap.modify sourceIdentifier
               (fun e => WebhookRegistryEntry.assign e updates))).

Definition deleteWebhookRegistration (sourceIdentifier : string) : M unit :=
  update (set_webhookRegistrations (JsMap.delete sourceIdentifier)).

End InMemoryDatabaseService.

(* ------------------------------------------------------------------ *)
(** ** [processWebhookRequest.ts] *)

Definition Headers : Type := list (string * string).

(** [headers[k]] *)
Definition header (headers : Headers) (k : string) : option string :=
  assoc k headers.

Definition opt_to_js (o : option string) : jsval :=
  match o with Some s => JStr s | None => JUndef end.

(** [x === 'text'] for a header value. *)
Definition is_text (x : option string) (text : string) : bool :=
  match x with
  | Some s => (s =? text)%string
  | None => false
  end.

Module WebhookResult.
Record t : Type := mk {
  success : bool;
  externalResourceId : option string;
  rawPayload : jsval;
  changeType : option ChangeType;
  error : option string;
  signatureValidated : option bool
}.

(** [{ success: false, error, signatureValidated }] *)
Definition failure (err : string) (validated : bool) : t :=
  mk false None JUndef None (Some err) (Some validated).
End WebhookResult.

Module ProcessedWebhookResult.
Record t : Type := mk {
  isValid : bool;
  payload : jsval;
  externalResourceId : option string;
  changeType : option ChangeType;
  error : option string
}.
End ProcessedWebhookResult.

Section WebhookRequest.
Variable E : Env.

(** Outcome of the signature block of [handleGitWebhook]: either an early
    return, or the value of [signatureValidated] to go on with. *)
Inductive SignatureCheck : Type :=
| Rejected (r : WebhookResult.t)
| Checked (signatureValidated : bool).

Definition checkGitSignature (headers : Headers) (body : string)
  (secret : option string) : SignatureCheck :=
  match secret with
  | Some sec =>
      if (sec =? EmptyString)%string then Checked false
      else
        let signature :=
          if truthy_str (header headers "x-hub-signature-256")
          then header headers "x-hub-signature-256"
          else header headers "x-hub-signature" in
        match signature with
        | Some sig =>
            if (sig =? EmptyString)%string then Checked false
            else
              let parts := split "=" sig in
              let algorithm := nth_error parts 0 in
              let hash := nth_error parts 1 in
              match algorithm with
              | Some alg =>
                  if negb (alg =? "sha256")%string
                  then Rejected (WebhookResult.failure
                                   "Unsupported signature algorithm." false)
                  else
                    let calculatedHash := hmac_sha256_hex E sec body in
                    match hash with
                    | Some h =>
                        if (calculatedHash =? h)%string
                        then Checked true
                        else Rejected (WebhookResult.failure
                                         "Invalid webhook signature." false)
                    | None =>
                        Rejected (WebhookResult.failure
                                    "Invalid webhook signature." false)
                    end
              | None =>
                  Rejected (WebhookResult.failure
                              "Unsupported signature algorithm." false)
              end
        | None => Checked false
        end
  | None => Checked false
  end.

(** Text of [${v}]. *)
Definition text_of (v : jsval) : string :=
  match v with
  | JStr s => s
  | _ => String_of E v
  end.

Definition handleGitWebhook (headers : Headers) (body : string)
  (secret : option string) : Result WebhookResult.t :=
  match JSON_parse E body with
  | None => Ok (WebhookResult.failure "Invalid JSON payload." false)
  | Some payload =>
      match checkGitSignature headers body secret with
      | Rejected r => Ok r
      | Checked signatureValidated =>
          let eventType := header headers "x-github-event" in
          match payload with
          | JNull =>
              (* a property read on [null] *)
              Throw (if is_text eventType "push"
                     then "Cannot read properties of null (reading 'deleted')"
                     else "Cannot read properties of null (reading 'repository')")
          | _ =>
              let changeType :=
                if is_text eventType "push"
                then if truthy (getprop payload "deleted")
                     then DELETE else UPSERT
                else if is_text eventType "pull_request" then UPSERT
                else UNKNOWN in
              let repository := getprop payload "repository" in
              let externalResourceId :=
                match repository with
                | JUndef | JNull => JUndef
                | _ => getprop repository "full_name"
                end in
              if negb (truthy externalResourceId)
              then Ok (WebhookResult.failure
                   "Could not extract externalResourceId (repository full name)."
                   signatureValidated)
              else Ok (WebhookResult.mk true
                         (Some ("https://github.com/"
                                ++ text_of externalResourceId)%string)
                         payload (Some changeType) None
                         (Some signatureValidated))
          end
      end
  end.

Definition handleGDriveWebhook (headers : Headers) (body : string)
  (expectedToken : option string) : WebhookResult.t :=
  let tokenOk :=
    if truthy_str expectedToken
    then match header headers "x-goog-channel-id", expectedToken with
         | Some channelToken, Some tok =>
             if (channelToken =? EmptyString)%string then None
             else if (channelToken =? tok)%string then Some true else None
         | _, _ => None
         end
    else Some false in
  match tokenOk with
  | None =>
      WebhookResult.failure "Invalid channel ID or token mismatch." false
  | Some signatureValidated =>
      let resourceUri := header headers "x-goog-resource-uri" in
      let externalResourceId :=
        if truthy_str resourceUri
        then match resourceUri with
             | Some uri =>
                 match URL_parse E uri with
                 | Some url =>
                     Some (last (split "/" (pathname url)) EmptyString)
                 | None => None
                 end
             | None => None
             end
        else None in
      if negb (truthy_str externalResourceId)
      then WebhookResult.failure
             "Could not extract actual Drive folder ID from x-goog-resource-uri."
             signatureValidated
      else
        let resourceState := header headers "x-goog-resource-state" in
        let changeType :=
          if is_text resourceState "exists" || is_text resourceState "add"
             || is_text resourceState "update"
          then UPSERT
          else if is_text resourceState "not_exists"
                  || is_text resourceState "trash"
          then DELETE
          else UNKNOWN in
        let rawPayload :=
          JObj [("channelResourceId",
                  opt_to_js (header headers "x-goog-resource-id"));
                ("resourceState", opt_to_js resourceState);
                ("x-goog-channel-id",
                  opt_to_js (header headers "x-goog-channel-id"));
                ("x-goog-message-number",
                  opt_to_js (header headers "x-goog-message-number"));
                ("x-goog-resource-state",
                  opt_to_js (header headers "x-goog-resource-state"));
                ("x-goog-resource-uri",
                  opt_to_js (header headers "x-goog-resource-uri"))] in
        WebhookResult.mk true externalResourceId rawPayload (Some changeType)
                         None (Some signatureValidated)
  end.

Definition processWebhookRequest (webhookService : string)
  (headers : Headers) (secret : option string) (body : jsval)
  : Result ProcessedWebhookResult.t :=
  let bodyString :=
    match body with
    | JObj _ | JArr _ => Some (JSON_stringify E body)
    | JStr s => Some s
    | _ => None
    end in
  match bodyString with
  | None =>
      Ok (ProcessedWebhookResult.mk false JUndef None None
            (Some "Invalid webhook body type."))
  | Some bodyString =>
      let result :=
        if (webhookService =? "git-crawler")%string
        then handleGitWebhook headers bodyString secret
        else if (webhookService =? "googledrive-crawler")%string
        then Ok (handleGDriveWebhook headers bodyString secret)
        else Ok (WebhookResult.mk false None JUndef None
                   (Some ("No handler found for webhook service: "
                          ++ webhookService)%string) None) in
      match result with
      | Throw msg => Throw msg
      | Ok result =>
          let validated :=
            match WebhookResult.signatureValidated result with
            | Some b => b
            | None => false
            end in
          Ok (ProcessedWebhookResult.mk
                (WebhookResult.success result
                 && (if truthy_str secret then validated else true))
                (WebhookResult.rawPayload result)
                (WebhookResult.externalResourceId result)
                (WebhookResult.changeType result)
                (if truthy_str (WebhookResult.error result)
                 then WebhookResult.error result
                 else if WebhookResult.success result && negb validated
                         && truthy_str secret
                      then Some "Webhook signature validation skipped or failed."
                      else None))
      end
  end.

End WebhookRequest.

(* ------------------------------------------------------------------ *)
(** ** [IngestionOrchestrator] *)

Module IngestionOrchestrator.

Record t : Type := mk {
  sourceDataSource : option GSDataSource;
  dataTransformer : option IngestionDataTransformer;
  destination : option IDestinationPlugin;
  taskId : string
}.

Section ExecuteTask.
Variable E : Env.

(** The raw records taken from a successful source status. *)
Definition flatten (sourceResultStatus : GSStatus) : list jsval :=
  let d := data sourceResultStatus in
  if truthy d && truthy (getprop d "data")
  then match getprop d "data" with
       | JArr l => l
       | v => [v]
       end
  else if truthy d then [d] else [].

Definition items (n : nat) : jsval := JNum (Z.of_nat n).

(** The destination stage: [inl] is the status returned early, [inr] the
    value of [totalItemsProcessed] to go on with. *)
Definition deliver (o : t) (transformedData : list jsval)
  : M (GSStatus + nat) :=
  match destination o with
  | Some dest =>
      try_catch
        (sendResult <- call (DestinationProcessData (taskId o) transformedData)
                            (fun h => processData dest h transformedData) ;;
         if negb (success sendResult)
         then
           let failureStatus :=
             GSStatus4 false 500
               ("Destination processing failed for task " ++ taskId o ++ ": "
                ++ tmpl (message sendResult))%string
               (JObj [("itemsProcessed", items 0);
                      ("data", data sendResult)]) in
           emit (TASK_FAILED (taskId o) failureStatus) ;;
           ret (inl failureStatus)
         else
           emit (DATA_PROCESSED transformedData (taskId o)) ;;
           ret (inr (length transformedData)))
        (fun sendError =>
           let failureStatus :=
             GSStatus4 false 500
               ("Error during destination processing for task " ++ taskId o
                ++ ": " ++ sendError)%string
               (JObj [("itemsProcessed", items 0);
                      ("data", JStr sendError)]) in
           emit (TASK_FAILED (taskId o) failureStatus) ;;
           ret (inl failureStatus))
  | None => ret (inr (length transformedData))
  end.

Definition executeTask (o : t) (ctx : GSContext)
  (initialPayload : option Payload.t) : M GSStatus :=
  match sourceDataSource o, dataTransformer o with
  | Some src, Some transform =>
      try_catch
        (call (SourceInitClient (taskId o)) (initClient src) ;;
         sourceResultStatus <-
           call (SourceExecute (taskId o) initialPayload)
                (fun h => execute src h ctx initialPayload) ;;
         if success sourceResultStatus
         then
           let rawData := flatten sourceResultStatus in
           emit (DATA_FETCHED rawData (taskId o)) ;;
           now <- gets (fun w => wallClock E (history w)) ;;
           let payloadWithFetchedAt :=
             mkPayloadWithFetchedAt initialPayload now in
           transformedData <-
             call (Transform (taskId o) rawData)
                  (fun h => transform h rawData payloadWithFetchedAt) ;;
           emit (DATA_TRANSFORMED transformedData (taskId o)) ;;
           match transformedData with
           | [] =>
               let status :=
                 GSStatus4 true 200
                   "Ingestion task completed: No data from source."
                   (JObj [("itemsProcessed", items 0)]) in
               emit (TASK_COMPLETED (taskId o) status) ;;
               ret status
           | _ :: _ =>
               delivered <- deliver o transformedData ;;
               match delivered with
               | inl failureStatus => ret failureStatus
               | inr totalItemsProcessed =>
                   let successStatus :=
                     GSStatus4 true 200
                       "Ingestion task completed successfully."
                       (JObj [("itemsProcessed",
                               items totalItemsProcessed)]) in
                   emit (TASK_COMPLETED (taskId o) successStatus) ;;
                   ret successStatus
               end
           end
         else
           let errorMessage :=
             ("Source execution failed for task " ++ taskId o ++ ": "
              ++ tmpl (message sourceResultStatus))%string in
           emit (TASK_FAILED (taskId o)
                   (mkGSStatus false None (Some errorMessage)
                               (data sourceResultStatus))) ;;
           ret (GSStatus4 false 500 errorMessage
                  (JObj [("data", data sourceResultStatus)])))
        (fun error_message =>
           (* every statement that can throw runs while
              [totalItemsProcessed] is still 0 *)
           let errorMessage :=
             ("Ingestion task " ++ taskId o ++ " failed: "
              ++ error_message)%string in
           let failureStatus :=
             GSStatus4 false 500 errorMessage
               (JObj [("itemsProcessed", items 0);
                      ("data", JStr error_message)]) in
           emit (TASK_FAILED (taskId o) failureStatus) ;;
           ret failureStatus)
  | _, _ =>
      let errorMessage :=
        "Orchestrator not fully configured. DataSource and dataTransformer are required." in
      emit (TASK_FAILED (taskId o)
              (mkGSStatus false None (Some errorMessage) JUndef)) ;;
      ret (GSStatus3 false 400 errorMessage)
  end.

End ExecuteTask.
End IngestionOrchestrator.

(* ------------------------------------------------------------------ *)
(** ** [GlobalIngestionLifecycleManager] *)

Module GlobalIngestionLifecycleManager.

Module DB := InMemoryDatabaseService.

(** Reads of [(trigger as WebhookTrigger).x]: the cast is unchecked, so a
    trigger of another type yields [undefined]. *)
Definition as_endpointId (tr : IngestionTrigger) : option string :=
  match tr with Webhook w => Some (WebhookTrigger.endpointId w) | _ => None end.

Definition as_callbackurl (tr : IngestionTrigger) : option string :=
  match tr with Webhook w => Some (WebhookTrigger.callbackurl w) | _ => None end.

Definition as_credentials (tr : IngestionTrigger) : jsval :=
  match tr with Webhook w => WebhookTrigger.credentials w | _ => JUndef end.

Definition as_externalWebhookId (tr : IngestionTrigger) : option string :=
  match tr with Webhook w => WebhookTrigger.externalWebhookId w | _ => None end.

Definition as_secret (tr : IngestionTrigger) : option string :=
  match tr with Webhook w => WebhookTrigger.secret w | _ => None end.

(** [trigger.externalWebhookId = x; trigger.secret = s].  On a trigger that
    is not a webhook trigger the declared type has no such properties and the
    writes are dropped; no caller of [registerWebhook] in the source passes
    one. *)
Definition with_webhook_ids (tr : IngestionTrigger)
  (externalWebhookId secret : string) : IngestionTrigger :=
  match tr with
  | Webhook w =>
      Webhook (WebhookTrigger.mk (WebhookTrigger.endpointId w)
                 (WebhookTrigger.callbackurl w) (WebhookTrigger.credentials w)
                 (Some externalWebhookId) (Some secret))
  | _ => tr
  end.

(** [sourceConfig.k] *)
Definition cfg (sourceConfig : Config) (k : string) : option string :=
  assoc k sourceConfig.

Definition getSourceIdentifier (pluginType : string) (sourceConfig : Config)
  : option string :=
  if (pluginType =? "git-crawler")%string then cfg sourceConfig "repoUrl"
  else if (pluginType =? "googledrive-crawler")%string
  then cfg sourceConfig "folderId"
  else if (pluginType =? "teams-chat-crawler")%string
  then if truthy_str (cfg sourceConfig "meetingId")
       then cfg sourceConfig "meetingId"
       else cfg sourceConfig "chatId"
  else if (pluginType =? "http-crawler")%string then cfg sourceConfig "url"
  else None.

(** [array.includes(x)] on task ids. *)
Definition includes (x : string) (l : list string) : bool :=
  existsb (String.eqb x) l.

Section Manager.
Variable E : Env.

Definition extractRepoNameFromUrl (repoUrl : string) : string :=
  match URL_parse E repoUrl with
  | Some url =>
      let pathParts :=
        filter (fun part => negb (part =? EmptyString)%string)
               (split "/" (pathname url)) in
      match pathParts with
      | p0 :: p1 :: _ =>
          if (hostname url =? "github.com")%string
          then (p0 ++ "/" ++ p1)%string
          else repoUrl
      | _ => repoUrl
      end
  | None => repoUrl
  end.

(** The tail of the new-subscription branch of [registerWebhook], after the
    provider has answered. *)
Definition registerWebhook_finish (taskDefinition : Task)
  (sourceIdentifier secret : string)
  (registrationStatus : WebhookRegistrationResult) : M GSStatus :=
  let trigger := IngestionTaskDefinition.trigger taskDefinition in
  let taskId := IngestionTaskDefinition.id taskDefinition in
  if negb (reg_success registrationStatus)
     || negb (truthy_str (reg_externalId registrationStatus))
  then throw ("External webhook registration failed: "
              ++ str_or (reg_error registrationStatus) "Unknown error")%string
  else
    let externalWebhookId :=
      str_or (reg_externalId registrationStatus) EmptyString in
    let newWebhookEntry :=
      WebhookRegistryEntry.mk sourceIdentifier
        (tmpl (as_endpointId trigger)) secret externalWebhookId [taskId] true
        (js_or (reg_startpageToken registrationStatus) JUndef)
        (js_or (reg_nextPageToken registrationStatus) JUndef)
        (js_or (reg_otherCrawlerSpecificTokens registrationStatus) JUndef) in
    DB.saveWebhookRegistration newWebhookEntry ;;
    (* the writes to [trigger] and to the token properties of
       [taskDefinition] go to the stored object, which the update below
       assigns as well *)
    DB.updateTask taskId
      [IngestionTaskDefinition.Trigger
         (with_webhook_ids trigger externalWebhookId secret);
       IngestionTaskDefinition.EntryProps newWebhookEntry;
       IngestionTaskDefinition.StartPageToken
         (WebhookRegistryEntry.startPageToken newWebhookEntry);
       IngestionTaskDefinition.NextPageToken
         (WebhookRegistryEntry.nextPageToken newWebhookEntry);
       IngestionTaskDefinition.OtherCrawlerSpecificTokens
         (WebhookRegistryEntry.otherCrawlerSpecificTokens newWebhookEntry)] ;;
    ret (GSStatus3 true 200
           ("Webhook registered successfully for '" ++ sourceIdentifier
            ++ "'.")%string).

(** [taskDefinition] is the object held by the store under its id. *)
Definition registerWebhook (taskDefinition : Task) : M GSStatus :=
  let trigger := IngestionTaskDefinition.trigger taskDefinition in
  let sourceConfig := config (IngestionTaskDefinition.source taskDefinition) in
  let pluginType :=
    pluginType (IngestionTaskDefinition.source taskDefinition) in
  let taskId := IngestionTaskDefinition.id taskDefinition in
  match getSourceIdentifier pluginType sourceConfig with
  | Some sourceIdentifier =>
      if (sourceIdentifier =? EmptyString)%string
      then ret (GSStatus3 false 400
                  ("Webhook registration not supported or source identifier missing for plugin type '"
                   ++ pluginType ++ "'.")%string)
      else
        try_catch
          (existingWebhookEntry <- DB.getWebhookRegistration sourceIdentifier ;;
           match existingWebhookEntry with
           | Some entry =>
               (if negb (includes taskId
                           (WebhookRegistryEntry.registeredTasks entry))
                then
                  (* [push] on the stored array, then the update *)
                  DB.updateWebhookRegistration sourceIdentifier
                    [WebhookRegistryEntry.RegisteredTasks
                       (WebhookRegistryEntry.registeredTasks entry
                        ++ [taskId]);
                     WebhookRegistryEntry.WebhookFlag true]
                else ret tt) ;;
               DB.updateTask taskId
                 [IngestionTaskDefinition.Trigger
                    (with_webhook_ids trigger
                       (WebhookRegistryEntry.externalWebhookId entry)
                       (WebhookRegistryEntry.secret entry))] ;;
               ret (GSStatus3 true 200
                      ("Task associated with existing webhook for '"
                       ++ sourceIdentifier ++ "'.")%string)
           | None =>
               secret <- gets (fun w => randomBytes20_hex E (history w)) ;;
               if (pluginType =? "git-crawler")%string
               then
                 if negb (truthy (as_credentials trigger))
                 then throw "Git crawler webhook registration requires credentials in trigger."
                 else
                   let repoName :=
                     extractRepoNameFromUrl
                       (tmpl (cfg sourceConfig "repoUrl")) in
                   registrationStatus <-
                     call (ProviderRegister pluginType repoName
                             (tmpl (as_callbackurl trigger)) secret)
                          (fun h => provider_registerWebhook E h pluginType
                                      repoName (tmpl (as_callbackurl trigger))
                                      secret (as_credentials trigger)) ;;
                   registerWebhook_finish taskDefinition sourceIdentifier
                                          secret registrationStatus
               else if (pluginType =? "googledrive-crawler")%string
               then
                 if negb (truthy (as_credentials trigger))
                 then throw "Google Drive crawler webhook registration requires credentials in trigger."
                 else
                   let folderId := tmpl (cfg sourceConfig "folderId") in
                   registrationStatus <-
                     call (ProviderRegister pluginType folderId
                             (tmpl (as_callbackurl trigger)) secret)
                          (fun h => provider_registerWebhook E h pluginType
                                      folderId (tmpl (as_callbackurl trigger))
                                      secret (as_credentials trigger)) ;;
                   registerWebhook_finish taskDefinition sourceIdentifier
                                          secret registrationStatus
               else
                 ret (GSStatus3 false 400
                        "Unsupported webhook plugin type for external registration.")
           end)
          (fun error_message =>
             ret (GSStatus3 false 500
                    ("Failed to register webhook: " ++ error_message)%string))
  | None =>
      ret (GSStatus3 false 400
             ("Webhook registration not supported or source identifier missing for plugin type '"
              ++ pluginType ++ "'.")%string)
  end.

(** The provider step of [deregisterWebhook], reached when the last task of
    an entry has been removed. *)
Definition deregisterWebhook_external (task : Task) (webhookEntry : Entry)
  (sourceIdentifier : string) : M GSStatus :=
  let trigger := IngestionTaskDefinition.trigger task in
  let sourceConfig := config (IngestionTaskDefinition.source task) in
  let pluginType := pluginType (IngestionTaskDefinition.source task) in
  let finish (deregistrationStatus : WebhookDeregistrationResult)
    : M GSStatus :=
    if negb (dereg_success deregistrationStatus)
    then throw (match dereg_message deregistrationStatus with
                | Some m => m
                | None => EmptyString
                end)
    else
      DB.deleteWebhookRegistration sourceIdentifier ;;
      ret (GSStatus3 true 200 "Webhook deregistered successfully.") in
  if (WebhookRegistryEntry.externalWebhookId webhookEntry =? EmptyString)%string
  then ret (GSStatus3 false 500
              "Cannot deregister webhook: external ID missing.")
  else if (pluginType =? "git-crawler")%string
  then
    if negb (truthy (as_credentials trigger))
    then throw "Git crawler webhook deregistration requires credentials in trigger."
    else
      let repoName :=
        extractRepoNameFromUrl (tmpl (cfg sourceConfig "repoUrl")) in
      deregistrationStatus <-
        call (ProviderDeregister pluginType repoName
                (WebhookRegistryEntry.externalWebhookId webhookEntry))
             (fun h => provider_deregisterWebhook E h pluginType repoName
                         (WebhookRegistryEntry.externalWebhookId webhookEntry)
                         (as_credentials trigger)) ;;
      finish deregistrationStatus
  else if (pluginType =? "googledrive-crawler")%string
  then
    if negb (truthy (as_credentials trigger))
    then throw "Google Drive crawler webhook deregistration requires credentials in trigger."
    else
      deregistrationStatus <-
        call (ProviderDeregister pluginType
                (WebhookRegistryEntry.secret webhookEntry)
                (WebhookRegistryEntry.externalWebhookId webhookEntry))
             (fun h => provider_deregisterWebhook E h pluginType
                         (WebhookRegistryEntry.secret webhookEntry)
                         (WebhookRegistryEntry.externalWebhookId webhookEntry)
                         (as_credentials trigger)) ;;
      finish deregistrationStatus
  else
    ret (GSStatus3 false 400
           "Unsupported webhook plugin type for external deregistration.").

Definition deregisterWebhook (taskId : string) : M GSStatus :=
  task <- DB.getTask taskId ;;
  match task with
  | Some task =>
      if negb (is_webhook (IngestionTaskDefinition.trigger task))
      then ret (GSStatus3 false 404
                  ("Task with ID " ++ taskId
                   ++ " not found or is not a webhook task.")%string)
      else
        let sourceConfig := config (IngestionTaskDefinition.source task) in
        let pluginType := pluginType (IngestionTaskDefinition.source task) in
        if negb (truthy_str (getSourceIdentifier pluginType sourceConfig))
        then ret (GSStatus3 false 400
                    ("Webhook deregistration not supported or source identifier missing for plugin type '"
                     ++ pluginType ++ "'.")%string)
        else
          let sourceIdentifier :=
            tmpl (getSourceIdentifier pluginType sourceConfig) in
          try_catch
            (webhookEntry <- DB.getWebhookRegistration sourceIdentifier ;;
             match webhookEntry with
             | None => ret (GSStatus3 true 200 "Webhook already deregistered.")
             | Some webhookEntry =>
                 let updatedRegisteredTasks :=
                   filter (fun id => negb (id =? taskId)%string)
                          (WebhookRegistryEntry.registeredTasks webhookEntry) in
                 DB.updateWebhookRegistration sourceIdentifier
                   [WebhookRegistryEntry.RegisteredTasks
                      updatedRegisteredTasks] ;;
                 match updatedRegisteredTasks with
                 | [] =>
                     deregisterWebhook_external task webhookEntry
                                                sourceIdentifier
                 | _ :: _ =>
                     ret (GSStatus3 true 200
                            "Task removed, but other tasks are still using this webhook.")
                 end
             end)
            (fun error_message =>
               ret (GSStatus3 false 500
                      ("Failed to deregister webhook: "
                       ++ error_message)%string))
  | None =>
      ret (GSStatus3 false 404
             ("Task with ID " ++ taskId
              ++ " not found or is not a webhook task.")%string)
  end.

Definition registerSource (pluginType : string)
  (sourcePlugin : Config -> GSDataSource)
  (transformer : IngestionDataTransformer) : M unit :=
  update (set_registeredPlugins
            (fun r => RegisteredPlugins.mk
                        (JsMap.set pluginType
                           (mkSourceEntry sourcePlugin transformer)
                           (RegisteredPlugins.source r))
                        (RegisteredPlugins.destination r))).

Definition registerDestination (pluginType : string)
  (destinationPlugin : IDestinationPlugin) : M unit :=
  update (set_registeredPlugins
            (fun r => RegisteredPlugins.mk
                        (RegisteredPlugins.source r)
                        (JsMap.set pluginType destinationPlugin
                           (RegisteredPlugins.destination r)))).

(** [{ ...taskDefinition, id: taskId, currentStatus: SCHEDULED,
       lastRun: undefined, lastRunStatus: undefined }] *)
Definition taskToSave (taskDefinition : Task) (taskId : string) : Task :=
  IngestionTaskDefinition.assign taskDefinition
    [IngestionTaskDefinition.Id taskId;
     IngestionTaskDefinition.CurrentStatus SCHEDULED;
     IngestionTaskDefinition.LastRun None;
     IngestionTaskDefinition.LastRunStatus None].

Definition scheduleTask (taskDefinition : Task) : M GSStatus :=
  fresh <- gets (fun w => uuidv4 E (history w)) ;;
  let taskId :=
    if (IngestionTaskDefinition.id taskDefinition =? EmptyString)%string
    then fresh else IngestionTaskDefinition.id taskDefinition in
  existing <- DB.getTask taskId ;;
  match existing with
  | Some _ =>
      ret (GSStatus3 false 409
             ("Task '" ++ taskId ++ "' already exists.")%string)
  | None =>
      let taskToSave := taskToSave taskDefinition taskId in
      DB.saveTask taskToSave ;;
      emit (TASK_SCHEDULED taskToSave) ;;
      if IngestionTaskDefinition.enabled taskToSave
      then
        match IngestionTaskDefinition.trigger taskToSave with
        | Cron _ => ret (GSStatus3 true 200 "Task scheduled successfully.")
        | Webhook _ =>
            registrationStatus <- registerWebhook taskToSave ;;
            if negb (success registrationStatus)
            then
              DB.updateTask (IngestionTaskDefinition.id taskToSave)
                [IngestionTaskDefinition.CurrentStatus FAILED;
                 IngestionTaskDefinition.LastRunStatus
                   (Some registrationStatus)] ;;
              ret registrationStatus
            else ret (GSStatus3 true 200 "Task scheduled successfully.")
        | Manual => ret (GSStatus3 true 200 "Task scheduled successfully.")
        end
      else ret (GSStatus3 true 200 "Task scheduled successfully.")
  end.

Definition deleteTask (taskId : string) : M GSStatus :=
  task <- DB.getTask taskId ;;
  match task with
  | None =>
      ret (GSStatus3 false 404
             ("Task with ID " ++ taskId ++ " not found.")%string)
  | Some task =>
      (* [let res] stays [undefined] unless the trigger is a webhook *)
      res <- (if is_webhook (IngestionTaskDefinition.trigger task)
              then r <- deregisterWebhook taskId ;; ret (Some r)
              else ret None) ;;
      (* [!res?.success] *)
      if negb (match res with Some r => success r | None => false end)
      then ret (GSStatus3 false 403 "error in deleting task")
      else
        DB.deleteTask taskId ;;
        emit (TASK_DELETED taskId) ;;
        ret (GSStatus3 true 200 "Task deleted successfully.")
  end.

Definition getTask (taskId : string) : M (option Task) := DB.getTask taskId.

Definition listTasks : M (list Task) := DB.listAllTasks.

Definition is_undefined (v : jsval) : bool :=
  match v with JUndef => true | _ => false end.

(** The [updates] object that [runOrchestrator] builds from
    [finalStatus.data]. *)
Definition cursorUpdates (finalStatus : GSStatus)
  : list WebhookRegistryEntry.field :=
  let d := data finalStatus in
  (if is_undefined (getprop d "startPageToken") then []
   else [WebhookRegistryEntry.StartPageToken (getprop d "startPageToken")])
  ++ (if is_undefined (getprop d "nextPageToken") then []
      else [WebhookRegistryEntry.NextPageToken (getprop d "nextPageToken")])
  ++ (if is_undefined (getprop d "otherCrawlerSpecificTokens") then []
      else [WebhookRegistryEntry.OtherCrawlerSpecificTokens
              (getprop d "otherCrawlerSpecificTokens")]).

(** The cursor write-back that ends [runOrchestrator]. *)
Definition writeBackCursors (taskDefinition : Task) (finalStatus : GSStatus)
  : M unit :=
  let trigger := IngestionTaskDefinition.trigger taskDefinition in
  let sourceIdentifier :=
    getSourceIdentifier
      (pluginType (IngestionTaskDefinition.source taskDefinition))
      (config (IngestionTaskDefinition.source taskDefinition)) in
  if truthy_str sourceIdentifier && truthy (data finalStatus)
  then
    match cursorUpdates finalStatus with
    | [] => ret tt
    | (_ :: _) as updates =>
        try_catch
          (webhookEntry <-
             DB.getWebhookRegistration (tmpl sourceIdentifier) ;;
           match webhookEntry with
           | None =>
               DB.saveWebhookRegistration
                 (WebhookRegistryEntry.mk (tmpl sourceIdentifier)
                    (str_or (as_endpointId trigger) "unknown")
                    (str_or (as_secret trigger) "unknown")
                    (str_or (as_externalWebhookId trigger) "unknown")
                    [IngestionTaskDefinition.id taskDefinition] true
                    JUndef JUndef JUndef)
           | Some _ => ret tt
           end ;;
           DB.updateWebhookRegistration (tmpl sourceIdentifier) updates)
          (fun _ => ret tt)
    end
  else ret tt.

Definition runOrchestrator (ctx : GSContext) (taskDefinition : Task)
  (initialPayload : option Payload.t) : M GSStatus :=
  let taskId := IngestionTaskDefinition.id taskDefinition in
  let source := IngestionTaskDefinition.source taskDefinition in
  effect (RunOrchestrator taskId initialPayload) ;;
  emit (TASK_TRIGGERED taskId) ;;
  DB.updateTask taskId [IngestionTaskDefinition.CurrentStatus RUNNING] ;;
  sourceEntry <-
    gets (fun w => JsMap.get (pluginType source)
                     (RegisteredPlugins.source (registeredPlugins w))) ;;
  match sourceEntry with
  | None =>
      let status :=
        GSStatus3 false 500
          ("Orchestrator failed: Source plugin '" ++ pluginType source
           ++ "' not found for task '" ++ taskId ++ "'")%string in
      emit (TASK_FAILED taskId status) ;;
      DB.updateTask taskId
        [IngestionTaskDefinition.CurrentStatus FAILED;
         IngestionTaskDefinition.LastRunStatus (Some status)] ;;
      ret status
  | Some sourceEntry =>
      destinationPlugin <-
        gets (fun w =>
                match IngestionTaskDefinition.destination taskDefinition with
                | Some d =>
                    JsMap.get (pluginType d)
                      (RegisteredPlugins.destination (registeredPlugins w))
                | None => None
                end) ;;
      destinationInstance <-
        match destinationPlugin,
              IngestionTaskDefinition.destination taskDefinition with
        | Some dp, Some d =>
            call (DestinationInit taskId) (fun h => init dp h (config d)) ;;
            ret (Some dp)
        | _, _ => ret None
        end ;;
      let sourceInstance := plugin sourceEntry (config source) in
      let orchestrator :=
        IngestionOrchestrator.mk (Some sourceInstance)
          (Some (transformer sourceEntry)) destinationInstance taskId in
      finalStatus <-
        IngestionOrchestrator.executeTask E orchestrator ctx initialPayload ;;
      (if success finalStatus
       then
         emit (TASK_COMPLETED taskId finalStatus) ;;
         now <- gets (fun w => wallClock E (history w)) ;;
         DB.updateTask taskId
           [IngestionTaskDefinition.CurrentStatus COMPLETED;
            IngestionTaskDefinition.LastRun (Some now);
            IngestionTaskDefinition.LastRunStatus (Some finalStatus)]
       else
         emit (TASK_FAILED taskId finalStatus) ;;
         now <- gets (fun w => wallClock E (history w)) ;;
         DB.updateTask taskId
           [IngestionTaskDefinition.CurrentStatus FAILED;
            IngestionTaskDefinition.LastRun (Some now);
            IngestionTaskDefinition.LastRunStatus (Some finalStatus)]) ;;
      writeBackCursors taskDefinition finalStatus ;;
      ret finalStatus
  end.

(** [{ ...initialPayload, startPageToken, nextPageToken,
       otherCrawlerSpecificTokens }] from a registry entry. *)
Definition enrich (initialPayload : option Payload.t) (webhookEntry : Entry)
  : Payload.t :=
  let p := match initialPayload with Some p => p | None => Payload.empty end in
  Payload.mk (Payload.taskDefinition p) (Payload.webhookPayload p)
    (Payload.externalResourceId p) (Payload.changeType p)
    (WebhookRegistryEntry.startPageToken webhookEntry)
    (WebhookRegistryEntry.nextPageToken webhookEntry)
    (WebhookRegistryEntry.otherCrawlerSpecificTokens webhookEntry).

Definition triggerManualTask (ctx : GSContext) (taskId : string)
  (initialPayload : option Payload.t) : M GSStatus :=
  task <- DB.getTask taskId ;;
  match task with
  | None =>
      ret (GSStatus3 false 404
             ("Task with ID " ++ taskId ++ " not found.")%string)
  | Some task =>
      if negb (IngestionTaskDefinition.enabled task)
      then ret (GSStatus3 false 403
                  ("Task with ID " ++ taskId
                   ++ " is disabled and cannot be triggered manually.")%string)
      else
        let sourceIdentifier :=
          getSourceIdentifier
            (pluginType (IngestionTaskDefinition.source task))
            (config (IngestionTaskDefinition.source task)) in
        initialPayload <-
          (if truthy_str sourceIdentifier
           then
             webhookEntry <-
               DB.getWebhookRegistration (tmpl sourceIdentifier) ;;
             match webhookEntry with
             | Some e => ret (Some (enrich initialPayload e))
             | None => ret initialPayload
             end
           else ret initialPayload) ;;
        runOrchestrator ctx task initialPayload
  end.

(** The loop of [triggerWebhookTask] over [tasksToTriggerForResource]. *)
Fixpoint triggerWebhookTask_loop (ctx : GSContext)
  (finalProcessedResult : ProcessedWebhookResult.t)
  (tasksToTriggerForResource : list Task) (firstStatus : option GSStatus)
  : M (option GSStatus) :=
  match tasksToTriggerForResource with
  | [] => ret firstStatus
  | task :: rest =>
      taskToExecute <- DB.getTask (IngestionTaskDefinition.id task) ;;
      match taskToExecute with
      | None =>
          triggerWebhookTask_loop ctx finalProcessedResult rest firstStatus
      | Some taskToExecute =>
          let sourceIdentifier :=
            getSourceIdentifier
              (pluginType (IngestionTaskDefinition.source taskToExecute))
              (config (IngestionTaskDefinition.source taskToExecute)) in
          currentWebhookState <-
            (if truthy_str sourceIdentifier
             then DB.getWebhookRegistration (tmpl sourceIdentifier)
             else ret None) ;;
          let token (f : Entry -> jsval) : jsval :=
            match currentWebhookState with
            | Some e => f e
            | None => JUndef
            end in
          let initialPayload :=
            Payload.mk (Some taskToExecute)
              (ProcessedWebhookResult.payload finalProcessedResult)
              (ProcessedWebhookResult.externalResourceId finalProcessedResult)
              (ProcessedWebhookResult.changeType finalProcessedResult)
              (token WebhookRegistryEntry.startPageToken)
              (token WebhookRegistryEntry.nextPageToken)
              (token WebhookRegistryEntry.otherCrawlerSpecificTokens) in
          status <- runOrchestrator ctx taskToExecute (Some initialPayload) ;;
          triggerWebhookTask_loop ctx finalProcessedResult rest
            (match firstStatus with
             | Some s => Some s
             | None => Some status
             end)
      end
  end.

Definition triggerWebhookTask (ctx : GSContext) (endpointId : string)
  (rawRequest : jsval) (requestHeaders : Headers) : M GSStatus :=
  allWebhookTasksForEndpoint <- DB.listAllTasks ;;
  let tasksMatchingEndpoint :=
    filter (fun t =>
              IngestionTaskDefinition.enabled t
              && match IngestionTaskDefinition.trigger t with
                 | Webhook w => (WebhookTrigger.endpointId w =? endpointId)%string
                 | _ => false
                 end)
           allWebhookTasksForEndpoint in
  match tasksMatchingEndpoint with
  | [] =>
      ret (GSStatus3 false 404
             ("(from trg webhook)No enabled tasks found for webhook endpoint ID: "
              ++ endpointId ++ ".")%string)
  | first :: _ =>
      try_catch
        (let webhookService :=
           pluginType (IngestionTaskDefinition.source first) in
         initialProcessedResult <-
           lift (processWebhookRequest E webhookService requestHeaders
                   None rawRequest) ;;
         if negb (ProcessedWebhookResult.isValid initialProcessedResult)
         then ret (GSStatus3 false 400
                     (str_or (ProcessedWebhookResult.error
                                initialProcessedResult)
                        ("Preliminary webhook processing failed for endpoint "
                         ++ endpointId ++ ".")%string))
         else if negb (truthy_str (ProcessedWebhookResult.externalResourceId
                                     initialProcessedResult))
         then ret (GSStatus3 false 400
                     ("Webhook processed successfully but could not extract externalResourceId for endpoint "
                      ++ endpointId ++ ".")%string)
         else
           let externalResourceId :=
             tmpl (ProcessedWebhookResult.externalResourceId
                     initialProcessedResult) in
           webhookEntry <- DB.getWebhookRegistration externalResourceId ;;
           match webhookEntry with
           | None =>
               ret (GSStatus3 true 200
                      ("No webhook registration found for resource '"
                       ++ externalResourceId ++ "' linked to endpoint '"
                       ++ endpointId ++ "'.")%string)
           | Some webhookEntry =>
               finalProcessedResult <-
                 lift (processWebhookRequest E webhookService
                         requestHeaders
                         (Some (WebhookRegistryEntry.secret webhookEntry))
                         rawRequest) ;;
               if negb (ProcessedWebhookResult.isValid finalProcessedResult)
               then ret (GSStatus3 false 401
                           (str_or (ProcessedWebhookResult.error
                                      finalProcessedResult)
                              "Webhook request signature validation failed."))
               else if match ProcessedWebhookResult.externalResourceId
                                  finalProcessedResult with
                        | Some r => negb (r =? externalResourceId)%string
                        | None => true
                        end
               then ret (GSStatus3 false 500
                           ("Resource ID mismatch after full webhook validation. Initial: "
                            ++ externalResourceId ++ ", Final: "
                            ++ tmpl (ProcessedWebhookResult.externalResourceId
                                       finalProcessedResult))%string)
               else
                 let tasksToTriggerForResource :=
                   filter (fun task =>
                             includes (IngestionTaskDefinition.id task)
                               (WebhookRegistryEntry.registeredTasks
                                  webhookEntry))
                          tasksMatchingEndpoint in
                 match tasksToTriggerForResource with
                 | [] =>
                     ret (GSStatus3 true 200
                            ("Webhook registration for resource '"
                             ++ externalResourceId
                             ++ "' exists, but no enabled tasks are currently linked to it.")%string)
                 | _ :: _ =>
                     firstStatus <-
                       triggerWebhookTask_loop ctx finalProcessedResult
                         tasksToTriggerForResource None ;;
                     match firstStatus with
                     | Some s => ret s
                     | None =>
                         ret (GSStatus3 false 500
                                "Webhook could not be triggered due to an unknown error.")
                     end
                 end
           end)
        (fun err_message =>
           ret (GSStatus3 false 500
                  ("Error processing webhook payload: " ++ err_message)%string))
  end.

(** The due test of [triggerAllEnabledCronTasks], on millisecond
    timestamps. *)
Definition isDue (now previousRunTime : Z) (lastRun : option Z) : bool :=
  let sixtyFiveSecondsAgo := now - 65 * 1000 in
  (previousRunTime >? sixtyFiveSecondsAgo)
  && (previousRunTime <=? now)
  && match lastRun with
     | None => true
     | Some lastRun => lastRun <? previousRunTime
     end.

Definition js_of_status (st : GSStatus) : jsval :=
  JObj [("success", JBool (success st));
        ("code", match code st with Some c => JNum c | None => JUndef end);
        ("message", opt_to_js (message st));
        ("data", data st)].

Definition js_of_results (results : list (string * GSStatus)) : jsval :=
  JArr (map (fun r => JObj [("taskId", JStr (fst r));
                            ("status", js_of_status (snd r))]) results).

(** One turn of the loop of [triggerAllEnabledCronTasks].  The loop variable
    is a reference to a stored task object; [key] is the key that object is
    stored under, and the object is read where the source reads it. *)
Definition cronTurn (ctx : GSContext) (now : Z) (key : string)
  (acc : list (string * GSStatus) * nat)
  : M (list (string * GSStatus) * nat) :=
  let '(results, tasksDueCount) := acc in
  stored <- gets (fun w => JsMap.get key (tasks w)) ;;
  match stored with
  | None => ret acc
  | Some task =>
      match IngestionTaskDefinition.enabled task,
            IngestionTaskDefinition.trigger task with
      | true, Cron expression =>
          try_catch
            (previousRunTime <- lift (cron_prev E expression now) ;;
             if isDue now previousRunTime (IngestionTaskDefinition.lastRun task)
             then
               let sourceIdentifier :=
                 getSourceIdentifier
                   (pluginType (IngestionTaskDefinition.source task))
                   (config (IngestionTaskDefinition.source task)) in
               _enriched <-
                 (if truthy_str sourceIdentifier
                  then
                    webhookEntry <-
                      DB.getWebhookRegistration (tmpl sourceIdentifier) ;;
                    match webhookEntry with
                    | Some e => ret (enrich None e)
                    | None => ret Payload.empty
                    end
                  else ret Payload.empty) ;;
               (* the next assignment of the source replaces the payload
                  built above *)
               let initialPayload :=
                 Payload.mk (Some task) (JStr EmptyString) None None
                            JUndef JUndef JUndef in
               tried <-
                 try_catch
                   (status <- runOrchestrator ctx task (Some initialPayload) ;;
                    ret (inr status))
                   (fun error_message => ret (inl error_message)) ;;
               match tried with
               | inr status =>
                   ret (results
                        ++ [(IngestionTaskDefinition.id task, status)],
                        S tasksDueCount)
               | inl error_message =>
                   ret (results
                        ++ [(IngestionTaskDefinition.id task,
                             mkGSStatus false (Some 500)
                               (Some ("Cron expression parse error: "
                                      ++ error_message)%string) JUndef)],
                        S tasksDueCount)
               end
             else ret acc)
            (fun error_message =>
               ret (results
                    ++ [(IngestionTaskDefinition.id task,
                         mkGSStatus false (Some 500)
                           (Some ("Cron expression parse error: "
                                  ++ error_message)%string) JUndef)],
                    tasksDueCount))
      | _, _ => ret acc
      end
  end.

Fixpoint cronLoop (ctx : GSContext) (now : Z) (allTasks : list string)
  (acc : list (string * GSStatus) * nat)
  : M (list (string * GSStatus) * nat) :=
  match allTasks with
  | [] => ret acc
  | key :: rest =>
      acc' <- cronTurn ctx now key acc ;;
      cronLoop ctx now rest acc'
  end.

Definition triggerAllEnabledCronTasks (ctx : GSContext) : M GSStatus :=
  wall <- gets (fun w => wallClock E (history w)) ;;
  let now := match event_time ctx with Some t => t | None => wall end in
  allTasks <- gets (fun w => JsMap.keys (tasks w)) ;;
  acc <- cronLoop ctx now allTasks ([], O) ;;
  let '(results, tasksDueCount) := acc in
  match tasksDueCount with
  | O => ret (GSStatus3 true 200 "No enabled cron tasks were due.")
  | S _ =>
      let successful :=
        length (filter (fun r => success (snd r)) results) in
      let failed := (length results - successful)%nat in
      if (0 <? failed)%nat
      then ret (GSStatus4 false 500
                  ("Cron triggered " ++ nat_to_string tasksDueCount
                   ++ " tasks. " ++ nat_to_string successful
                   ++ " succeeded, " ++ nat_to_string failed
                   ++ " failed.")%string
                  (JObj [("data", js_of_results results)]))
      else ret (GSStatus4 true 200
                  ("Successfully triggered " ++ nat_to_string successful
                   ++ " cron tasks.")%string
                  (JObj [("data", js_of_results results)]))
  end.

(** The own properties of a task object, as [Object.assign] copies them
    from it. *)
Definition ownProperties (t : Task) : list IngestionTaskDefinition.field :=
  [IngestionTaskDefinition.Id (IngestionTaskDefinition.id t);
   IngestionTaskDefinition.Name (IngestionTaskDefinition.name t);
   IngestionTaskDefinition.Enabled (IngestionTaskDefinition.enabled t);
   IngestionTaskDefinition.Source (IngestionTaskDefinition.source t);
   IngestionTaskDefinition.Destination
     (IngestionTaskDefinition.destination t);
   IngestionTaskDefinition.Trigger (IngestionTaskDefinition.trigger t);
   IngestionTaskDefinition.CurrentStatus
     (IngestionTaskDefinition.currentStatus t);
   IngestionTaskDefinition.LastRun (IngestionTaskDefinition.lastRun t);
   IngestionTaskDefinition.LastRunStatus
     (IngestionTaskDefinition.lastRunStatus t);
   IngestionTaskDefinition.StartPageToken
     (IngestionTaskDefinition.startPageToken t);
   IngestionTaskDefinition.NextPageToken
     (IngestionTaskDefinition.nextPageToken t);
   IngestionTaskDefinition.OtherCrawlerSpecificTokens
     (IngestionTaskDefinition.otherCrawlerSpecificTokens t)]
  ++ match IngestionTaskDefinition.entryProps t with
     | Some e => [IngestionTaskDefinition.EntryProps e]
     | None => []
     end.

(** [updates.enabled]: the value the object holds under that key, if any. *)
Definition updates_enabled (updates : list IngestionTaskDefinition.field)
  : option bool :=
  fold_left (fun acc f =>
               match f with
               | IngestionTaskDefinition.Enabled b => Some b
               | _ => acc
               end)
            updates None.

(** [a !== b] on two source identifiers. *)
Definition identifier_differs (a b : option string) : bool :=
  match a, b with
  | Some x, Some y => negb (x =? y)%string
  | None, None => false
  | _, _ => true
  end.

(** The block of [updateTask] that handles webhook changes.  [oldTask] is
    the JSON copy taken before the update (the block reads its [id], its
    trigger type and its [source], which the copy keeps); [updatedTask] is
    the merged object, whose trigger object is the one the stored task now
    holds, so that what [registerWebhook] writes through it reaches the
    stored task as its update by id does. *)
Definition updateTask_webhooks (taskId : string) (oldTask updatedTask : Task)
  (updates : list IngestionTaskDefinition.field) : M unit :=
  let oldTrigger := IngestionTaskDefinition.trigger oldTask in
  let newTrigger := IngestionTaskDefinition.trigger updatedTask in
  if is_webhook oldTrigger || is_webhook newTrigger
  then
    if is_webhook oldTrigger && negb (is_webhook newTrigger)
    then deregisterWebhook (IngestionTaskDefinition.id oldTask) ;; ret tt
    else if is_webhook newTrigger
    then
      let oldSourceIdentifier :=
        getSourceIdentifier
          (pluginType (IngestionTaskDefinition.source oldTask))
          (config (IngestionTaskDefinition.source oldTask)) in
      let newSourceIdentifier :=
        getSourceIdentifier
          (pluginType (IngestionTaskDefinition.source updatedTask))
          (config (IngestionTaskDefinition.source updatedTask)) in
      if identifier_differs oldSourceIdentifier newSourceIdentifier
         || negb (truthy_str (as_externalWebhookId newTrigger))
      then
        (if truthy_str oldSourceIdentifier
         then deregisterWebhook (IngestionTaskDefinition.id oldTask) ;; ret tt
         else ret tt) ;;
        (if IngestionTaskDefinition.enabled updatedTask
         then registerWebhook updatedTask ;; ret tt
         else ret tt)
      else
        match updates_enabled updates with
        | Some false => deregisterWebhook taskId ;; ret tt
        | Some true =>
            if negb (truthy_str (as_externalWebhookId newTrigger))
            then registerWebhook updatedTask ;; ret tt
            else ret tt
        | None => ret tt
        end
    else ret tt
  else ret tt.

Definition updateTask (taskId : string)
  (updates : list IngestionTaskDefinition.field) : M GSStatus :=
  existingTask <- DB.getTask taskId ;;
  match existingTask with
  | None =>
      ret (GSStatus3 false 404
             ("Task with ID " ++ taskId ++ " not found.")%string)
  | Some existingTask =>
      let oldTask := existingTask in
      (* [{ ...existingTask, ...updates }] *)
      let updatedTask :=
        IngestionTaskDefinition.assign existingTask updates in
      DB.updateTask taskId (ownProperties updatedTask) ;;
      emit (TASK_UPDATED updatedTask) ;;
      updateTask_webhooks taskId oldTask updatedTask updates ;;
      ret (GSStatus3 true 200 "Task updated successfully.")
  end.

Definition enableTask (taskId : string) : M GSStatus :=
  task <- DB.getTask taskId ;;
  match task with
  | None =>
      ret (GSStatus3 false 404
             ("Task with ID " ++ taskId ++ " not found.")%string)
  | Some task =>
      if IngestionTaskDefinition.enabled task
      then ret (GSStatus3 true 200 "Task is already enabled.")
      else updateTask taskId [IngestionTaskDefinition.Enabled true]
  end.

Definition disableTask (taskId : string) : M GSStatus :=
  task <- DB.getTask taskId ;;
  match task with
  | None =>
      ret (GSStatus3 false 404
             ("Task with ID " ++ taskId ++ " not found.")%string)
  | Some task =>
      if negb (IngestionTaskDefinition.enabled task)
      then ret (GSStatus3 true 200 "Task is already disabled.")
      else updateTask taskId [IngestionTaskDefinition.Enabled false]
  end.

(** One turn of the loop of [start]; as in [cronTurn], the loop variable is
    the object stored under [key]. *)
Definition startTurn (key : string) : M unit :=
  stored <- gets (fun w => JsMap.get key (tasks w)) ;;
  match stored with
  | None => ret tt
  | Some task =>
      if IngestionTaskDefinition.enabled task
      then
        if is_webhook (IngestionTaskDefinition.trigger task)
        then registerWebhook task ;; ret tt
        else ret tt
      else ret tt
  end.

Fixpoint startLoop (allTasks : list string) : M unit :=
  match allTasks with
  | [] => ret tt
  | key :: rest => startTurn key ;; startLoop rest
  end.

Definition start : M unit :=
  allTasks <- gets (fun w => JsMap.keys (tasks w)) ;;
  startLoop allTasks.

End Manager.
End GlobalIngestionLifecycleManager.

(* ------------------------------------------------------------------ *)
(** ** A small concrete platform, used to instantiate the statements *)

Module Toy.

Definition dq : string := String (ascii_of_nat 34) EmptyString.

(** The text [{"repository":{"full_name":"ex/r"},"deleted":false}]. *)
Definition pushBody : string :=
  ("{" ++ dq ++ "repository" ++ dq ++ ":{" ++ dq ++ "full_name" ++ dq ++ ":"
   ++ dq ++ "ex/r" ++ dq ++ "}," ++ dq ++ "deleted" ++ dq ++ ":false}")%string.

Definition pushPayload : jsval :=
  JObj [("repository", JObj [("full_name", JStr "ex/r")]);
        ("deleted", JBool false)].

Definition parse (s : string) : option jsval :=
  if (s =? pushBody)%string then Some pushPayload else None.

Definition urlParse (s : string) : option URLParts :=
  if (s =? "https://github.com/ex/r")%string
  then Some (mkURLParts "github.com" "/ex/r")
  else None.

(** A stand-in digest: the examples only need some fixed hex text. *)
Definition hmac (secret body : string) : string :=
  "5d5b09f6dcb2d53a5fffc60c4ac0d55fabdf556069d6631545f42aa6e3500f2e".

(** Every minute, on timestamps counted from midnight: the last whole
    minute strictly before [now]. *)
Definition cronPrev (expression : string) (now : Z) : Result Z :=
  if (expression =? "*/1 * * * *")%string
  then Ok (60000 * ((now - 1) / 60000))
  else Throw "Invalid cron expression".

(** The clock shows 12:00:30 and advances one millisecond per effect. *)
Definition clock (h : History) : Z := 43230000 + Z.of_nat (length h).

Definition register (h : History) (pluginType resource callbackUrl
  secret : string) (credentials : jsval) : Result WebhookRegistrationResult :=
  Ok (mkWebhookRegistrationResult true (Some "42") (JStr "t0") JUndef JUndef
        None).

Definition deregister (answer : bool) (h : History) (pluginType webhookId
  resourceId : string) (credentials : jsval)
  : Result WebhookDeregistrationResult :=
  Ok (mkWebhookDeregistrationResult answer None).

(** [deregisterOk] tells whether the provider accepts deregistrations. *)
Definition env (deregisterOk : bool) : Env :=
  mkEnv parse (fun _ => pushBody) (fun _ => "[object Object]") urlParse hmac
        cronPrev
        (fun h => ("uuid-" ++ nat_to_string (length h))%string)
        (fun _ => "0f1e2d3c4b5a69788796a5b4c3d2e1f00f1e2d3c")
        clock register (deregister deregisterOk).

(** A source that returns two records and a continuation cursor. *)
Definition source (c : Config) : GSDataSource :=
  mkGSDataSource
    (fun _ => Ok tt)
    (fun _ _ _ =>
       Ok (GSStatus4 true 200 "ok"
             (JObj [("data", JArr [JStr "a"; JStr "b"]);
                    ("nextPageToken", JStr "n9")]))).

Definition passthrough : IngestionDataTransformer :=
  fun _ rawData _ => Ok rawData.

(** A transformer that keeps nothing. *)
Definition dropAll : IngestionDataTransformer := fun _ _ _ => Ok [].

Definition sink : IDestinationPlugin :=
  mkIDestinationPlugin (fun _ _ => Ok tt)
    (fun _ _ => Ok (GSStatus3 true 200 "stored")).

Definition plugins : RegisteredPlugins.t :=
  RegisteredPlugins.mk
    [("git-crawler", mkSourceEntry source passthrough);
     ("googledrive-crawler", mkSourceEntry source passthrough)]
    [("file-system-destination", sink)].

Definition task (id : string) (src : PluginRef) (tr : IngestionTrigger)
  : Task :=
  IngestionTaskDefinition.mk id id true src
    (Some (mkPluginRef "file-system-destination" [("outputPath", "./out")]))
    tr SCHEDULED None None JUndef JUndef JUndef None.

Definition gitRepo : PluginRef :=
  mkPluginRef "git-crawler" [("repoUrl", "https://github.com/ex/r")].

Definition driveFolder : PluginRef :=
  mkPluginRef "googledrive-crawler" [("folderId", "f1")].

Definition hook : IngestionTrigger :=
  Webhook (WebhookTrigger.mk "/gh" "https://cb.example/gh" (JStr "pat") None
             None).

(** The trigger of a task whose webhook is registered. *)
Definition hooked : IngestionTrigger :=
  Webhook (WebhookTrigger.mk "/gh" "https://cb.example/gh" (JStr "pat")
             (Some "42") (Some "s3cr3t")).

(** The registry entry of the repository, fanned out to [ids]. *)
Definition entry (ids : list string) : Entry :=
  WebhookRegistryEntry.mk "https://github.com/ex/r" "/gh" "s3cr3t" "42" ids
    true (JStr "t0") (JStr "n1") JUndef.

Definition world (ts : JsMap.t Task) (reg : JsMap.t Entry) : World :=
  mkWorld ts reg plugins [].

End Toy.

(* ------------------------------------------------------------------ *)
(** ** Vocabulary of the statements *)

Module Ops := GlobalIngestionLifecycleManager.
Module DB := InMemoryDatabaseService.

(** Every run of [m] takes a world to an [R]-related one. *)
Definition respects (R : World -> World -> Prop) {A : Type} (m : M A) : Prop :=
  forall w, R w (snd (m w)).

(** Every value [m] returns satisfies [P]. *)
Definition returns {A : Type} (P : A -> Prop) (m : M A) : Prop :=
  forall w a w', m w = (Ok a, w') -> P a.

(** [m] never throws. *)
Definition total {A : Type} (m : M A) : Prop :=
  forall w, exists a, fst (m w) = Ok a.

(** The effects an operation added when it took [w] to [w']. *)
Definition new_effects (w w' : World) : History :=
  skipn (length (history w)) (history w').

Definition is_run (e : Effect) : bool :=
  match e with RunOrchestrator _ _ => true | _ => false end.

(** [runOrchestrator] was invoked for [taskId] between [w] and [w']. *)
Definition executed (taskId : string) (w w' : World) : Prop :=
  exists p, In (RunOrchestrator taskId p) (new_effects w w').

(** Frames. *)
Definition same_tasks (w w' : World) : Prop := tasks w' = tasks w.

Definition same_registry (w w' : World) : Prop :=
  webhookRegistrations w' = webhookRegistrations w.

Definition same_plugins (w w' : World) : Prop :=
  registeredPlugins w' = registeredPlugins w.


(** The store holds every task under its own id, once. *)
Definition keyed_by_id (ts : JsMap.t Task) : Prop :=
  NoDup (JsMap.keys ts)
  /\ forall k t, JsMap.get k ts = Some t -> IngestionTaskDefinition.id t = k.

(** The [catch] clause of [deregisterWebhook]. *)
Definition deregisterWebhook_catch (error_message : string) : M GSStatus :=
  ret (GSStatus3 false 500
         ("Failed to deregister webhook: " ++ error_message)%string).

(** A trigger without the two properties that registration fills in. *)
Definition trigger_core (tr : IngestionTrigger) : IngestionTrigger :=
  match tr with
  | Webhook w =>
      Webhook (WebhookTrigger.mk (WebhookTrigger.endpointId w)
                 (WebhookTrigger.callbackurl w) (WebhookTrigger.credentials w)
                 None None)
  | _ => tr
  end.


(** The two shapes of the update that a successful [registerWebhook] applies
    to the stored task: the ids of an existing entry, or the ids, fields and
    cursors of the new entry [e]. *)
Definition joined_update (tr : IngestionTrigger) (e : Entry)
  : list IngestionTaskDefinition.field :=
  [IngestionTaskDefinition.Trigger
     (GlobalIngestionLifecycleManager.with_webhook_ids tr
        (WebhookRegistryEntry.externalWebhookId e)
        (WebhookRegistryEntry.secret e))].

Definition created_update (tr : IngestionTrigger) (e : Entry)
  : list IngestionTaskDefinition.field :=
  [IngestionTaskDefinition.Trigger
     (GlobalIngestionLifecycleManager.with_webhook_ids tr
        (WebhookRegistryEntry.externalWebhookId e)
        (WebhookRegistryEntry.secret e));
   IngestionTaskDefinition.EntryProps e;
   IngestionTaskDefinition.StartPageToken
     (WebhookRegistryEntry.startPageToken e);
   IngestionTaskDefinition.NextPageToken
     (WebhookRegistryEntry.nextPageToken e);
   IngestionTaskDefinition.OtherCrawlerSpecificTokens
     (WebhookRegistryEntry.otherCrawlerSpecificTokens e)].


(** The history grows by effects that all satisfy [P]. *)
Definition grows_by (P : Effect -> bool) (w w' : World) : Prop :=
  exists l, history w' = history w ++ l /\ forallb P l = true.

(** The history grows by effects that are not orchestrator invocations. *)
Definition quiet : World -> World -> Prop :=
  grows_by (fun e => negb (is_run e)).

(** What no run changes on a task. *)
Definition static_eq (t t' : Task) : Prop :=
  IngestionTaskDefinition.id t' = IngestionTaskDefinition.id t
  /\ IngestionTaskDefinition.enabled t' = IngestionTaskDefinition.enabled t
  /\ IngestionTaskDefinition.trigger t' = IngestionTaskDefinition.trigger t
  /\ IngestionTaskDefinition.source t' = IngestionTaskDefinition.source t.

(** Only the task stored under [k] may have changed, and not in what
    [static_eq] compares; the plugin registry is the same. *)
Definition untouched_except (k : string) (w w' : World) : Prop :=
  JsMap.keys (tasks w') = JsMap.keys (tasks w)
  /\ (forall k', k' <> k -> JsMap.get k' (tasks w') = JsMap.get k' (tasks w))
  /\ (forall t, JsMap.get k (tasks w) = Some t ->
                exists t', JsMap.get k (tasks w') = Some t' /\ static_eq t t')
  /\ registeredPlugins w' = registeredPlugins w.

(** Every stored task keeps what [static_eq] compares. *)
Definition statics_kept (w w' : World) : Prop :=
  JsMap.keys (tasks w') = JsMap.keys (tasks w)
  /\ (forall k t, JsMap.get k (tasks w) = Some t ->
                  exists t', JsMap.get k (tasks w') = Some t' /\ static_eq t t')
  /\ registeredPlugins w' = registeredPlugins w.

(** If the task under [k] is marked completed, its [lastRun] is a reading of
    the wall clock. *)
Definition completed_has_lastRun (E : Env) (k : string) (w : World) : Prop :=
  forall t, JsMap.get k (tasks w) = Some t ->
            IngestionTaskDefinition.currentStatus t = COMPLETED ->
            exists h, IngestionTaskDefinition.lastRun t = Some (wallClock E h).

Definition keeps_completed_has_lastRun (E : Env) (k : string) (w w' : World)
  : Prop :=
  completed_has_lastRun E k w -> completed_has_lastRun E k w'.

(** The verdict of [triggerAllEnabledCronTasks] on a stored task at time
    [now]. *)
Definition dueb (E : Env) (now : Z) (t : Task) : bool :=
  match IngestionTaskDefinition.enabled t, IngestionTaskDefinition.trigger t with
  | true, Cron expression =>
      match cron_prev E expression now with
      | Ok previousRunTime =>
          GlobalIngestionLifecycleManager.isDue now previousRunTime
            (IngestionTaskDefinition.lastRun t)
      | Throw _ => false
      end
  | _, _ => false
  end.

(** The payload [triggerAllEnabledCronTasks] hands to the orchestrator. *)
Definition cronPayload (t : Task) : Payload.t :=
  Payload.mk (Some t) (JStr EmptyString) None None JUndef JUndef JUndef.

(** [ctx.event?.time || new Date()] *)
Definition now_of (E : Env) (ctx : GSContext) (w : World) : Z :=
  match event_time ctx with
  | Some t => t
  | None => wallClock E (history w)
  end.

(** The text [processWebhookRequest] hands to the handlers; [None] for a
    body that is neither an object nor a string. *)
Definition bodyStringOf (E : Env) (body : jsval) : option string :=
  match body with
  | JObj _ | JArr _ => Some (JSON_stringify E body)
  | JStr s => Some s
  | _ => None
  end.

(** [headers['x-hub-signature-256'] || headers['x-hub-signature']] *)
Definition signature_header (headers : Headers) : option string :=
  if truthy_str (header headers "x-hub-signature-256")
  then header headers "x-hub-signature-256"
  else header headers "x-hub-signature".

(** The tasks that [triggerWebhookTask] matches to an endpoint. *)
Definition tasksMatchingEndpoint (endpointId : string) (w : World)
  : list Task :=
  filter (fun t =>
            IngestionTaskDefinition.enabled t
            && match IngestionTaskDefinition.trigger t with
               | Webhook wt =>
                   (WebhookTrigger.endpointId wt =? endpointId)%string
               | _ => false
               end)
         (JsMap.values (tasks w)).

(* ------------------------------------------------------------------ *)
(** ** Vocabulary of the statements about runs and requests *)

Definition is_completed (e : Effect) : bool :=
  match e with Emit (TASK_COMPLETED _ _) => true | _ => false end.

Definition is_failed (e : Effect) : bool :=
  match e with Emit (TASK_FAILED _ _) => true | _ => false end.

Definition is_transformed (e : Effect) : bool :=
  match e with Emit (DATA_TRANSFORMED _ _) => true | _ => false end.

(** A call to a destination's [processData]. *)
Definition is_delivery (e : Effect) : bool :=
  match e with DestinationProcessData _ _ => true | _ => false end.

(** A call to a source or to a transformer. *)
Definition is_pipeline (e : Effect) : bool :=
  match e with
  | SourceInitClient _ | SourceExecute _ _ | Transform _ _
  | DestinationInit _ | DestinationProcessData _ _ => true
  | _ => false
  end.

(** A call to the webhook provider. *)
Definition is_provider (e : Effect) : bool :=
  match e with
  | ProviderRegister _ _ _ _ | ProviderDeregister _ _ _ => true
  | _ => false
  end.

(** The world in which [runOrchestrator] looks its plugins up: the run is
    recorded, [TASK_TRIGGERED] is emitted and the task is marked running. *)
Definition runStart (task : Task) (initialPayload : option Payload.t)
  (w : World) : World :=
  let id := IngestionTaskDefinition.id task in
  set_tasks
    (JsMap.modify id
       (fun t => IngestionTaskDefinition.assign t
                   [IngestionTaskDefinition.CurrentStatus RUNNING]))
    (record (Emit (TASK_TRIGGERED id))
       (record (RunOrchestrator id initialPayload) w)).

(** The status [runOrchestrator] answers when the source plugin of the task
    is not registered. *)
Definition sourceNotFound (task : Task) : GSStatus :=
  GSStatus3 false 500
    ("Orchestrator failed: Source plugin '"
     ++ pluginType (IngestionTaskDefinition.source task)
     ++ "' not found for task '" ++ IngestionTaskDefinition.id task
     ++ "'")%string.

(** The event and the update with which [runOrchestrator] closes a run that
    ended in the world [w3] with the status [st]. *)
Definition runFinish (E : Env) (task : Task) (st : GSStatus) (w3 : World)
  : World :=
  let id := IngestionTaskDefinition.id task in
  let w4 :=
    record (Emit (if success st then TASK_COMPLETED id st
                  else TASK_FAILED id st)) w3 in
  set_tasks
    (JsMap.modify id
       (fun t => IngestionTaskDefinition.assign t
                   [IngestionTaskDefinition.CurrentStatus
                      (if success st then COMPLETED else FAILED);
                    IngestionTaskDefinition.LastRun
                      (Some (wallClock E (history w4)));
                    IngestionTaskDefinition.LastRunStatus (Some st)]))
    w4.

(** The orchestrator that [runOrchestrator] builds for a task. *)
Definition orchestratorOf (task : Task) (sourceEntry : SourceEntry)
  (destinationInstance : option IDestinationPlugin)
  : IngestionOrchestrator.t :=
  IngestionOrchestrator.mk
    (Some (plugin sourceEntry
             (config (IngestionTaskDefinition.source task))))
    (Some (transformer sourceEntry)) destinationInstance
    (IngestionTaskDefinition.id task).

(** The destination plugin that [runOrchestrator] finds for a task. *)
Definition destinationOf (task : Task) (w : World)
  : option (IDestinationPlugin * PluginRef) :=
  match IngestionTaskDefinition.destination task with
  | Some d =>
      match JsMap.get (pluginType d)
              (RegisteredPlugins.destination (registeredPlugins w)) with
      | Some dp => Some (dp, d)
      | None => None
      end
  | None => None
  end.

(** How [runOrchestrator] goes on from what [executeTask] gave. *)
Definition runClose (E : Env) (task : Task) (r : Result GSStatus * World)
  : Result GSStatus * World :=
  match r with
  | (Ok st, w3) => (Ok st, runFinish E task st w3)
  | (Throw e, w3) => (Throw e, w3)
  end.

(** [payload.repository?.full_name], for a payload that is not [null]. *)
Definition repositoryFullName (payload : jsval) : jsval :=
  let repository := getprop payload "repository" in
  match repository with
  | JUndef | JNull => JUndef
  | _ => getprop repository "full_name"
  end.

(** The change type that [handleGitWebhook] reads off a request. *)
Definition gitChangeType (headers : Headers) (payload : jsval) : ChangeType :=
  if is_text (header headers "x-github-event") "push"
  then if truthy (getprop payload "deleted") then DELETE else UPSERT
  else if is_text (header headers "x-github-event") "pull_request"
       then UPSERT else UNKNOWN.

(** The request is signed as the secret asks: there is no secret to check
    against, or the signature header is ['sha256='] followed by the hex
    HMAC-SHA256 of the body under the secret (and maybe by ['='] and more
    text). *)
Definition signedFor (E : Env) (headers : Headers) (secret : option string)
  (body : string) : Prop :=
  truthy_str secret = false
  \/ exists sec sig rest,
       secret = Some sec
       /\ signature_header headers = Some sig
       /\ split "=" sig = "sha256"%string :: hmac_sha256_hex E sec body :: rest.

(** The folder id that [handleGDriveWebhook] reads off the headers. *)
Definition driveResourceId (E : Env) (headers : Headers) : option string :=
  match header headers "x-goog-resource-uri" with
  | Some uri =>
      if (uri =? EmptyString)%string then None
      else match URL_parse E uri with
           | Some url => Some (last (split "/" (pathname url)) EmptyString)
           | None => None
           end
  | None => None
  end.

(** The change type that [handleGDriveWebhook] reads off the headers. *)
Definition driveChangeType (headers : Headers) : ChangeType :=
  let state := header headers "x-goog-resource-state" in
  if is_text state "exists" || is_text state "add" || is_text state "update"
  then UPSERT
  else if is_text state "not_exists" || is_text state "trash" then DELETE
  else UNKNOWN.

(** The channel id of the request is the token expected, if one is. *)
Definition channelMatches (headers : Headers) (expectedToken : option string)
  : Prop :=
  truthy_str expectedToken = false
  \/ header headers "x-goog-channel-id" = expectedToken.

(** What [processWebhookRequest] makes of a handler's result. *)
Definition processed (secret : option string) (result : WebhookResult.t)
  : ProcessedWebhookResult.t :=
  let validated :=
    match WebhookResult.signatureValidated result with
    | Some b => b
    | None => false
    end in
  ProcessedWebhookResult.mk
    (WebhookResult.success result
     && (if truthy_str secret then validated else true))
    (WebhookResult.rawPayload result)
    (WebhookResult.externalResourceId result)
    (WebhookResult.changeType result)
    (if truthy_str (WebhookResult.error result)
     then WebhookResult.error result
     else if WebhookResult.success result && negb validated
             && truthy_str secret
          then Some "Webhook signature validation skipped or failed."
          else None).

(** The payload [triggerWebhookTask] hands to the orchestrator for the task
    [t], given the accepted request and the registry. *)
Definition webhookPayloadFor (final : ProcessedWebhookResult.t)
  (reg : JsMap.t Entry) (t : Task) : Payload.t :=
  let sourceIdentifier :=
    GlobalIngestionLifecycleManager.getSourceIdentifier
      (pluginType (IngestionTaskDefinition.source t))
      (config (IngestionTaskDefinition.source t)) in
  let currentWebhookState :=
    if truthy_str sourceIdentifier
    then JsMap.get (tmpl sourceIdentifier) reg
    else None in
  let token (f : Entry -> jsval) : jsval :=
    match currentWebhookState with
    | Some e => f e
    | None => JUndef
    end in
  Payload.mk (Some t)
    (ProcessedWebhookResult.payload final)
    (ProcessedWebhookResult.externalResourceId final)
    (ProcessedWebhookResult.changeType final)
    (token WebhookRegistryEntry.startPageToken)
    (token WebhookRegistryEntry.nextPageToken)
    (token WebhookRegistryEntry.otherCrawlerSpecificTokens).

(** The entry that [registerWebhook] builds for a new subscription. *)
Definition newEntry (E : Env) (task : Task) (sid : string)
  (reg : WebhookRegistrationResult) (w : World) : Entry :=
  WebhookRegistryEntry.mk sid
    (tmpl (Ops.as_endpointId (IngestionTaskDefinition.trigger task)))
    (randomBytes20_hex E (history w))
    (str_or (reg_externalId reg) EmptyString)
    [IngestionTaskDefinition.id task] true
    (js_or (reg_startpageToken reg) JUndef)
    (js_or (reg_nextPageToken reg) JUndef)
    (js_or (reg_otherCrawlerSpecificTokens reg) JUndef).

(** What [registerWebhook] leaves alone on a stored task: its id, whether
    it is enabled, its source, and whether its trigger is a webhook. *)
Definition same_subscription (t t' : Task) : Prop :=
  IngestionTaskDefinition.id t' = IngestionTaskDefinition.id t
  /\ IngestionTaskDefinition.enabled t' = IngestionTaskDefinition.enabled t
  /\ IngestionTaskDefinition.source t' = IngestionTaskDefinition.source t
  /\ is_webhook (IngestionTaskDefinition.trigger t')
     = is_webhook (IngestionTaskDefinition.trigger t).

(** The same keys hold tasks, and each task is the same subscription. *)
Definition tasks_keep (w w' : World) : Prop :=
  forall k,
    match JsMap.get k (tasks w), JsMap.get k (tasks w') with
    | Some t, Some t' => same_subscription t t'
    | None, None => True
    | _, _ => False
    end.

(** Every registry entry is still there, with its secret and external id,
    and lists at least the tasks it listed. *)
Definition registry_grows (w w' : World) : Prop :=
  forall sid e,
    JsMap.get sid (webhookRegistrations w) = Some e ->
    exists e',
      JsMap.get sid (webhookRegistrations w') = Some e'
      /\ WebhookRegistryEntry.secret e' = WebhookRegistryEntry.secret e
      /\ WebhookRegistryEntry.externalWebhookId e'
         = WebhookRegistryEntry.externalWebhookId e
      /\ forall k, In k (WebhookRegistryEntry.registeredTasks e) ->
                   In k (WebhookRegistryEntry.registeredTasks e').

(** No stored task is due at [now] for [triggerAllEnabledCronTasks]. *)
Definition nothing_due (E : Env) (now : Z) (w : World) : Prop :=
  forall k t, JsMap.get k (tasks w) = Some t -> dueb E now t = false.

(** No registered destination plugin throws from [init]. *)
Definition destinations_init_ok (w : World) : Prop :=
  forall name dp,
    JsMap.get name (RegisteredPlugins.destination (registeredPlugins w))
    = Some dp ->
    forall h c, exists u, init dp h c = Ok u.

(** The small platform with a URL parser that knows one Drive resource
    URI. *)
Module ToyDrive.

Definition resourceUri : string :=
  "https://www.googleapis.com/drive/v3/files/f1?alt=json".

Definition urlParse (s : string) : option URLParts :=
  if (s =? resourceUri)%string
  then Some (mkURLParts "www.googleapis.com" "/drive/v3/files/f1")
  else None.

Definition env : Env :=
  mkEnv Toy.parse (fun _ => Toy.pushBody) (fun _ => "[object Object]")
        urlParse Toy.hmac Toy.cronPrev
        (fun h => ("uuid-" ++ nat_to_string (length h))%string)
        (fun _ => "0f1e2d3c4b5a69788796a5b4c3d2e1f00f1e2d3c")
        Toy.clock Toy.register (Toy.deregister true).

End ToyDrive.
(* ================================================================== *)
(** * Properties *)

(* ------------------------------------------------------------------ *)
(** ** Facts about [JsMap] *)

Section JsMapFacts.
Variable V : Type.
Implicit Types (m : JsMap.t V) (k : string) (v : V).

Lemma get_set_eq k v m : JsMap.get k (JsMap.set k v m) = Some v.
Proof.
  induction m as [|[k' v'] r IH]; simpl.
  - now rewrite String.eqb_refl.
  - destruct (String.eqb k k') eqn:Hk; simpl; rewrite Hk; auto.
Qed.

Lemma get_set_neq k k' v m :
  k' <> k -> JsMap.get k' (JsMap.set k v m) = JsMap.get k' m.
Proof.
  intros Hne. induction m as [|[k0 v0] r IH]; simpl.
  - destruct (String.eqb k' k) eqn:Hk; auto.
    apply String.eqb_eq in Hk. contradiction.
  - destruct (String.eqb k k0) eqn:Hk; simpl.
    + apply String.eqb_eq in Hk. subst k0.
      destruct (String.eqb k' k) eqn:Hk'; auto.
      apply String.eqb_eq in Hk'. contradiction.
    + now rewrite IH.
Qed.

Lemma keys_set_present k v m x :
  JsMap.get k m = Some x -> JsMap.keys (JsMap.set k v m) = JsMap.keys m.
Proof.
  induction m as [|[k0 v0] r IH]; simpl; intros H.
  - discriminate.
  - destruct (String.eqb k k0) eqn:Hk; simpl; auto.
    f_equal. now apply IH.
Qed.

Lemma keys_set_absent k v m :
  JsMap.get k m = None -> JsMap.keys (JsMap.set k v m) = JsMap.keys m ++ [k].
Proof.
  induction m as [|[k0 v0] r IH]; simpl; intros H; auto.
  destruct (String.eqb k k0) eqn:Hk; [discriminate|].
  simpl. f_equal. now apply IH.
Qed.

Lemma get_delete_eq k m : JsMap.get k (JsMap.delete k m) = None.
Proof.
  induction m as [|[k0 v0] r IH]; simpl; auto.
  destruct (String.eqb k k0) eqn:Hk; simpl; auto. now rewrite Hk.
Qed.

Lemma get_delete_neq k k' m :
  k' <> k -> JsMap.get k' (JsMap.delete k m) = JsMap.get k' m.
Proof.
  intros Hne. induction m as [|[k0 v0] r IH]; simpl; auto.
  destruct (String.eqb k k0) eqn:Hk; simpl.
  - apply String.eqb_eq in Hk. subst k0.
    destruct (String.eqb k' k) eqn:Hk'; auto.
    apply String.eqb_eq in Hk'. contradiction.
  - now rewrite IH.
Qed.

Lemma get_modify_eq k f m :
  JsMap.get k (JsMap.modify k f m) = option_map f (JsMap.get k m).
Proof.
  unfold JsMap.modify. destruct (JsMap.get k m) eqn:H; simpl.
  - apply get_set_eq.
  - exact H.
Qed.

Lemma get_modify_neq k k' f m :
  k' <> k -> JsMap.get k' (JsMap.modify k f m) = JsMap.get k' m.
Proof.
  intros Hne. unfold JsMap.modify.
  destruct (JsMap.get k m); auto using get_set_neq.
Qed.

Lemma keys_modify k f m : JsMap.keys (JsMap.modify k f m) = JsMap.keys m.
Proof.
  unfold JsMap.modify. destruct (JsMap.get k m) eqn:H; auto.
  eapply keys_set_present; eauto.
Qed.

Lemma get_some_in_keys k m v : JsMap.get k m = Some v -> In k (JsMap.keys m).
Proof.
  induction m as [|[k0 v0] r IH]; simpl; intros H.
  - discriminate.
  - destruct (String.eqb k k0) eqn:Hk.
    + apply String.eqb_eq in Hk. auto.
    + right. now apply IH.
Qed.

Lemma in_keys_get_some k m : In k (JsMap.keys m) -> exists v, JsMap.get k m = Some v.
Proof.
  induction m as [|[k0 v0] r IH]; simpl; intros H.
  - contradiction.
  - destruct (String.eqb k k0) eqn:Hk; eauto.
    destruct H as [H|H]; [|auto].
    subst k0. now rewrite String.eqb_refl in Hk.
Qed.

End JsMapFacts.

(* ------------------------------------------------------------------ *)
(** ** Reasoning about operations *)

Section Frames.
Context (R : World -> World -> Prop) `{PreOrder World R}.

Lemma respects_ret A (a : A) : respects R (ret a).
Proof. intros w. simpl. reflexivity. Qed.

Lemma respects_throw A msg : respects R (@throw A msg).
Proof. intros w. simpl. reflexivity. Qed.

Lemma respects_lift A (r : Result A) : respects R (lift r).
Proof. intros w. simpl. reflexivity. Qed.

Lemma respects_gets A (f : World -> A) : respects R (gets f).
Proof. intros w. simpl. reflexivity. Qed.

Lemma respects_update f : (forall w, R w (f w)) -> respects R (update f).
Proof. intros Hf w. simpl. apply Hf. Qed.

Lemma respects_call A e (f : History -> Result A) :
  (forall w, R w (record e w)) -> respects R (call e f).
Proof. intros Hf w. simpl. apply Hf. Qed.

Lemma respects_bind A B (m : M A) (f : A -> M B) :
  respects R m -> (forall a, respects R (f a)) -> respects R (bind m f).
Proof.
  intros Hm Hf w. unfold bind. specialize (Hm w).
  destruct (m w) as [[a|e] w1]; simpl in *; auto.
  etransitivity; [exact Hm | apply Hf].
Qed.

Lemma respects_bind_post A B (P : A -> Prop) (m : M A) (f : A -> M B) :
  respects R m -> returns P m -> (forall a, P a -> respects R (f a)) ->
  respects R (bind m f).
Proof.
  intros Hm HP Hf w. unfold bind. specialize (Hm w).
  destruct (m w) as [[a|e] w1] eqn:Hw; simpl in *; auto.
  etransitivity; [exact Hm | apply Hf; eapply HP; eauto].
Qed.

Lemma respects_try_catch A (m : M A) (h : string -> M A) :
  respects R m -> (forall e, respects R (h e)) -> respects R (try_catch m h).
Proof.
  intros Hm Hh w. unfold try_catch. specialize (Hm w).
  destruct (m w) as [[a|e] w1]; simpl in *; auto.
  etransitivity; [exact Hm | apply Hh].
Qed.

End Frames.

Lemma returns_ret A (P : A -> Prop) (a : A) : P a -> returns P (ret a).
Proof. intros Ha w a' w' Heq. inversion Heq. now subst. Qed.

Lemma returns_throw A (P : A -> Prop) msg : returns P (@throw A msg).
Proof. intros w a' w' Heq. inversion Heq. Qed.

Lemma returns_bind A B (P : B -> Prop) (m : M A) (f : A -> M B) :
  (forall a, returns P (f a)) -> returns P (bind m f).
Proof.
  intros Hf w b w' Heq. unfold bind in Heq.
  destruct (m w) as [[a|e] w1]; [eapply Hf; eauto | inversion Heq].
Qed.

Lemma returns_bind_post A B (Q : A -> Prop) (P : B -> Prop) (m : M A)
  (f : A -> M B) :
  returns Q m -> (forall a, Q a -> returns P (f a)) -> returns P (bind m f).
Proof.
  intros Hm Hf w b w' Heq. unfold bind in Heq.
  destruct (m w) as [[a|e] w1] eqn:Hw; [|inversion Heq].
  eapply Hf; eauto.
Qed.

Lemma returns_try_catch A (P : A -> Prop) (m : M A) (h : string -> M A) :
  returns P m -> (forall e, returns P (h e)) -> returns P (try_catch m h).
Proof.
  intros Hm Hh w a w' Heq. unfold try_catch in Heq.
  destruct (m w) as [[a0|e] w1] eqn:Hw.
  - inversion Heq. subst. eapply Hm; eauto.
  - eapply Hh; eauto.
Qed.

Lemma total_ret A (a : A) : total (ret a).
Proof. intros w. now exists a. Qed.

Lemma total_gets A (f : World -> A) : total (gets f).
Proof. intros w. now exists (f w). Qed.

Lemma total_update f : total (update f).
Proof. intros w. now exists tt. Qed.

Lemma total_bind A B (m : M A) (f : A -> M B) :
  total m -> (forall a, total (f a)) -> total (bind m f).
Proof.
  intros Hm Hf w. unfold bind. destruct (Hm w) as [a Ha].
  destruct (m w) as [[a0|e] w1]; simpl in Ha; [|discriminate].
  apply Hf.
Qed.

Lemma total_try_catch A (m : M A) (h : string -> M A) :
  (forall e, total (h e)) -> total (try_catch m h).
Proof.
  intros Hh w. unfold try_catch.
  destruct (m w) as [[a|e] w1]; [now exists a | apply Hh].
Qed.

(** One structural step on a goal about an operation. *)
Ltac op_step :=
  match goal with
  | |- respects _ (bind _ _) => apply respects_bind; try exact _; intros
  | |- respects _ (try_catch _ _) =>
      apply respects_try_catch; try exact _; intros
  | |- respects _ (ret _) => apply respects_ret; exact _
  | |- respects _ (throw _) => apply respects_throw; exact _
  | |- respects _ (lift _) => apply respects_lift; exact _
  | |- respects _ (gets _) => apply respects_gets; exact _
  | |- respects _ (match ?x with _ => _ end) => destruct x
  | |- returns _ (bind _ _) => apply returns_bind; intros
  | |- returns _ (try_catch _ _) => apply returns_try_catch; [|intros]
  | |- returns _ (throw _) => apply returns_throw
  | |- returns _ (ret _) => apply returns_ret
  | |- returns _ (match ?x with _ => _ end) => destruct x
  | |- total (bind _ _) => apply total_bind; [|intros]
  | |- total (try_catch _ _) => apply total_try_catch; intros
  | |- total (ret _) => apply total_ret
  | |- total (gets _) => apply total_gets
  | |- total (update _) => apply total_update
  | |- total (match ?x with _ => _ end) => destruct x
  end.

(** Case analysis on the innermost [match] of a hypothesis. *)
Ltac destruct_innermost H :=
  match type of H with
  | context [match ?x with _ => _ end] =>
      lazymatch x with
      | context [match _ with _ => _ end] => fail
      | _ => destruct x eqn:?
      end
  end.


#[local] Instance same_tasks_preorder : PreOrder same_tasks.
Proof.
  split; [intros w; reflexivity|].
  intros a b c H1 H2. unfold same_tasks in *. congruence.
Qed.

#[local] Instance same_registry_preorder : PreOrder same_registry.
Proof.
  split; [intros w; reflexivity|].
  intros a b c H1 H2. unfold same_registry in *. congruence.
Qed.

#[local] Instance same_plugins_preorder : PreOrder same_plugins.
Proof.
  split; [intros w; reflexivity|].
  intros a b c H1 H2. unfold same_plugins in *. congruence.
Qed.

#[local] Instance grows_by_preorder P : PreOrder (grows_by P).
Proof.
  split.
  - intros w. exists []. now rewrite app_nil_r.
  - intros a b c [l1 [H1 Q1]] [l2 [H2 Q2]]. exists (l1 ++ l2). split.
    + now rewrite H2, H1, app_assoc.
    + rewrite forallb_app, Q1, Q2. reflexivity.
Qed.

#[local] Instance quiet_preorder : PreOrder quiet.
Proof. unfold quiet. exact _. Qed.

Lemma static_eq_refl t : static_eq t t.
Proof. repeat split. Qed.

Lemma static_eq_trans a b c : static_eq a b -> static_eq b c -> static_eq a c.
Proof.
  intros (A1 & A2 & A3 & A4) (B1 & B2 & B3 & B4).
  repeat split; congruence.
Qed.

#[local] Instance untouched_except_preorder k : PreOrder (untouched_except k).
Proof.
  split.
  - intros w. repeat split; auto.
    intros t Ht. exists t. split; [exact Ht | apply static_eq_refl].
  - intros a b c (K1 & O1 & S1 & P1) (K2 & O2 & S2 & P2).
    split; [congruence|]. split; [|split; [|congruence]].
    + intros k' Hk'. rewrite O2, O1; auto.
    + intros t Ht. destruct (S1 t Ht) as (t1 & Ht1 & E1).
      destruct (S2 t1 Ht1) as (t2 & Ht2 & E2).
      exists t2. split; [exact Ht2 | eapply static_eq_trans; eauto].
Qed.

#[local] Instance statics_kept_preorder : PreOrder statics_kept.
Proof.
  split.
  - intros w. repeat split; auto.
    intros k t Ht. exists t. split; [exact Ht | apply static_eq_refl].
  - intros a b c (K1 & S1 & P1) (K2 & S2 & P2).
    split; [congruence|]. split; [|congruence].
    intros k t Ht. destruct (S1 k t Ht) as (t1 & Ht1 & E1).
    destruct (S2 k t1 Ht1) as (t2 & Ht2 & E2).
    exists t2. split; [exact Ht2 | eapply static_eq_trans; eauto].
Qed.

#[local] Instance keeps_completed_has_lastRun_preorder E k :
  PreOrder (keeps_completed_has_lastRun E k).
Proof.
  split.
  - intros w H. exact H.
  - intros a b c H1 H2 H. apply H2, H1, H.
Qed.


(** A primitive step that leaves the framed component alone. *)
Ltac op_leaf :=
  unfold DB.getTask, DB.saveTask, DB.updateTask, DB.deleteTask,
    DB.listAllTasks, DB.getWebhookRegistration, DB.saveWebhookRegistration,
    DB.updateWebhookRegistration, DB.deleteWebhookRegistration, emit, effect;
  first [ apply respects_gets; exact _
        | apply respects_update; intros ?; reflexivity
        | apply respects_call; intros ?; reflexivity ].

Ltac op_auto := repeat (cbv beta zeta; first [op_step | op_leaf]).
(* ------------------------------------------------------------------ *)
(** ** The outcomes of a webhook registration *)

Section RegisterOutcome.
Variable E : Env.

(** The three ways [registerWebhook] can end: a failure that leaves tasks
    and registry alone, the task joining the entry that its source has, or
    a new subscription with its new entry. *)
Lemma registerWebhook_outcome (task : Task) (w : World) (st : GSStatus)
  (w' : World) :
  Ops.registerWebhook E task w = (Ok st, w') ->
  let id := IngestionTaskDefinition.id task in
  let tr := IngestionTaskDefinition.trigger task in
  let pt := pluginType (IngestionTaskDefinition.source task) in
  let gsi := Ops.getSourceIdentifier pt
               (config (IngestionTaskDefinition.source task)) in
  (success st = false
   /\ tasks w' = tasks w
   /\ webhookRegistrations w' = webhookRegistrations w
   /\ (code st = Some 400 \/ code st = Some 500))
  \/ (exists sid e,
        gsi = Some sid /\ (sid =? EmptyString)%string = false
        /\ JsMap.get sid (webhookRegistrations w) = Some e
        /\ success st = true
        /\ history w' = history w
        /\ tasks w'
           = JsMap.modify id
               (fun t => IngestionTaskDefinition.assign t (joined_update tr e))
               (tasks w)
        /\ webhookRegistrations w'
           = if Ops.includes id (WebhookRegistryEntry.registeredTasks e)
             then webhookRegistrations w
             else JsMap.modify sid
                    (fun e0 => WebhookRegistryEntry.assign e0
                       [WebhookRegistryEntry.RegisteredTasks
                          (WebhookRegistryEntry.registeredTasks e ++ [id]);
                        WebhookRegistryEntry.WebhookFlag true])
                    (webhookRegistrations w))
  \/ (exists sid resource reg,
        gsi = Some sid /\ (sid =? EmptyString)%string = false
        /\ JsMap.get sid (webhookRegistrations w) = None
        /\ success st = true
        /\ provider_registerWebhook E (history w) pt resource
             (tmpl (Ops.as_callbackurl tr)) (randomBytes20_hex E (history w))
             (Ops.as_credentials tr) = Ok reg
        /\ reg_success reg = true
        /\ truthy_str (reg_externalId reg) = true
        /\ history w'
           = history w
             ++ [ProviderRegister pt resource (tmpl (Ops.as_callbackurl tr))
                   (randomBytes20_hex E (history w))]
        /\ webhookRegistrations w'
           = JsMap.set sid (newEntry E task sid reg w) (webhookRegistrations w)
        /\ tasks w'
           = JsMap.modify id
               (fun t => IngestionTaskDefinition.assign t
                           (created_update tr (newEntry E task sid reg w)))
               (tasks w)).
Proof.
  intros Hrun id tr pt gsi. subst id tr pt gsi.
  unfold Ops.registerWebhook, Ops.registerWebhook_finish in Hrun.
  unfold DB.getWebhookRegistration, DB.updateWebhookRegistration,
    DB.updateTask, DB.saveWebhookRegistration in Hrun.
  unfold try_catch, bind, call, update, gets, ret, throw in Hrun.
  repeat (cbv beta iota zeta in Hrun; destruct_innermost Hrun).
  all: cbv beta iota zeta in Hrun; inversion Hrun; subst; clear Hrun.
  all: try (left; repeat split; auto; fail).
  all: repeat match goal with
         | H : negb _ = true |- _ => apply negb_true_iff in H
         | H : negb _ = false |- _ => apply negb_false_iff in H
         | H : _ || _ = false |- _ =>
             apply orb_false_iff in H; destruct H
         end.
  all: try (right; left; do 2 eexists;
            (split; [reflexivity|]); (split; [eassumption|]);
            (split; [eassumption|]);
            match goal with
            | H : Ops.includes _ _ = _ |- _ => rewrite H
            end;
            repeat split; fail).
  all: right; right; do 3 eexists;
       (split; [reflexivity|]); (split; [eassumption|]);
       (split; [eassumption|]); (split; [reflexivity|]);
       (split; [eassumption|]); (split; [assumption|]);
       (split; [assumption|]); repeat split.
Qed.

End RegisterOutcome.


(* ------------------------------------------------------------------ *)
(** ** Deleting a task *)

Section DeleteTask.
Variable E : Env.

Lemma deregisterWebhook_same_tasks taskId :
  respects same_tasks (Ops.deregisterWebhook E taskId).
Proof.
  unfold Ops.deregisterWebhook, Ops.deregisterWebhook_external. op_auto.
Qed.

(** C1.  For a task id present in the store, [deleteTask] goes as follows.
    When the trigger is not a webhook trigger, the source refuses: it
    answers 403 "error in deleting task" and changes nothing, so the task is
    not removed.  When the trigger is a webhook trigger and the deregister
    flow fails, the delete is aborted with the same 403 and the task store is
    left as it was. *)
Theorem deleteTask_outcomes (w : World) (taskId : string) (task : Task) :
  JsMap.get taskId (tasks w) = Some task ->
  (is_webhook (IngestionTaskDefinition.trigger task) = false ->
   Ops.deleteTask E taskId w
   = (Ok (GSStatus3 false 403 "error in deleting task"), w))
  /\ (is_webhook (IngestionTaskDefinition.trigger task) = true ->
      forall r w1,
        Ops.deregisterWebhook E taskId w = (Ok r, w1) ->
        success r = false ->
        Ops.deleteTask E taskId w
        = (Ok (GSStatus3 false 403 "error in deleting task"), w1)
        /\ tasks w1 = tasks w).
Proof.
  intros Hget. split.
  - intros Hweb. unfold Ops.deleteTask, bind, DB.getTask, gets.
    rewrite Hget, Hweb. reflexivity.
  - intros Hweb r w1 Hder Hfail. split.
    + unfold Ops.deleteTask, bind, DB.getTask, gets.
      rewrite Hget, Hweb. unfold Ops.DB.getTask, gets in Hder.
      unfold bind in Hder |- *.
      rewrite Hder. simpl. rewrite Hfail. reflexivity.
    + pose proof (deregisterWebhook_same_tasks taskId w) as Hs.
      rewrite Hder in Hs. exact Hs.
Qed.

End DeleteTask.

(** At the failing input of C1: a store that holds one enabled cron task. *)
Lemma deleteTask_outcomes_witness :
  let w := Toy.world [("c1", Toy.task "c1" Toy.driveFolder (Cron "*/1 * * * *"))] [] in
  JsMap.get "c1" (tasks w)
  = Some (Toy.task "c1" Toy.driveFolder (Cron "*/1 * * * *"))
  /\ Ops.deleteTask (Toy.env true) "c1" w
     = (Ok (GSStatus3 false 403 "error in deleting task"), w).
Proof.
  split; [reflexivity|].
  apply (@deleteTask_outcomes (Toy.env true)
           (Toy.world [("c1", Toy.task "c1" Toy.driveFolder (Cron "*/1 * * * *"))] [])
           "c1" (Toy.task "c1" Toy.driveFolder (Cron "*/1 * * * *")) eq_refl).
  reflexivity.
Defined.

(* ------------------------------------------------------------------ *)
(** ** Saving a task whose id is taken *)

Section SaveTask.
Variable E : Env.

(** C9, as the source has it.  [saveTask] on an id already in the store does
    not fail: it replaces the stored task.  The conflict is raised one level
    up: [scheduleTask] looks the id up before saving, answers 409 and leaves
    the world as it was. *)
Theorem saveTask_replaces_scheduleTask_conflicts (w : World)
  (task stored : Task) :
  JsMap.get (IngestionTaskDefinition.id task) (tasks w) = Some stored ->
  IngestionTaskDefinition.id task <> EmptyString ->
  fst (DB.saveTask task w) = Ok tt
  /\ JsMap.get (IngestionTaskDefinition.id task)
       (tasks (snd (DB.saveTask task w))) = Some task
  /\ Ops.scheduleTask E task w
     = (Ok (GSStatus3 false 409
              ("Task '" ++ IngestionTaskDefinition.id task
               ++ "' already exists.")%string), w).
Proof.
  intros Hget Hid. repeat split.
  - simpl. apply get_set_eq.
  - unfold Ops.scheduleTask, bind, gets, Ops.DB.getTask.
    apply String.eqb_neq in Hid. rewrite Hid.
    unfold gets. rewrite Hget. reflexivity.
Qed.

End SaveTask.

Lemma saveTask_replaces_scheduleTask_conflicts_witness :
  let old := Toy.task "a" Toy.gitRepo Manual in
  let new := Toy.task "a" Toy.driveFolder Manual in
  let w := Toy.world [("a", old)] [] in
  fst (DB.saveTask new w) = Ok tt
  /\ JsMap.get "a" (tasks (snd (DB.saveTask new w))) = Some new
  /\ Ops.scheduleTask (Toy.env true) new w
     = (Ok (GSStatus3 false 409 "Task 'a' already exists."), w).
Proof.
  apply (@saveTask_replaces_scheduleTask_conflicts (Toy.env true)
           (Toy.world [("a", Toy.task "a" Toy.gitRepo Manual)] [])
           (Toy.task "a" Toy.driveFolder Manual)
           (Toy.task "a" Toy.gitRepo Manual)).
  - reflexivity.
  - discriminate.
Defined.

(** C9 as stated fails: the id ["a"] is taken, yet [saveTask] succeeds and
    the stored task is no longer the one that was there. *)
Lemma saveTask_conflict_counterexample :
  let old := Toy.task "a" Toy.gitRepo Manual in
  let new := Toy.task "a" Toy.driveFolder Manual in
  let w := Toy.world [("a", old)] [] in
  JsMap.get "a" (tasks w) = Some old
  /\ fst (DB.saveTask new w) = Ok tt
  /\ JsMap.get "a" (tasks (snd (DB.saveTask new w))) <> Some old.
Proof.
  cbv zeta. repeat split. simpl. intros Heq. discriminate Heq.
Qed.

(* ------------------------------------------------------------------ *)
(** ** The source identifier *)

Section SourceIdentifier.
Variable E : Env.

(** C8, as the source has it.  [getSourceIdentifier] reads [repoUrl] for
    ['git-crawler'], [folderId] for ['googledrive-crawler'], [url] for
    ['http-crawler'] (there is no fall-back to [startUrl]), [meetingId] or
    else [chatId] for ['teams-chat-crawler'], and is [undefined] for every
    other plugin type.  On a task whose identifier is missing or empty,
    [registerWebhook] answers 400 and changes nothing, and so does
    [deregisterWebhook] when the task is a stored webhook task. *)
Theorem getSourceIdentifier_table (task : Task) (w : World) :
  truthy_str
    (Ops.getSourceIdentifier
       (pluginType (IngestionTaskDefinition.source task))
       (config (IngestionTaskDefinition.source task))) = false ->
  (forall c, Ops.getSourceIdentifier "git-crawler" c = assoc "repoUrl" c)
  /\ (forall c,
        Ops.getSourceIdentifier "googledrive-crawler" c = assoc "folderId" c)
  /\ (forall c, Ops.getSourceIdentifier "http-crawler" c = assoc "url" c)
  /\ (forall c,
        Ops.getSourceIdentifier "teams-chat-crawler" c
        = if truthy_str (assoc "meetingId" c)
          then assoc "meetingId" c else assoc "chatId" c)
  /\ (forall p c,
        p <> "git-crawler" -> p <> "googledrive-crawler" ->
        p <> "teams-chat-crawler" -> p <> "http-crawler" ->
        Ops.getSourceIdentifier p c = None)
  /\ Ops.registerWebhook E task w
     = (Ok (GSStatus3 false 400
              ("Webhook registration not supported or source identifier missing for plugin type '"
               ++ pluginType (IngestionTaskDefinition.source task)
               ++ "'.")%string), w)
  /\ (JsMap.get (IngestionTaskDefinition.id task) (tasks w) = Some task ->
      is_webhook (IngestionTaskDefinition.trigger task) = true ->
      Ops.deregisterWebhook E (IngestionTaskDefinition.id task) w
      = (Ok (GSStatus3 false 400
               ("Webhook deregistration not supported or source identifier missing for plugin type '"
                ++ pluginType (IngestionTaskDefinition.source task)
                ++ "'.")%string), w)).
Proof.
  intros Hsid. repeat split; try reflexivity.
  - intros p c H1 H2 H3 H4. unfold Ops.getSourceIdentifier.
    apply String.eqb_neq in H1, H2, H3, H4. now rewrite H1, H2, H3, H4.
  - unfold Ops.registerWebhook.
    destruct (Ops.getSourceIdentifier _ _) as [s|]; [|reflexivity].
    simpl in Hsid. apply negb_false_iff in Hsid. now rewrite Hsid.
  - intros Hget Hweb.
    unfold Ops.deregisterWebhook, bind, Ops.DB.getTask, gets.
    rewrite Hget, Hweb, Hsid. reflexivity.
Qed.

End SourceIdentifier.

Lemma getSourceIdentifier_table_witness :
  let t := Toy.task "h1" (mkPluginRef "http-crawler"
                            [("startUrl", "https://example.com")]) Toy.hook in
  let w := Toy.world [("h1", t)] [] in
  Ops.getSourceIdentifier "http-crawler" [("startUrl", "https://example.com")]
  = None
  /\ fst (Ops.registerWebhook (Toy.env true) t w)
     = Ok (GSStatus3 false 400
             "Webhook registration not supported or source identifier missing for plugin type 'http-crawler'.")
  /\ fst (Ops.deregisterWebhook (Toy.env true) "h1" w)
     = Ok (GSStatus3 false 400
             "Webhook deregistration not supported or source identifier missing for plugin type 'http-crawler'.").
Proof.
  cbv zeta.
  destruct (@getSourceIdentifier_table (Toy.env true)
              (Toy.task "h1" (mkPluginRef "http-crawler"
                                [("startUrl", "https://example.com")])
                 Toy.hook)
              (Toy.world
                 [("h1", Toy.task "h1"
                           (mkPluginRef "http-crawler"
                              [("startUrl", "https://example.com")])
                           Toy.hook)] [])
              eq_refl)
    as (_ & _ & Hhttp & _ & _ & Hreg & Hdereg).
  split; [rewrite Hhttp; reflexivity|].
  split; [exact (f_equal fst Hreg)|].
  exact (f_equal fst (Hdereg eq_refl eq_refl)).
Defined.

(** C8 as stated fails twice: an ['http-crawler'] configuration that has
    [startUrl] and no [url] has no identifier, and ['teams-chat-crawler'],
    which the claim counts among the unknown types, has one. *)
Lemma getSourceIdentifier_counterexample :
  assoc "url" [("startUrl", "https://example.com")] = None
  /\ assoc "startUrl" [("startUrl", "https://example.com")]
     = Some "https://example.com"
  /\ Ops.getSourceIdentifier "http-crawler"
       [("startUrl", "https://example.com")] <> Some "https://example.com"
  /\ Ops.getSourceIdentifier "teams-chat-crawler" [("chatId", "c1")] <> None.
Proof.
  repeat split; discriminate.
Qed.

(* ------------------------------------------------------------------ *)
(** ** An orchestrator run that transforms to nothing *)

Section EmptyTransform.
Variable E : Env.

(** C10.  In a run of [executeTask] where the client initialises, the source
    answers with a success status and the transformer returns the empty list,
    the result is the success status with code 200 and [itemsProcessed = 0],
    [TASK_COMPLETED] is emitted with it, and the destination's [processData]
    is not called, configured or not. *)
Theorem executeTask_empty_transform (o : IngestionOrchestrator.t)
  (ctx : GSContext) (initialPayload : option Payload.t) (w : World)
  (src : GSDataSource) (transform : IngestionDataTransformer)
  (sourceResultStatus : GSStatus) :
  let id := IngestionOrchestrator.taskId o in
  let rawData := IngestionOrchestrator.flatten sourceResultStatus in
  let h1 := history w ++ [SourceInitClient id] in
  let h2 := h1 ++ [SourceExecute id initialPayload] in
  let h3 := h2 ++ [Emit (DATA_FETCHED rawData id)] in
  let status :=
    GSStatus4 true 200 "Ingestion task completed: No data from source."
      (JObj [("itemsProcessed", JNum 0)]) in
  IngestionOrchestrator.sourceDataSource o = Some src ->
  IngestionOrchestrator.dataTransformer o = Some transform ->
  initClient src (history w) = Ok tt ->
  execute src h1 ctx initialPayload = Ok sourceResultStatus ->
  success sourceResultStatus = true ->
  transform h3 rawData (mkPayloadWithFetchedAt initialPayload (wallClock E h3))
  = Ok [] ->
  exists w',
    IngestionOrchestrator.executeTask E o ctx initialPayload w = (Ok status, w')
    /\ new_effects w w'
       = [SourceInitClient id; SourceExecute id initialPayload;
          Emit (DATA_FETCHED rawData id); Transform id rawData;
          Emit (DATA_TRANSFORMED [] id); Emit (TASK_COMPLETED id status)]
    /\ (forall t records,
          ~ In (DestinationProcessData t records) (new_effects w w'))
    /\ tasks w' = tasks w
    /\ webhookRegistrations w' = webhookRegistrations w.
Proof.
  intros id rawData h1 h2 h3 status Hsrc Htr Hinit Hexec Hok Hempty.
  assert (Hnew :
             skipn (length (history w))
               ((((((history w ++ [SourceInitClient id])
                    ++ [SourceExecute id initialPayload])
                   ++ [Emit (DATA_FETCHED rawData id)])
                  ++ [Transform id rawData])
                 ++ [Emit (DATA_TRANSFORMED [] id)])
                ++ [Emit (TASK_COMPLETED id status)])
             = [SourceInitClient id; SourceExecute id initialPayload;
                Emit (DATA_FETCHED rawData id); Transform id rawData;
                Emit (DATA_TRANSFORMED [] id);
                Emit (TASK_COMPLETED id status)]).
  { repeat rewrite <- app_assoc. simpl.
    rewrite skipn_app, skipn_all, Nat.sub_diag. reflexivity. }
  exists (mkWorld (tasks w) (webhookRegistrations w) (registeredPlugins w)
            ((((((history w ++ [SourceInitClient id])
                 ++ [SourceExecute id initialPayload])
                ++ [Emit (DATA_FETCHED rawData id)])
               ++ [Transform id rawData])
              ++ [Emit (DATA_TRANSFORMED [] id)])
             ++ [Emit (TASK_COMPLETED id status)])).
  split; [|split; [|split; [|split]]].
  - unfold IngestionOrchestrator.executeTask. rewrite Hsrc, Htr.
    subst id rawData h1 h2 h3.
    unfold try_catch, bind, call, emit, effect, update, gets. simpl.
    rewrite Hinit. simpl. rewrite Hexec. simpl.
    rewrite Hok. simpl. rewrite Hempty.
    simpl. reflexivity.
  - unfold new_effects. cbn [history]. apply Hnew.
  - intros t records. unfold new_effects. cbn [history]. rewrite Hnew.
    simpl. intros [H|[H|[H|[H|[H|[H|[]]]]]]]; discriminate H.
  - reflexivity.
  - reflexivity.
Qed.

End EmptyTransform.

Lemma executeTask_empty_transform_witness :
  let o := IngestionOrchestrator.mk (Some (Toy.source [])) (Some Toy.dropAll)
             (Some Toy.sink) "t1" in
  let w := Toy.world [] [] in
  exists w',
    IngestionOrchestrator.executeTask (Toy.env true) o (mkGSContext None) None w
    = (Ok (GSStatus4 true 200 "Ingestion task completed: No data from source."
             (JObj [("itemsProcessed", JNum 0)])), w')
    /\ forall t records,
         ~ In (DestinationProcessData t records) (new_effects w w').
Proof.
  cbv zeta.
  destruct (@executeTask_empty_transform (Toy.env true)
              (IngestionOrchestrator.mk (Some (Toy.source []))
                 (Some Toy.dropAll) (Some Toy.sink) "t1")
              (mkGSContext None) None (Toy.world [] [])
              (Toy.source []) Toy.dropAll
              (GSStatus4 true 200 "ok"
                 (JObj [("data", JArr [JStr "a"; JStr "b"]);
                        ("nextPageToken", JStr "n9")]))
              eq_refl eq_refl eq_refl eq_refl eq_refl eq_refl)
    as (w' & Hrun & _ & Hdest & _).
  exists w'. split; [exact Hrun | exact Hdest].
Defined.

(* ------------------------------------------------------------------ *)
(** ** Cursor write-back after a run *)

Section WriteBack.
Variable E : Env.

Lemma deliver_no_cursors o transformedData :
  returns (fun d => match d with
                    | inl st => Ops.cursorUpdates st = []
                    | inr _ => True
                    end)
          (IngestionOrchestrator.deliver o transformedData).
Proof.
  unfold IngestionOrchestrator.deliver.
  repeat (cbv beta zeta; op_step); (reflexivity || exact I).
Qed.

(** No status that [executeTask] returns carries a cursor where
    [runOrchestrator] looks for one: its [data] holds [itemsProcessed] and
    [data] only. *)
Lemma executeTask_no_cursors o ctx initialPayload :
  returns (fun st => Ops.cursorUpdates st = [])
          (IngestionOrchestrator.executeTask E o ctx initialPayload).
Proof.
  unfold IngestionOrchestrator.executeTask.
  repeat (cbv beta zeta;
          first [ apply returns_bind_post with (1 := deliver_no_cursors _ _);
                  intros [?|?] ?
                | op_step ]);
    (reflexivity || assumption).
Qed.

Lemma executeTask_same_registry o ctx initialPayload :
  respects same_registry
    (IngestionOrchestrator.executeTask E o ctx initialPayload).
Proof.
  unfold IngestionOrchestrator.executeTask, IngestionOrchestrator.deliver.
  op_auto.
Qed.

Lemma writeBackCursors_without_cursors task st :
  Ops.cursorUpdates st = [] ->
  respects same_registry (Ops.writeBackCursors task st).
Proof.
  intros Hno. unfold Ops.writeBackCursors. rewrite Hno. op_auto.
Qed.

(** C7, what the source does.  [runOrchestrator] never changes the webhook
    registry, whatever the task, its trigger and the source's answer: the
    write-back block only fires on cursors found in the final status, and
    [executeTask] never puts any there. *)
Theorem runOrchestrator_never_writes_registry (ctx : GSContext) (task : Task)
  (initialPayload : option Payload.t) (w : World) :
  webhookRegistrations (snd (Ops.runOrchestrator E ctx task initialPayload w))
  = webhookRegistrations w.
Proof.
  revert w. change (respects same_registry
                      (Ops.runOrchestrator E ctx task initialPayload)).
  unfold Ops.runOrchestrator.
  repeat (cbv beta zeta;
          first [ apply respects_bind_post
                    with (2 := executeTask_same_registry _ _ _)
                         (3 := executeTask_no_cursors _ _ _);
                  [exact _ | intros ? ?]
                | apply writeBackCursors_without_cursors; assumption
                | op_step | op_leaf ]).
Qed.

(** The write-back block taken alone does not look at the trigger type: fed
    a status that carries a cursor, with no entry under the identifier, it
    creates one, with ['unknown'] in place of what a trigger other than a
    webhook trigger lacks. *)
Lemma writeBackCursors_ignores_trigger_type (task : Task) (st : GSStatus)
  (w : World) (sid : string) (u : WebhookRegistryEntry.field)
  (us : list WebhookRegistryEntry.field) :
  Ops.getSourceIdentifier (pluginType (IngestionTaskDefinition.source task))
    (config (IngestionTaskDefinition.source task)) = Some sid ->
  sid <> EmptyString ->
  truthy (data st) = true ->
  Ops.cursorUpdates st = u :: us ->
  JsMap.get sid (webhookRegistrations w) = None ->
  is_webhook (IngestionTaskDefinition.trigger task) = false ->
  JsMap.get sid
    (webhookRegistrations (snd (Ops.writeBackCursors task st w)))
  = Some (WebhookRegistryEntry.assign
            (WebhookRegistryEntry.mk sid "unknown" "unknown" "unknown"
               [IngestionTaskDefinition.id task] true JUndef JUndef JUndef)
            (u :: us)).
Proof.
  intros Hsid Hne Hdata Hups Hnone Hweb.
  unfold Ops.writeBackCursors. rewrite Hsid, Hdata, Hups.
  apply String.eqb_neq in Hne. simpl. rewrite Hne. simpl.
  unfold try_catch, bind, Ops.DB.getWebhookRegistration, gets. simpl.
  rewrite Hnone. simpl.
  destruct (IngestionTaskDefinition.trigger task); try discriminate Hweb;
    simpl; rewrite get_modify_eq, get_set_eq; reflexivity.
Qed.

End WriteBack.

(** At the failing input of C7: an enabled webhook task whose registry entry
    is missing, run with a source that answers with [nextPageToken]. *)
Example runOrchestrator_drops_cursors :
  let t := Toy.task "g1" Toy.gitRepo Toy.hook in
  let w := Toy.world [("g1", t)] [] in
  let r := Ops.runOrchestrator (Toy.env true) (mkGSContext None) t None w in
  In (SourceExecute "g1" None) (history (snd r))
  /\ fst r = Ok (GSStatus4 true 200 "Ingestion task completed successfully."
                   (JObj [("itemsProcessed", JNum 2)]))
  /\ webhookRegistrations (snd r) = [].
Proof.
  cbv zeta. split; [|split].
  - vm_compute. tauto.
  - vm_compute. reflexivity.
  - vm_compute. reflexivity.
Qed.

(* ------------------------------------------------------------------ *)
(** ** The deregister flow *)

Section Deregister.
Variable E : Env.

(** [deregisterWebhook] on a stored webhook task whose source has an entry:
    the id is taken out of the entry, then the provider step runs if nothing
    is left. *)
Lemma deregisterWebhook_shape (w : World) (taskId : string) (task : Task)
  (sid : string) (entry : Entry) :
  JsMap.get taskId (tasks w) = Some task ->
  is_webhook (IngestionTaskDefinition.trigger task) = true ->
  Ops.getSourceIdentifier (pluginType (IngestionTaskDefinition.source task))
    (config (IngestionTaskDefinition.source task)) = Some sid ->
  sid <> EmptyString ->
  JsMap.get sid (webhookRegistrations w) = Some entry ->
  let remaining :=
    filter (fun id => negb (id =? taskId)%string)
           (WebhookRegistryEntry.registeredTasks entry) in
  let w1 :=
    set_webhookRegistrations
      (JsMap.modify sid
         (fun e => WebhookRegistryEntry.assign e
                     [WebhookRegistryEntry.RegisteredTasks remaining])) w in
  Ops.deregisterWebhook E taskId w
  = match remaining with
    | [] => try_catch (Ops.deregisterWebhook_external E task entry sid)
                      deregisterWebhook_catch w1
    | _ :: _ =>
        (Ok (GSStatus3 true 200
               "Task removed, but other tasks are still using this webhook."),
         w1)
    end.
Proof.
  intros Hget Hweb Hsid Hne Hentry remaining w1.
  unfold Ops.deregisterWebhook. unfold bind at 1.
  unfold Ops.DB.getTask, gets.
  rewrite Hget, Hweb, Hsid. apply String.eqb_neq in Hne.
  simpl. rewrite Hne. simpl.
  unfold try_catch, bind at 1.
  unfold Ops.DB.getWebhookRegistration, gets. rewrite Hentry.
  unfold bind at 1. unfold Ops.DB.updateWebhookRegistration, update.
  fold remaining. fold w1.
  destruct remaining; reflexivity.
Qed.

(** The provider step either deletes the entry and reports success, or
    leaves the registry as it is and reports an error. *)
Lemma deregisterWebhook_external_outcome (task : Task) (entry : Entry)
  (sid : string) (w1 : World) :
  let r := try_catch (Ops.deregisterWebhook_external E task entry sid)
                     deregisterWebhook_catch w1 in
  exists st,
    fst r = Ok st
    /\ ((success st = true
         /\ webhookRegistrations (snd r)
            = JsMap.delete sid (webhookRegistrations w1))
        \/ (success st = false
            /\ (code st = Some 500 \/ code st = Some 400)
            /\ webhookRegistrations (snd r) = webhookRegistrations w1)).
Proof.
  unfold Ops.deregisterWebhook_external, try_catch, deregisterWebhook_catch,
    bind, call, ret, throw, Ops.DB.deleteWebhookRegistration, update.
  cbv zeta.
  destruct (WebhookRegistryEntry.externalWebhookId entry =? EmptyString)%string;
    [eexists; split; [reflexivity|right; simpl; auto]|].
  destruct (pluginType (IngestionTaskDefinition.source task) =? "git-crawler")%string.
  { destruct (negb (truthy (Ops.as_credentials
                              (IngestionTaskDefinition.trigger task))));
      [eexists; split; [reflexivity|right; simpl; auto]|].
    destruct (provider_deregisterWebhook E _ _ _ _ _) as [a|e];
      [|eexists; split; [reflexivity|right; simpl; auto]].
    destruct (dereg_success a); simpl;
      eexists; (split; [reflexivity|]); [left|right]; simpl; auto. }
  destruct (pluginType (IngestionTaskDefinition.source task)
            =? "googledrive-crawler")%string.
  { destruct (negb (truthy (Ops.as_credentials
                              (IngestionTaskDefinition.trigger task))));
      [eexists; split; [reflexivity|right; simpl; auto]|].
    destruct (provider_deregisterWebhook E _ _ _ _ _) as [a|e];
      [|eexists; split; [reflexivity|right; simpl; auto]].
    destruct (dereg_success a); simpl;
      eexists; (split; [reflexivity|]); [left|right]; simpl; auto. }
  eexists; split; [reflexivity|right; simpl; auto].
Qed.

(** With a supported plugin type, credentials and an external id, the
    outcome of the provider step is the provider's answer. *)
Lemma deregisterWebhook_external_answer (task : Task) (entry : Entry)
  (sid : string) (w1 : World) :
  let pt := pluginType (IngestionTaskDefinition.source task) in
  let creds := Ops.as_credentials (IngestionTaskDefinition.trigger task) in
  let arg :=
    if (pt =? "git-crawler")%string
    then Ops.extractRepoNameFromUrl E
           (tmpl (Ops.cfg (config (IngestionTaskDefinition.source task))
                    "repoUrl"))
    else WebhookRegistryEntry.secret entry in
  let answer :=
    provider_deregisterWebhook E (history w1) pt arg
      (WebhookRegistryEntry.externalWebhookId entry) creds in
  pt = "git-crawler" \/ pt = "googledrive-crawler" ->
  truthy creds = true ->
  WebhookRegistryEntry.externalWebhookId entry <> EmptyString ->
  forall st,
    fst (try_catch (Ops.deregisterWebhook_external E task entry sid)
                   deregisterWebhook_catch w1) = Ok st ->
    (success st = true <-> exists a, answer = Ok a /\ dereg_success a = true).
Proof.
  intros pt creds arg answer Hpt Hcred Hext st.
  unfold Ops.deregisterWebhook_external, try_catch, deregisterWebhook_catch,
    bind, call, ret, throw, Ops.DB.deleteWebhookRegistration, update.
  cbv zeta. apply String.eqb_neq in Hext. rewrite Hext.
  fold pt. fold creds. rewrite Hcred. simpl negb. cbv iota.
  subst answer arg.
  destruct Hpt as [Hpt|Hpt]; rewrite Hpt; simpl;
    (destruct (provider_deregisterWebhook E _ _ _ _ _) as [a|e];
     [destruct (dereg_success a) eqn:Ha|]; simpl; intros Hst;
     injection Hst as Hst; rewrite <- Hst; simpl;
     (split;
      [ intros Hs; try discriminate Hs; eauto
      | intros [a' [Ha' Hs']]; try discriminate Ha';
        injection Ha' as Ha'; subst a'; congruence ])).
Qed.

(** C3, as the source has it.  When removing the task id empties an entry's
    [registeredTasks], the deregister flow answers with a status and touches
    no other entry; the entry is deleted when the status is a success; when
    it is not, the error is surfaced (code 500, or 400 for an unsupported
    plugin type) and the entry stays, with the id removed and not restored.
    For ['git-crawler'] and ['googledrive-crawler'] tasks with credentials
    and an external webhook id, the status is a success exactly when the
    provider's deregistration is. *)
Theorem deregisterWebhook_last_task (w : World) (taskId : string)
  (task : Task) (sid : string) (entry : Entry) :
  JsMap.get taskId (tasks w) = Some task ->
  is_webhook (IngestionTaskDefinition.trigger task) = true ->
  Ops.getSourceIdentifier (pluginType (IngestionTaskDefinition.source task))
    (config (IngestionTaskDefinition.source task)) = Some sid ->
  sid <> EmptyString ->
  JsMap.get sid (webhookRegistrations w) = Some entry ->
  filter (fun id => negb (id =? taskId)%string)
         (WebhookRegistryEntry.registeredTasks entry) = [] ->
  let emptied :=
    WebhookRegistryEntry.assign entry [WebhookRegistryEntry.RegisteredTasks []] in
  let r := Ops.deregisterWebhook E taskId w in
  let pt := pluginType (IngestionTaskDefinition.source task) in
  let creds := Ops.as_credentials (IngestionTaskDefinition.trigger task) in
  let arg :=
    if (pt =? "git-crawler")%string
    then Ops.extractRepoNameFromUrl E
           (tmpl (Ops.cfg (config (IngestionTaskDefinition.source task))
                    "repoUrl"))
    else WebhookRegistryEntry.secret entry in
  let answer :=
    provider_deregisterWebhook E (history w) pt arg
      (WebhookRegistryEntry.externalWebhookId entry) creds in
  exists st,
    fst r = Ok st
    /\ (forall k, k <> sid ->
          JsMap.get k (webhookRegistrations (snd r))
          = JsMap.get k (webhookRegistrations w))
    /\ (success st = true ->
        JsMap.get sid (webhookRegistrations (snd r)) = None)
    /\ (success st = false ->
        (code st = Some 500 \/ code st = Some 400)
        /\ JsMap.get sid (webhookRegistrations (snd r)) = Some emptied)
    /\ (pt = "git-crawler" \/ pt = "googledrive-crawler" ->
        truthy creds = true ->
        WebhookRegistryEntry.externalWebhookId entry <> EmptyString ->
        (success st = true
         <-> exists a, answer = Ok a /\ dereg_success a = true)).
Proof.
  intros Hget Hweb Hsid Hne Hentry Hlast emptied r pt creds arg answer.
  subst r. rewrite (@deregisterWebhook_shape w taskId task sid entry Hget Hweb Hsid Hne
             Hentry).
  rewrite Hlast.
  set (w1 := set_webhookRegistrations _ w).
  destruct (deregisterWebhook_external_outcome task entry sid w1)
    as (st & Hst & Hcases).
  exists st. split; [exact Hst|].
  assert (Hw1 : webhookRegistrations w1
                = JsMap.modify sid
                    (fun e => WebhookRegistryEntry.assign e
                                [WebhookRegistryEntry.RegisteredTasks []])
                    (webhookRegistrations w)) by reflexivity.
  split; [|split; [|split]].
  - intros k Hk. destruct Hcases as [[_ Hreg]|[_ [_ Hreg]]]; rewrite Hreg.
    + rewrite get_delete_neq by exact Hk. rewrite Hw1.
      now apply get_modify_neq.
    + rewrite Hw1. now apply get_modify_neq.
  - intros Hs. destruct Hcases as [[_ Hreg]|[Hf _]]; [|congruence].
    rewrite Hreg. apply get_delete_eq.
  - intros Hs. destruct Hcases as [[Ht _]|[_ [Hcode Hreg]]]; [congruence|].
    split; [exact Hcode|]. rewrite Hreg, Hw1, get_modify_eq, Hentry.
    reflexivity.
  - intros Hpt Hcred Hext.
    exact (@deregisterWebhook_external_answer task entry sid w1 Hpt Hcred
             Hext st Hst).
Qed.

End Deregister.

Lemma deregisterWebhook_last_task_witness :
  let w := Toy.world [("g1", Toy.task "g1" Toy.gitRepo Toy.hooked)]
             [("https://github.com/ex/r", Toy.entry ["g1"])] in
  let r := Ops.deregisterWebhook (Toy.env true) "g1" w in
  exists st,
    fst r = Ok st /\ success st = true
    /\ JsMap.get "https://github.com/ex/r" (webhookRegistrations (snd r))
       = None.
Proof.
  cbv zeta.
  destruct (@deregisterWebhook_last_task (Toy.env true)
              (Toy.world [("g1", Toy.task "g1" Toy.gitRepo Toy.hooked)]
                 [("https://github.com/ex/r", Toy.entry ["g1"])])
              "g1" (Toy.task "g1" Toy.gitRepo Toy.hooked)
              "https://github.com/ex/r" (Toy.entry ["g1"])
              eq_refl eq_refl eq_refl ltac:(discriminate) eq_refl eq_refl)
    as (st & Hst & _ & Hdel & _ & Hans).
  assert (Hs : success st = true).
  { apply Hans.
    - left. reflexivity.
    - reflexivity.
    - discriminate.
    - eexists. split; reflexivity. }
  exists st. split; [exact Hst|]. split; [exact Hs|]. exact (Hdel Hs).
Defined.

(** C3 as stated fails.  The provider refuses the deregistration of the last
    task of an entry: the flow answers 500, and the entry persists with an
    empty [registeredTasks]; the removed id is not put back. *)
Lemma deregisterWebhook_ghost_entry_counterexample :
  let w := Toy.world [("g1", Toy.task "g1" Toy.gitRepo Toy.hooked)]
             [("https://github.com/ex/r", Toy.entry ["g1"])] in
  let r := Ops.deregisterWebhook (Toy.env false) "g1" w in
  provider_deregisterWebhook (Toy.env false) (history w) "git-crawler" "ex/r"
    "42" (JStr "pat")
  = Ok (mkWebhookDeregistrationResult false None)
  /\ fst r = Ok (GSStatus3 false 500 "Failed to deregister webhook: ")
  /\ JsMap.get "https://github.com/ex/r" (webhookRegistrations (snd r))
     = Some (Toy.entry [])
  /\ ~ (forall k e,
          JsMap.get k (webhookRegistrations (snd r)) = Some e ->
          WebhookRegistryEntry.registeredTasks e <> []).
Proof.
  cbv zeta. split; [reflexivity|]. split; [reflexivity|].
  split; [reflexivity|].
  intros Hall.
  apply (Hall "https://github.com/ex/r" (Toy.entry [])); reflexivity.
Qed.

(* ------------------------------------------------------------------ *)
(** ** Scheduling a task and reading it back *)

Section RoundTrip.
Variable E : Env.


Lemma trigger_core_with_webhook_ids tr a b :
  trigger_core (Ops.with_webhook_ids tr a b) = trigger_core tr.
Proof. destruct tr; reflexivity. Qed.




End RoundTrip.



(* ------------------------------------------------------------------ *)
(** ** Cron dispatch *)

Section Cron.
Variable E : Env.

(** *** What a run changes *)

Lemma grows_by_nothing P w w' : history w' = history w -> grows_by P w w'.
Proof. intros Hh. exists []. now rewrite app_nil_r. Qed.

Lemma grows_by_record P e w : P e = true -> grows_by P w (record e w).
Proof. intros He. exists [e]. split; [reflexivity|]. simpl. now rewrite He. Qed.

(** A primitive step and the history. *)
Ltac grow_leaf :=
  unfold DB.getTask, DB.saveTask, DB.updateTask, DB.deleteTask,
    DB.listAllTasks, DB.getWebhookRegistration, DB.saveWebhookRegistration,
    DB.updateWebhookRegistration, DB.deleteWebhookRegistration, emit, effect;
  first [ apply respects_gets; exact _
        | apply respects_update; intros ?;
          first [ apply grows_by_nothing; reflexivity
                | apply grows_by_record; reflexivity ]
        | apply respects_call; intros ?; apply grows_by_record; reflexivity ].

Ltac grow_auto := repeat (cbv beta zeta; first [op_step | grow_leaf]).

Lemma executeTask_quiet o ctx initialPayload :
  respects quiet (IngestionOrchestrator.executeTask E o ctx initialPayload).
Proof.
  unfold quiet, IngestionOrchestrator.executeTask,
    IngestionOrchestrator.deliver.
  grow_auto.
Qed.

Lemma writeBackCursors_quiet task st :
  respects quiet (Ops.writeBackCursors task st).
Proof. unfold quiet, Ops.writeBackCursors. grow_auto. Qed.

Lemma untouched_same k w w' :
  tasks w' = tasks w -> registeredPlugins w' = registeredPlugins w ->
  untouched_except k w w'.
Proof.
  intros Ht Hp. split; [now rewrite Ht|]. split; [now rewrite Ht|].
  split; [|exact Hp].
  intros t Hget. exists t. rewrite Ht. split; [exact Hget|apply static_eq_refl].
Qed.

Lemma untouched_updateTask k updates w :
  (forall t, static_eq t (IngestionTaskDefinition.assign t updates)) ->
  untouched_except k w
    (set_tasks (JsMap.modify k
                  (fun t => IngestionTaskDefinition.assign t updates)) w).
Proof.
  intros Hst. split; [apply keys_modify|].
  split; [intros k' Hk'; simpl; now apply get_modify_neq|].
  split; [|reflexivity].
  intros t Hget. simpl. rewrite get_modify_eq, Hget. simpl.
  eexists. split; [reflexivity|apply Hst].
Qed.

(** A primitive step and the task store, for a run of the task under [k]. *)
Ltac touch_leaf :=
  unfold DB.getTask, DB.saveTask, DB.updateTask, DB.deleteTask,
    DB.listAllTasks, DB.getWebhookRegistration, DB.saveWebhookRegistration,
    DB.updateWebhookRegistration, DB.deleteWebhookRegistration, emit, effect;
  first [ apply respects_gets; exact _
        | apply respects_update; intros ?;
          first [ apply untouched_same; reflexivity
                | apply untouched_updateTask; intros ?; repeat split ]
        | apply respects_call; intros ?; apply untouched_same; reflexivity ].

Ltac touch_auto := repeat (cbv beta zeta; first [op_step | touch_leaf]).

Lemma executeTask_untouched k o ctx initialPayload :
  respects (untouched_except k)
    (IngestionOrchestrator.executeTask E o ctx initialPayload).
Proof.
  unfold IngestionOrchestrator.executeTask, IngestionOrchestrator.deliver.
  touch_auto.
Qed.

Lemma runOrchestrator_untouched ctx task initialPayload :
  respects (untouched_except (IngestionTaskDefinition.id task))
    (Ops.runOrchestrator E ctx task initialPayload).
Proof.
  unfold Ops.runOrchestrator, Ops.writeBackCursors.
  repeat (cbv beta zeta;
          first [ apply executeTask_untouched | op_step | touch_leaf ]).
Qed.

(** The history after a run: the invocation marker, then effects that are
    not invocations. *)
Lemma runOrchestrator_history ctx task initialPayload w :
  exists l,
    history (snd (Ops.runOrchestrator E ctx task initialPayload w))
    = history w
      ++ RunOrchestrator (IngestionTaskDefinition.id task) initialPayload :: l
    /\ forallb (fun e => negb (is_run e)) l = true.
Proof.
  unfold Ops.runOrchestrator. cbv zeta.
  match goal with
  | |- context [bind (effect ?e) ?f w] =>
      change (bind (effect e) f w) with (f tt (record e w));
      assert (Hq : respects quiet (f tt))
  end.
  { unfold quiet.
    repeat (cbv beta zeta;
            first [ apply executeTask_quiet | apply writeBackCursors_quiet
                  | op_step | grow_leaf ]). }
  match goal with
  | |- context [snd (?m ?w1)] => destruct (Hq w1) as (l & Hl & Hf)
  end.
  exists l. split; [|exact Hf].
  rewrite Hl. simpl. now rewrite <- app_assoc.
Qed.

(** *** The record of a completed run *)

Lemma keeps_same k w w' :
  tasks w' = tasks w -> keeps_completed_has_lastRun E k w w'.
Proof. intros Ht H t. rewrite Ht. apply H. Qed.

Lemma keeps_update_other k updates w :
  (forall t, IngestionTaskDefinition.currentStatus
               (IngestionTaskDefinition.assign t updates) <> COMPLETED) ->
  keeps_completed_has_lastRun E k w
    (set_tasks (JsMap.modify k
                  (fun t => IngestionTaskDefinition.assign t updates)) w).
Proof.
  intros Hne _ t. simpl. rewrite get_modify_eq.
  destruct (JsMap.get k (tasks w)) as [t0|]; simpl; [|discriminate].
  intros Heq. injection Heq as <-. intros Hc. now apply Hne in Hc.
Qed.

Lemma keeps_update_clock k updates h w :
  (forall t, IngestionTaskDefinition.lastRun
               (IngestionTaskDefinition.assign t updates)
             = Some (wallClock E h)) ->
  keeps_completed_has_lastRun E k w
    (set_tasks (JsMap.modify k
                  (fun t => IngestionTaskDefinition.assign t updates)) w).
Proof.
  intros Hl _ t. simpl. rewrite get_modify_eq.
  destruct (JsMap.get k (tasks w)) as [t0|]; simpl; [|discriminate].
  intros Heq. injection Heq as <-. intros _. exists h. apply Hl.
Qed.

Lemma returns_wallClock :
  returns (fun now => exists h, now = wallClock E h)
          (gets (fun w => wallClock E (history w))).
Proof. intros w a w' Heq. injection Heq as <- _. now eexists. Qed.

Ltac keep_leaf :=
  unfold DB.getTask, DB.saveTask, DB.updateTask, DB.deleteTask,
    DB.listAllTasks, DB.getWebhookRegistration, DB.saveWebhookRegistration,
    DB.updateWebhookRegistration, DB.deleteWebhookRegistration, emit, effect;
  first [ apply respects_gets; exact _
        | apply respects_update; intros ?;
          first [ apply keeps_same; reflexivity
                | apply keeps_update_other; intros ?; simpl; discriminate
                | eapply keeps_update_clock; intros ?; reflexivity ]
        | apply respects_call; intros ?; apply keeps_same; reflexivity ].

Lemma executeTask_keeps k o ctx initialPayload :
  respects (keeps_completed_has_lastRun E k)
    (IngestionOrchestrator.executeTask E o ctx initialPayload).
Proof.
  unfold IngestionOrchestrator.executeTask, IngestionOrchestrator.deliver.
  repeat (cbv beta zeta; first [op_step | keep_leaf]).
Qed.

(** After a run of a task, if it is marked completed its [lastRun] is a
    clock reading. *)
Lemma runOrchestrator_completed_has_lastRun ctx task initialPayload w :
  completed_has_lastRun E (IngestionTaskDefinition.id task)
    (snd (Ops.runOrchestrator E ctx task initialPayload w)).
Proof.
  unfold Ops.runOrchestrator. cbv zeta.
  match goal with
  | |- context [bind (effect ?e) ?f w] =>
      change (bind (effect e) f w) with (f tt (record e w))
  end.
  cbv beta.
  match goal with
  | |- context [bind (emit ?e) ?f ?w1] =>
      change (bind (emit e) f w1) with (f tt (record (Emit e) w1))
  end.
  cbv beta.
  match goal with
  | |- context [bind (Ops.DB.updateTask ?k ?u) ?f ?w2] =>
      change (bind (Ops.DB.updateTask k u) f w2)
        with (f tt (set_tasks
                      (JsMap.modify k
                         (fun t => IngestionTaskDefinition.assign t u)) w2));
      assert (Hk : respects
                     (keeps_completed_has_lastRun E
                        (IngestionTaskDefinition.id task)) (f tt))
  end.
  { repeat (cbv beta zeta;
            first [ apply executeTask_keeps
                  | match goal with
                    | |- respects _ (bind (gets (fun w => wallClock E _)) _) =>
                        apply respects_bind_post with (3 := returns_wallClock);
                        [exact _ | apply respects_gets; exact _
                        | intros ? [? ->]]
                    end
                  | op_step | keep_leaf ]).
    all: unfold Ops.writeBackCursors;
      repeat (cbv beta zeta; first [op_step | keep_leaf]). }
  match goal with
  | |- completed_has_lastRun _ _ (snd (?m ?w3)) => apply (Hk w3)
  end.
  intros t. simpl. rewrite get_modify_eq.
  destruct (JsMap.get _ (tasks w)) as [t0|]; simpl; [|discriminate].
  intros Heq. injection Heq as <-. discriminate.
Qed.

(** *** One turn of the loop, and the loop *)

Lemma cronTurn_cases ctx now key acc w res w' :
  Ops.cronTurn E ctx now key acc w = (res, w') ->
  (exists a, res = Ok a)
  /\ match JsMap.get key (tasks w) with
     | Some t =>
         if dueb E now t
         then w' = snd (Ops.runOrchestrator E ctx t (Some (cronPayload t)) w)
         else w' = w
     | None => w' = w
     end.
Proof.
  intros Hrun. unfold Ops.cronTurn in Hrun. destruct acc as [results n].
  unfold dueb.
  unfold Ops.DB.getWebhookRegistration in Hrun.
  unfold try_catch, bind, lift, ret, gets in Hrun.
  repeat destruct_innermost Hrun.
  all: injection Hrun as <- <-.
  all: split; [eexists; reflexivity|].
  all: try reflexivity.
  all: match goal with
       | H : Ops.runOrchestrator _ _ _ _ _ = _ |- _ =>
           unfold cronPayload; rewrite H; reflexivity
       end.
Qed.

Lemma untouched_statics_kept k w w' :
  untouched_except k w w' -> statics_kept w w'.
Proof.
  intros (Hk & Ho & Hs & Hp). split; [exact Hk|]. split; [|exact Hp].
  intros k' t Hget. destruct (String.eqb k' k) eqn:Heq.
  - apply String.eqb_eq in Heq. subst k'. now apply Hs.
  - apply String.eqb_neq in Heq. exists t. rewrite (Ho _ Heq).
    split; [exact Hget | apply static_eq_refl].
Qed.

Lemma forallb_not_run_in l k p :
  forallb (fun e => negb (is_run e)) l = true ->
  ~ In (RunOrchestrator k p) l.
Proof.
  intros Hf Hin. rewrite forallb_forall in Hf.
  specialize (Hf _ Hin). discriminate Hf.
Qed.

Lemma cronLoop_spec ctx now ks :
  forall acc w,
    NoDup ks ->
    (forall k t, In k ks -> JsMap.get k (tasks w) = Some t ->
                 IngestionTaskDefinition.id t = k) ->
    let r := Ops.cronLoop E ctx now ks acc w in
    (exists a, fst r = Ok a)
    /\ statics_kept w (snd r)
    /\ (forall k, ~ In k ks ->
                  JsMap.get k (tasks (snd r)) = JsMap.get k (tasks w))
    /\ exists l,
         history (snd r) = history w ++ l
         /\ (forall k p,
               In (RunOrchestrator k p) l ->
               In k ks
               /\ exists t, JsMap.get k (tasks w) = Some t
                            /\ dueb E now t = true
                            /\ p = Some (cronPayload t))
         /\ (forall k t,
               In k ks -> JsMap.get k (tasks w) = Some t ->
               dueb E now t = true ->
               In (RunOrchestrator k (Some (cronPayload t))) l
               /\ completed_has_lastRun E k (snd r)).
Proof.
  induction ks as [|k0 rest IH]; intros acc w Hnd Hid; cbv zeta.
  - simpl. split; [eexists; reflexivity|]. split; [reflexivity|].
    split; [reflexivity|]. exists []. rewrite app_nil_r.
    split; [reflexivity|]. split; [intros k p []|intros k t []].
  - inversion Hnd as [|? ? Hnotin Hnd']; subst.
    simpl Ops.cronLoop. unfold bind.
    destruct (Ops.cronTurn E ctx now k0 acc w) as [res w1] eqn:Hturn.
    destruct (cronTurn_cases _ _ _ _ _ Hturn) as [[a ->] Hcase].
    assert (Hquiet :
              w1 = w ->
              (forall t, JsMap.get k0 (tasks w) = Some t ->
                         dueb E now t = false) ->
              let r := Ops.cronLoop E ctx now rest a w1 in
              (exists a0, fst r = Ok a0)
              /\ statics_kept w (snd r)
              /\ (forall k, ~ In k (k0 :: rest) ->
                    JsMap.get k (tasks (snd r)) = JsMap.get k (tasks w))
              /\ exists l,
                   history (snd r) = history w ++ l
                   /\ (forall k p,
                         In (RunOrchestrator k p) l ->
                         In k (k0 :: rest)
                         /\ exists t, JsMap.get k (tasks w) = Some t
                                      /\ dueb E now t = true
                                      /\ p = Some (cronPayload t))
                   /\ (forall k t,
                         In k (k0 :: rest) ->
                         JsMap.get k (tasks w) = Some t ->
                         dueb E now t = true ->
                         In (RunOrchestrator k (Some (cronPayload t))) l
                         /\ completed_has_lastRun E k (snd r))).
    { intros -> Hnot.
      destruct (IH a w Hnd' (fun k t Hin => Hid k t (or_intror Hin)))
        as (Hok & Hst & Hfr & l & Hl & Hruns & Hdue).
      split; [exact Hok|]. split; [exact Hst|].
      split; [intros k Hk; apply Hfr; intros Hin; apply Hk; now right|].
      exists l. split; [exact Hl|]. split.
      - intros k p Hin. destruct (Hruns k p Hin) as [Hk Ht].
        split; [now right|exact Ht].
      - intros k t [<-|Hin] Hget Hd.
        + rewrite (Hnot t Hget) in Hd. discriminate.
        + now apply Hdue. }
    destruct (JsMap.get k0 (tasks w)) as [t0|] eqn:Hget0;
      [|apply Hquiet; [exact Hcase|intros t Ht; discriminate Ht]].
    destruct (dueb E now t0) eqn:Hdue0;
      [|apply Hquiet; [exact Hcase|];
        intros t Ht; injection Ht as <-; exact Hdue0].
    clear Hquiet.
    assert (Hk0 : IngestionTaskDefinition.id t0 = k0)
      by (apply Hid; [now left|exact Hget0]).
    pose proof (runOrchestrator_untouched ctx t0 (Some (cronPayload t0)) w)
      as Hunt.
    destruct (runOrchestrator_history ctx t0 (Some (cronPayload t0)) w)
      as (l0 & Hl0 & Hq0).
    pose proof (runOrchestrator_completed_has_lastRun ctx t0
                  (Some (cronPayload t0)) w) as HQ.
    rewrite Hk0 in Hunt, Hl0, HQ. rewrite <- Hcase in Hunt, Hl0, HQ.
    destruct Hunt as (Hkeys & Hother & Hstat & Hplug).
    assert (Hrest : forall k, In k rest ->
                      JsMap.get k (tasks w1) = JsMap.get k (tasks w)).
    { intros k Hin. apply Hother. intros ->. contradiction. }
    destruct (IH a w1 Hnd') as (Hok & Hst & Hfr & l1 & Hl1 & Hruns & Hdue).
    { intros k t Hin Hget. rewrite (Hrest k Hin) in Hget.
      apply Hid; [now right|exact Hget]. }
    split; [exact Hok|]. split; [|split].
    + etransitivity; [|exact Hst].
      apply untouched_statics_kept with (k := k0).
      repeat split; assumption.
    + intros k Hk. rewrite Hfr by (intros Hin; apply Hk; now right).
      apply Hother. intros ->. apply Hk. now left.
    + exists (RunOrchestrator k0 (Some (cronPayload t0)) :: l0 ++ l1).
      split; [rewrite Hl1, Hl0, <- app_assoc; reflexivity|]. split.
      * intros k p [Heq|Hin].
        { injection Heq as <- <-. split; [now left|].
          exists t0. repeat split; assumption. }
        apply in_app_or in Hin. destruct Hin as [Hin|Hin].
        { exfalso. exact (forallb_not_run_in _ _ _ Hq0 Hin). }
        destruct (Hruns k p Hin) as (Hk & t & Hget & Hd & Hp).
        split; [now right|]. exists t. rewrite <- (Hrest k Hk).
        repeat split; assumption.
      * intros k t [<-|Hin] Hget Hd.
        { rewrite Hget0 in Hget. injection Hget as <-.
          split; [now left|].
          intros t' Hget'. rewrite (Hfr k0 Hnotin) in Hget'.
          now apply HQ. }
        rewrite <- (Hrest k Hin) in Hget.
        destruct (Hdue k t Hin Hget Hd) as [Hin1 HQ1].
        split; [right; apply in_or_app; now right|exact HQ1].
Qed.

(** *** The dispatch *)

Lemma triggerAllEnabledCronTasks_loop ctx w :
  let loop :=
    Ops.cronLoop E ctx (now_of E ctx w) (JsMap.keys (tasks w)) ([], O) w in
  snd (Ops.triggerAllEnabledCronTasks E ctx w) = snd loop
  /\ ((exists a, fst loop = Ok a) ->
      exists st, fst (Ops.triggerAllEnabledCronTasks E ctx w) = Ok st).
Proof.
  cbv zeta.
  destruct (Ops.triggerAllEnabledCronTasks E ctx w) as [res w'] eqn:Hrun.
  unfold Ops.triggerAllEnabledCronTasks in Hrun.
  unfold bind at 1 in Hrun. unfold gets at 1 in Hrun. cbv beta iota in Hrun.
  unfold bind at 1 in Hrun. unfold gets at 1 in Hrun. cbv beta iota in Hrun.
  unfold bind at 1 in Hrun. fold (now_of E ctx w) in Hrun.
  destruct (Ops.cronLoop E ctx _ _ _ w) as [[[results n]|e] w1]; simpl.
  - destruct n; [|destruct (_ <? _)%nat]; injection Hrun as <- <-;
      (split; [reflexivity|intros _; eexists; reflexivity]).
  - injection Hrun as <- <-. split; [reflexivity|].
    intros [a Ha]. discriminate Ha.
Qed.

Lemma isDue_spec now previousRunTime lastRun :
  Ops.isDue now previousRunTime lastRun = true
  <-> previousRunTime > now - 65 * 1000
      /\ previousRunTime <= now
      /\ (lastRun = None
          \/ exists lr, lastRun = Some lr /\ lr < previousRunTime).
Proof.
  unfold Ops.isDue. cbv zeta.
  rewrite !andb_true_iff, Z.gtb_lt, Z.leb_le. split.
  - intros [[H1 H2] H3]. split; [lia|]. split; [exact H2|].
    destruct lastRun as [lr|]; [right|now left].
    exists lr. split; [reflexivity|]. now apply Z.ltb_lt.
  - intros (H1 & H2 & H3). split; [split; [lia|exact H2]|].
    destruct H3 as [->|[lr [-> Hlr]]]; [reflexivity|]. now apply Z.ltb_lt.
Qed.

Lemma new_effects_app w w' l :
  history w' = history w ++ l -> new_effects w w' = l.
Proof.
  intros Hh. unfold new_effects. rewrite Hh.
  rewrite skipn_app, skipn_all, Nat.sub_diag. reflexivity.
Qed.

Lemma statics_kept_keyed w w' :
  statics_kept w w' -> keyed_by_id (tasks w) -> keyed_by_id (tasks w').
Proof.
  intros (Hk & Hs & _) [Hnd Hid]. split; [now rewrite Hk|].
  intros k t' Hget'.
  destruct (in_keys_get_some k (tasks w)) as [t Hget].
  { rewrite <- Hk. eapply get_some_in_keys; eauto. }
  destruct (Hs k t Hget) as (t1 & Hget1 & Hid1 & _).
  rewrite Hget' in Hget1. injection Hget1 as <-.
  rewrite Hid1. now apply Hid.
Qed.

(** Whether an enabled cron task is run by one dispatch. *)
Lemma cron_dispatch_runs_iff ctx w k t expression :
  keyed_by_id (tasks w) ->
  JsMap.get k (tasks w) = Some t ->
  IngestionTaskDefinition.enabled t = true ->
  IngestionTaskDefinition.trigger t = Cron expression ->
  let now := now_of E ctx w in
  let w1 := snd (Ops.triggerAllEnabledCronTasks E ctx w) in
  (exists st, fst (Ops.triggerAllEnabledCronTasks E ctx w) = Ok st)
  /\ statics_kept w w1
  /\ (executed k w w1 -> completed_has_lastRun E k w1)
  /\ (forall p, In (RunOrchestrator k p) (new_effects w w1) ->
                p = Some (cronPayload t))
  /\ (executed k w w1
      <-> exists previousScheduledTime,
            cron_prev E expression now = Ok previousScheduledTime
            /\ previousScheduledTime > now - 65 * 1000
            /\ previousScheduledTime <= now
            /\ (IngestionTaskDefinition.lastRun t = None
                \/ exists lr, IngestionTaskDefinition.lastRun t = Some lr
                              /\ lr < previousScheduledTime)).
Proof.
  intros [Hnd Hid] Hget Hen Htr now w1.
  destruct (triggerAllEnabledCronTasks_loop ctx w) as [Hsnd Hfst].
  destruct (@cronLoop_spec ctx (now_of E ctx w) (JsMap.keys (tasks w)) ([], O)
              w Hnd (fun k t _ => Hid k t))
    as (Hok & Hst & _ & l & Hl & Hruns & Hdue).
  fold now in Hruns, Hdue.
  subst w1. rewrite Hsnd.
  set (w1 := snd (Ops.cronLoop E ctx _ _ _ w)) in *.
  assert (Hdueb : dueb E now t = true
                  <-> exists previousScheduledTime,
                        cron_prev E expression now = Ok previousScheduledTime
                        /\ previousScheduledTime > now - 65 * 1000
                        /\ previousScheduledTime <= now
                        /\ (IngestionTaskDefinition.lastRun t = None
                            \/ exists lr,
                                 IngestionTaskDefinition.lastRun t = Some lr
                                 /\ lr < previousScheduledTime)).
  { unfold dueb. rewrite Hen, Htr. split.
    - destruct (cron_prev E expression now) as [prev|]; [|discriminate].
      intros Hd. exists prev. split; [reflexivity|]. now apply isDue_spec.
    - intros (prev & -> & Hd). now apply isDue_spec. }
  assert (Hexec : executed k w w1 <-> dueb E now t = true).
  { unfold executed. rewrite (@new_effects_app w w1 l Hl). split.
    - intros [p Hin]. destruct (Hruns k p Hin) as (_ & t' & Hget' & Hd & _).
      rewrite Hget in Hget'. now injection Hget' as <-.
    - intros Hd. eexists. apply (Hdue k t); auto.
      eapply get_some_in_keys; eauto. }
  split; [now apply Hfst|]. split; [exact Hst|]. split; [|split].
  - intros Hx. apply Hexec in Hx. apply (Hdue k t); auto.
    eapply get_some_in_keys; eauto.
  - intros p Hin. rewrite (@new_effects_app w w1 l Hl) in Hin.
    destruct (Hruns k p Hin) as (_ & t' & Hget' & _ & ->).
    rewrite Hget in Hget'. now injection Hget' as <-.
  - rewrite Hexec. exact Hdueb.
Qed.

(** C2, what the source does.  The guard that is to keep a task from
    running twice for one scheduled slot compares the slot with [lastRun],
    and [lastRun] is a reading of the wall clock taken when the run ends
    ([new Date()]), while [now] is the time of the event when the context
    carries one.  So, in a store that holds every task under its id: after a
    dispatch has run an enabled cron task and left it marked completed, a
    second dispatch whose previous scheduled time is that same slot, still
    within its window, runs the task again exactly when the wall clock
    reading recorded as [lastRun] is before the slot. *)
Theorem cron_same_slot_runs_again (ctx ctx2 : GSContext) (w : World)
  (k : string) (t t1 : Task) (expression : string) (slot : Z) :
  keyed_by_id (tasks w) ->
  JsMap.get k (tasks w) = Some t ->
  IngestionTaskDefinition.enabled t = true ->
  IngestionTaskDefinition.trigger t = Cron expression ->
  let w1 := snd (Ops.triggerAllEnabledCronTasks E ctx w) in
  let now2 := now_of E ctx2 w1 in
  let w2 := snd (Ops.triggerAllEnabledCronTasks E ctx2 w1) in
  executed k w w1 ->
  JsMap.get k (tasks w1) = Some t1 ->
  IngestionTaskDefinition.currentStatus t1 = COMPLETED ->
  cron_prev E expression (now_of E ctx w) = Ok slot ->
  cron_prev E expression now2 = Ok slot ->
  slot > now2 - 65 * 1000 ->
  slot <= now2 ->
  exists h,
    IngestionTaskDefinition.lastRun t1 = Some (wallClock E h)
    /\ (executed k w1 w2 <-> wallClock E h < slot).
Proof.
  intros Hkeyed Hget Hen Htr w1 now2 w2 Hran Hget1 Hdone _ Hslot Hwin Hle.
  destruct (@cron_dispatch_runs_iff ctx w k t expression Hkeyed Hget Hen Htr)
    as (_ & Hst & HQ & _ & _).
  fold w1 in Hst, HQ.
  destruct (HQ Hran t1 Hget1 Hdone) as [h Hlast].
  exists h. split; [exact Hlast|].
  destruct Hst as (Hkeys & Hstat & Hplug).
  destruct (Hstat k t Hget) as (t1' & Hget1' & _ & Hen1 & Htr1 & _).
  rewrite Hget1 in Hget1'. injection Hget1' as <-.
  rewrite Hen in Hen1. rewrite Htr in Htr1.
  assert (Hkeyed1 : keyed_by_id (tasks w1)).
  { apply statics_kept_keyed with (w := w); [|exact Hkeyed].
    repeat split; assumption. }
  destruct (@cron_dispatch_runs_iff ctx2 w1 k t1 expression Hkeyed1 Hget1 Hen1
              Htr1) as (_ & _ & _ & _ & Hiff2).
  fold now2 in Hiff2. fold w2 in Hiff2.
  rewrite Hiff2. split.
  - intros (prev & Hprev & _ & _ & [Hnone|(lr & Hlr & Hlt)]).
    + rewrite Hlast in Hnone. discriminate.
    + rewrite Hslot in Hprev. injection Hprev as <-.
      rewrite Hlast in Hlr. injection Hlr as <-. exact Hlt.
  - intros Hlt. exists slot. split; [exact Hslot|].
    split; [exact Hwin|]. split; [exact Hle|].
    right. exists (wallClock E h). split; [exact Hlast|exact Hlt].
Qed.

(** C6, what the source does.  When the dispatch runs a due cron task, the
    payload handed to the orchestrator holds [taskDefinition] and an empty
    [webhookPayload] only: the cursors read from the registry entry of the
    task's source are overwritten before the call, so [startPageToken],
    [nextPageToken] and [otherCrawlerSpecificTokens] are absent from it. *)
Theorem cron_run_payload_has_no_cursors (ctx : GSContext) (w : World)
  (k : string) (t : Task) (expression : string) :
  keyed_by_id (tasks w) ->
  JsMap.get k (tasks w) = Some t ->
  IngestionTaskDefinition.enabled t = true ->
  IngestionTaskDefinition.trigger t = Cron expression ->
  dueb E (now_of E ctx w) t = true ->
  let w1 := snd (Ops.triggerAllEnabledCronTasks E ctx w) in
  In (RunOrchestrator k (Some (cronPayload t))) (new_effects w w1)
  /\ (forall p, In (RunOrchestrator k p) (new_effects w w1) ->
                p = Some (cronPayload t))
  /\ Payload.startPageToken (cronPayload t) = JUndef
  /\ Payload.nextPageToken (cronPayload t) = JUndef
  /\ Payload.otherCrawlerSpecificTokens (cronPayload t) = JUndef.
Proof.
  intros Hkeyed Hget Hen Htr Hdue w1.
  destruct (@cron_dispatch_runs_iff ctx w k t expression Hkeyed Hget Hen Htr)
    as (_ & _ & _ & Hpay & Hiff).
  fold w1 in Hpay, Hiff.
  assert (Hran : executed k w w1).
  { apply Hiff. unfold dueb in Hdue. rewrite Hen, Htr in Hdue.
    destruct (cron_prev E expression (now_of E ctx w)) as [prev|];
      [|discriminate].
    exists prev. split; [reflexivity|]. now apply isDue_spec. }
  split; [|split; [exact Hpay|repeat split]].
  destruct Hran as [p Hin]. now rewrite <- (Hpay p Hin).
Qed.

End Cron.

Lemma keyed_by_id_singleton (t : Task) :
  keyed_by_id [(IngestionTaskDefinition.id t, t)].
Proof.
  split.
  - constructor; [intros []|constructor].
  - intros k t' Hget. simpl in Hget.
    destruct (String.eqb k (IngestionTaskDefinition.id t)) eqn:Hk;
      [|discriminate].
    apply String.eqb_eq in Hk. injection Hget as <-. now symmetry.
Qed.

Lemma keyed_by_id_saveTask (ts : JsMap.t Task) (t : Task) :
  keyed_by_id ts ->
  JsMap.get (IngestionTaskDefinition.id t) ts = None ->
  keyed_by_id (JsMap.set (IngestionTaskDefinition.id t) t ts).
Proof.
  intros [Hnd Hid] Hfree. split.
  - rewrite keys_set_absent by exact Hfree.
    apply NoDup_app; [exact Hnd|constructor; [intros []|constructor]|].
    intros k Hin [<-|[]].
    destruct (in_keys_get_some _ _ Hin) as [v Hv]. congruence.
  - intros k t' Hget.
    destruct (String.eqb k (IngestionTaskDefinition.id t)) eqn:Hk.
    + apply String.eqb_eq in Hk. subst k. rewrite get_set_eq in Hget.
      now injection Hget as <-.
    + apply String.eqb_neq in Hk. rewrite get_set_neq in Hget by exact Hk.
      now apply Hid.
Qed.

(** At the failing input of C2: a task due every minute, never run; the
    wall clock shows 12:00:30 and the two events carry the times 12:01:01
    and 12:01:15, both in the slot of 12:01:00.  Both dispatches run the
    task. *)
Lemma cron_same_slot_runs_again_witness :
  let t := Toy.task "c1" Toy.driveFolder (Cron "*/1 * * * *") in
  let w := Toy.world [("c1", t)] [] in
  let w1 :=
    snd (Ops.triggerAllEnabledCronTasks (Toy.env true)
           (mkGSContext (Some 43261000)) w) in
  let w2 :=
    snd (Ops.triggerAllEnabledCronTasks (Toy.env true)
           (mkGSContext (Some 43275000)) w1) in
  cron_prev (Toy.env true) "*/1 * * * *" 43261000 = Ok 43260000
  /\ cron_prev (Toy.env true) "*/1 * * * *" 43275000 = Ok 43260000
  /\ option_map IngestionTaskDefinition.currentStatus
       (JsMap.get "c1" (tasks w1)) = Some COMPLETED
  /\ option_map IngestionTaskDefinition.lastRun
       (JsMap.get "c1" (tasks w1)) = Some (Some 43230012)
  /\ executed "c1" w w1
  /\ executed "c1" w1 w2.
Proof.
  cbv zeta. split; [reflexivity|]. split; [reflexivity|].
  split; [vm_compute; reflexivity|]. split; [vm_compute; reflexivity|].
  assert (Hran : executed "c1"
                   (Toy.world [("c1", Toy.task "c1" Toy.driveFolder
                                        (Cron "*/1 * * * *"))] [])
                   (snd (Ops.triggerAllEnabledCronTasks (Toy.env true)
                           (mkGSContext (Some 43261000))
                           (Toy.world [("c1", Toy.task "c1" Toy.driveFolder
                                                (Cron "*/1 * * * *"))] [])))).
  { exists (Some (cronPayload (Toy.task "c1" Toy.driveFolder
                                 (Cron "*/1 * * * *")))).
    vm_compute. left. reflexivity. }
  split; [exact Hran|].
  destruct (@cron_same_slot_runs_again (Toy.env true)
              (mkGSContext (Some 43261000)) (mkGSContext (Some 43275000))
              (Toy.world [("c1", Toy.task "c1" Toy.driveFolder
                                   (Cron "*/1 * * * *"))] [])
              "c1" (Toy.task "c1" Toy.driveFolder (Cron "*/1 * * * *"))
              (IngestionTaskDefinition.assign
                 (Toy.task "c1" Toy.driveFolder (Cron "*/1 * * * *"))
                 [IngestionTaskDefinition.CurrentStatus COMPLETED;
                  IngestionTaskDefinition.LastRun (Some 43230012);
                  IngestionTaskDefinition.LastRunStatus
                    (Some (GSStatus4 true 200
                             "Ingestion task completed successfully."
                             (JObj [("itemsProcessed", JNum 2)])))])
              "*/1 * * * *" 43260000
              (keyed_by_id_singleton
                 (Toy.task "c1" Toy.driveFolder (Cron "*/1 * * * *")))
              eq_refl eq_refl eq_refl Hran)
    as (h & Hlast & Hiff).
  - vm_compute. reflexivity.
  - reflexivity.
  - reflexivity.
  - reflexivity.
  - vm_compute. reflexivity.
  - vm_compute. discriminate.
  - apply Hiff. simpl in Hlast. injection Hlast as Hh.
    change (wallClock (Toy.env true) h) with (Toy.clock h).
    rewrite <- Hh. reflexivity.
Defined.

(** At the failing input of C6: a due cron task on a Drive folder whose
    registry entry holds [startPageToken = "t0"] and [nextPageToken = "n1"]. *)
Lemma cron_run_payload_has_no_cursors_witness :
  let t := Toy.task "c1" Toy.driveFolder (Cron "*/1 * * * *") in
  let entry :=
    WebhookRegistryEntry.mk "f1" "/drive" "s3cr3t" "ch" ["w1"] true
      (JStr "t0") (JStr "n1") JUndef in
  let w := Toy.world [("c1", t)] [("f1", entry)] in
  let w1 :=
    snd (Ops.triggerAllEnabledCronTasks (Toy.env true) (mkGSContext None) w) in
  Ops.getSourceIdentifier "googledrive-crawler" [("folderId", "f1")]
  = Some "f1"
  /\ option_map WebhookRegistryEntry.startPageToken
       (JsMap.get "f1" (webhookRegistrations w)) = Some (JStr "t0")
  /\ In (RunOrchestrator "c1"
           (Some (Payload.mk (Some t) (JStr EmptyString) None None
                    JUndef JUndef JUndef)))
        (new_effects w w1)
  /\ forall p, In (RunOrchestrator "c1" p) (new_effects w w1) ->
               option_map Payload.startPageToken p = Some JUndef.
Proof.
  cbv zeta. split; [reflexivity|]. split; [reflexivity|].
  destruct (@cron_run_payload_has_no_cursors (Toy.env true) (mkGSContext None)
              (Toy.world [("c1", Toy.task "c1" Toy.driveFolder
                                   (Cron "*/1 * * * *"))]
                 [("f1", WebhookRegistryEntry.mk "f1" "/drive" "s3cr3t" "ch"
                           ["w1"] true (JStr "t0") (JStr "n1") JUndef)])
              "c1" (Toy.task "c1" Toy.driveFolder (Cron "*/1 * * * *"))
              "*/1 * * * *"
              (keyed_by_id_singleton
                 (Toy.task "c1" Toy.driveFolder (Cron "*/1 * * * *")))
              eq_refl eq_refl eq_refl eq_refl)
    as (Hin & Hall & _).
  split; [exact Hin|].
  intros p Hp. rewrite (Hall p Hp). reflexivity.
Defined.

(* ------------------------------------------------------------------ *)
(** ** Webhook dispatch with a bad signature *)

Section BadSignature.
Variable E : Env.

Lemma checkGitSignature_rejects headers body sec sig alg parts :
  sec <> EmptyString ->
  signature_header headers = Some sig ->
  sig <> EmptyString ->
  split "=" sig = alg :: parts ->
  alg <> "sha256"%string
  \/ nth_error parts 0 <> Some (hmac_sha256_hex E sec body) ->
  checkGitSignature E headers body (Some sec)
  = Rejected (WebhookResult.failure
                (if (alg =? "sha256")%string
                 then "Invalid webhook signature."
                 else "Unsupported signature algorithm.") false).
Proof.
  intros Hsec Hsig Hne Hsplit Hbad.
  unfold checkGitSignature. apply String.eqb_neq in Hsec. rewrite Hsec.
  fold (signature_header headers). rewrite Hsig.
  apply String.eqb_neq in Hne. rewrite Hne. cbv zeta. rewrite Hsplit. simpl.
  destruct (alg =? "sha256")%string eqn:Halg; simpl; [|reflexivity].
  destruct Hbad as [Hbad|Hbad].
  - apply String.eqb_eq in Halg. contradiction.
  - destruct parts as [|h parts']; simpl in *; [reflexivity|].
    destruct (hmac_sha256_hex E sec body =? h)%string eqn:Hh; [|reflexivity].
    apply String.eqb_eq in Hh. subst h. contradiction.
Qed.

Lemma processWebhookRequest_valid_parses headers raw initial :
  processWebhookRequest E "git-crawler" headers None raw = Ok initial ->
  ProcessedWebhookResult.isValid initial = true ->
  exists bodyString payload,
    bodyStringOf E raw = Some bodyString
    /\ JSON_parse E bodyString = Some payload.
Proof.
  intros Hrun Hvalid. unfold processWebhookRequest in Hrun.
  fold (bodyStringOf E raw) in Hrun.
  destruct (bodyStringOf E raw) as [bodyString|];
    [|injection Hrun as <-; discriminate Hvalid].
  exists bodyString. simpl in Hrun. unfold handleGitWebhook in Hrun.
  destruct (JSON_parse E bodyString) as [payload|];
    [eexists; split; reflexivity|].
  simpl in Hrun. injection Hrun as <-. discriminate Hvalid.
Qed.

Lemma processWebhookRequest_valid_resource headers raw initial rid :
  processWebhookRequest E "git-crawler" headers None raw = Ok initial ->
  ProcessedWebhookResult.externalResourceId initial = Some rid ->
  rid <> EmptyString.
Proof.
  intros Hrun Hrid. unfold processWebhookRequest in Hrun.
  fold (bodyStringOf E raw) in Hrun.
  destruct (bodyStringOf E raw) as [bodyString|];
    [|injection Hrun as <-; discriminate Hrid].
  simpl String.eqb in Hrun. cbv iota in Hrun.
  destruct (handleGitWebhook E headers bodyString None) as [r|] eqn:Hgit;
    [|discriminate Hrun].
  injection Hrun as <-. simpl in Hrid.
  unfold handleGitWebhook in Hgit.
  destruct (JSON_parse E bodyString) as [payload|];
    [|injection Hgit as <-; discriminate Hrid].
  simpl checkGitSignature in Hgit. cbv iota zeta in Hgit.
  destruct payload; try discriminate Hgit;
    match type of Hgit with
    | (if ?c then _ else _) = _ =>
        destruct c; injection Hgit as <-; simpl in Hrid;
        [discriminate Hrid|injection Hrid as <-; discriminate]
    end.
Qed.

Lemma processWebhookRequest_rejects headers raw bodyString payload sec sig
  alg parts :
  bodyStringOf E raw = Some bodyString ->
  JSON_parse E bodyString = Some payload ->
  sec <> EmptyString ->
  signature_header headers = Some sig ->
  sig <> EmptyString ->
  split "=" sig = alg :: parts ->
  alg <> "sha256"%string
  \/ nth_error parts 0 <> Some (hmac_sha256_hex E sec bodyString) ->
  processWebhookRequest E "git-crawler" headers (Some sec) raw
  = Ok (ProcessedWebhookResult.mk false JUndef None None
          (Some (if (alg =? "sha256")%string
                 then "Invalid webhook signature."
                 else "Unsupported signature algorithm."))).
Proof.
  intros Hbody Hparse Hsec Hsig Hne Hsplit Hbad.
  unfold processWebhookRequest. fold (bodyStringOf E raw). rewrite Hbody.
  simpl String.eqb. cbv iota. unfold handleGitWebhook. rewrite Hparse.
  rewrite (@checkGitSignature_rejects headers bodyString sec sig alg parts
             Hsec Hsig Hne Hsplit Hbad).
  simpl. destruct (alg =? "sha256")%string; reflexivity.
Qed.

(** C5, as the source has it.  A git-style request reaches a registry entry
    whose secret is set, with a signature header [X-Hub-Signature-256] (or
    [X-Hub-Signature] when that one is absent or empty).  If the text before
    the header's first ['='] is not ['sha256'], verification fails with
    "Unsupported signature algorithm."; if it is ['sha256'] and the text up
    to the next ['='] is not the hex HMAC-SHA256 of the body under the
    secret, with "Invalid webhook signature.".  Either way
    [triggerWebhookTask] answers 401 with that message and leaves the world
    as it was: no orchestrator run, no effect at all. *)
Theorem triggerWebhookTask_rejects_bad_signature (ctx : GSContext)
  (w : World) (endpointId : string) (rawRequest : jsval)
  (requestHeaders : Headers) (first : Task) (others : list Task)
  (initial : ProcessedWebhookResult.t) (rid bodyString : string)
  (entry : Entry) (sig alg : string) (parts : list string) :
  tasksMatchingEndpoint endpointId w = first :: others ->
  pluginType (IngestionTaskDefinition.source first) = "git-crawler"%string ->
  processWebhookRequest E "git-crawler" requestHeaders None rawRequest
  = Ok initial ->
  ProcessedWebhookResult.isValid initial = true ->
  ProcessedWebhookResult.externalResourceId initial = Some rid ->
  JsMap.get rid (webhookRegistrations w) = Some entry ->
  WebhookRegistryEntry.secret entry <> EmptyString ->
  bodyStringOf E rawRequest = Some bodyString ->
  signature_header requestHeaders = Some sig ->
  sig <> EmptyString ->
  split "=" sig = alg :: parts ->
  alg <> "sha256"%string
  \/ nth_error parts 0
     <> Some (hmac_sha256_hex E (WebhookRegistryEntry.secret entry)
               bodyString) ->
  Ops.triggerWebhookTask E ctx endpointId rawRequest requestHeaders w
  = (Ok (GSStatus3 false 401
           (if (alg =? "sha256")%string
            then "Invalid webhook signature."
            else "Unsupported signature algorithm.")), w)
  /\ forall k, ~ executed k w
                 (snd (Ops.triggerWebhookTask E ctx endpointId rawRequest
                         requestHeaders w)).
Proof.
  intros Hmatch Hgit Hinit Hvalid Hrid Hentry Hsec Hbody Hsig Hne Hsplit Hbad.
  destruct (@processWebhookRequest_valid_parses requestHeaders rawRequest
              initial Hinit Hvalid) as (bs & payload & Hbs & Hparse).
  rewrite Hbody in Hbs. injection Hbs as <-.
  pose proof (@processWebhookRequest_valid_resource requestHeaders rawRequest
                initial rid Hinit Hrid) as Hridne.
  assert (Hrun :
            Ops.triggerWebhookTask E ctx endpointId rawRequest requestHeaders w
            = (Ok (GSStatus3 false 401
                     (if (alg =? "sha256")%string
                      then "Invalid webhook signature."
                      else "Unsupported signature algorithm.")), w)).
  { unfold Ops.triggerWebhookTask.
    unfold bind at 1. unfold Ops.DB.listAllTasks, gets. cbv beta iota.
    fold (tasksMatchingEndpoint endpointId w). rewrite Hmatch.
    unfold try_catch. unfold bind at 1. cbv zeta. rewrite Hgit.
    unfold lift at 1. rewrite Hinit. rewrite Hvalid, Hrid.
    apply String.eqb_neq in Hridne.
    cbn [negb truthy_str tmpl]. rewrite Hridne. cbn [negb].
    unfold bind at 1. unfold Ops.DB.getWebhookRegistration, gets.
    rewrite Hentry. unfold bind at 1. unfold lift at 1.
    rewrite (@processWebhookRequest_rejects requestHeaders rawRequest
               bodyString payload (WebhookRegistryEntry.secret entry) sig alg
               parts Hbody Hparse Hsec Hsig Hne Hsplit Hbad).
    simpl. destruct (alg =? "sha256")%string; reflexivity. }
  split; [exact Hrun|].
  intros k [p Hin]. rewrite Hrun in Hin. unfold new_effects in Hin.
  simpl in Hin. rewrite skipn_all in Hin. destruct Hin.
Qed.

End BadSignature.

Lemma triggerWebhookTask_rejects_bad_signature_witness :
  let w := Toy.world [("g1", Toy.task "g1" Toy.gitRepo Toy.hooked)]
             [("https://github.com/ex/r", Toy.entry ["g1"])] in
  let headers := [("x-github-event", "push");
                  ("x-hub-signature-256", "sha256=deadbeef")] in
  Ops.triggerWebhookTask (Toy.env true) (mkGSContext None) "/gh"
    (JStr Toy.pushBody) headers w
  = (Ok (GSStatus3 false 401 "Invalid webhook signature."), w).
Proof.
  cbv zeta.
  apply (@triggerWebhookTask_rejects_bad_signature (Toy.env true)
           (mkGSContext None)
           (Toy.world [("g1", Toy.task "g1" Toy.gitRepo Toy.hooked)]
              [("https://github.com/ex/r", Toy.entry ["g1"])])
           "/gh" (JStr Toy.pushBody)
           [("x-github-event", "push");
            ("x-hub-signature-256", "sha256=deadbeef")]
           (Toy.task "g1" Toy.gitRepo Toy.hooked) []
           (ProcessedWebhookResult.mk true Toy.pushPayload
              (Some "https://github.com/ex/r") (Some UPSERT) None)
           "https://github.com/ex/r" Toy.pushBody (Toy.entry ["g1"])
           "sha256=deadbeef" "sha256" ["deadbeef"]).
  - reflexivity.
  - reflexivity.
  - reflexivity.
  - reflexivity.
  - reflexivity.
  - reflexivity.
  - discriminate.
  - reflexivity.
  - reflexivity.
  - discriminate.
  - reflexivity.
  - right. discriminate.
Defined.

(** C5 as stated fails.  The header value ["sha1=abc"] differs from
    ["sha256="] followed by the digest, yet verification does not fail with
    "Invalid webhook signature.": the algorithm test comes first and the
    error is "Unsupported signature algorithm." (the dispatch still answers
    401). *)
Lemma bad_signature_counterexample :
  let w := Toy.world [("g1", Toy.task "g1" Toy.gitRepo Toy.hooked)]
             [("https://github.com/ex/r", Toy.entry ["g1"])] in
  let headers := [("x-github-event", "push");
                  ("x-hub-signature-256", "sha1=abc")] in
  header headers "x-hub-signature-256"
  <> Some ("sha256=" ++ hmac_sha256_hex (Toy.env true) "s3cr3t" Toy.pushBody)%string
  /\ processWebhookRequest (Toy.env true) "git-crawler" headers
       (Some "s3cr3t") (JStr Toy.pushBody)
     = Ok (ProcessedWebhookResult.mk false JUndef None None
             (Some "Unsupported signature algorithm."))
  /\ Some "Unsupported signature algorithm."
     <> Some "Invalid webhook signature."
  /\ Ops.triggerWebhookTask (Toy.env true) (mkGSContext None) "/gh"
       (JStr Toy.pushBody) headers w
     = (Ok (GSStatus3 false 401 "Unsupported signature algorithm."), w).
Proof.
  cbv zeta. split; [discriminate|]. split; [reflexivity|].
  split; [discriminate|]. reflexivity.
Qed.

(** The comparison takes the text between the first and the second ['='];
    what follows a second ['='] is not looked at.  A header that is the
    right value followed by ["=x"] passes, and the task is run. *)
Example signature_with_trailing_text_is_accepted :
  let w := Toy.world [("g1", Toy.task "g1" Toy.gitRepo Toy.hooked)]
             [("https://github.com/ex/r", Toy.entry ["g1"])] in
  let sig := ("sha256=" ++ hmac_sha256_hex (Toy.env true) "s3cr3t" Toy.pushBody
              ++ "=x")%string in
  let headers := [("x-github-event", "push"); ("x-hub-signature-256", sig)] in
  let r := Ops.triggerWebhookTask (Toy.env true) (mkGSContext None) "/gh"
             (JStr Toy.pushBody) headers w in
  sig <> ("sha256=" ++ hmac_sha256_hex (Toy.env true) "s3cr3t" Toy.pushBody)%string
  /\ fst r = Ok (GSStatus4 true 200 "Ingestion task completed successfully."
                   (JObj [("itemsProcessed", JNum 2)]))
  /\ executed "g1" w (snd r).
Proof.
  cbv zeta. split; [discriminate|]. split; [vm_compute; reflexivity|].
  unfold executed. eexists. vm_compute. left. reflexivity.
Qed.
(* ------------------------------------------------------------------ *)
(** ** Updating, enabling and disabling a task *)

Ltac total_leaf :=
  unfold DB.getTask, DB.saveTask, DB.updateTask, DB.deleteTask,
    DB.listAllTasks, DB.getWebhookRegistration, DB.saveWebhookRegistration,
    DB.updateWebhookRegistration, DB.deleteWebhookRegistration, emit, effect;
  first [ apply total_gets | apply total_update ].

Ltac total_auto := repeat (cbv beta zeta; first [op_step | total_leaf]).

Section JsMapMore.
Variable V : Type.
Implicit Types (m : JsMap.t V) (k : string) (v : V).

Lemma set_same k v m : JsMap.get k m = Some v -> JsMap.set k v m = m.
Proof.
  induction m as [|[k0 v0] r IH]; simpl; [discriminate|].
  destruct (String.eqb k k0) eqn:Hk; intros H.
  - now inversion H.
  - f_equal. auto.
Qed.

Lemma set_set k v v' m : JsMap.set k v (JsMap.set k v' m) = JsMap.set k v m.
Proof.
  induction m as [|[k0 v0] r IH]; simpl.
  - now rewrite String.eqb_refl.
  - destruct (String.eqb k k0) eqn:Hk; simpl; rewrite Hk; [reflexivity|].
    now f_equal.
Qed.

Lemma modify_some k f m v :
  JsMap.get k m = Some v -> JsMap.modify k f m = JsMap.set k (f v) m.
Proof. intros H. unfold JsMap.modify. now rewrite H. Qed.

Lemma modify_none k f m : JsMap.get k m = None -> JsMap.modify k f m = m.
Proof. intros H. unfold JsMap.modify. now rewrite H. Qed.

End JsMapMore.

Lemma entryProps_assign1 (t : Task) (f : IngestionTaskDefinition.field) :
  IngestionTaskDefinition.entryProps (IngestionTaskDefinition.assign1 t f)
  = None ->
  IngestionTaskDefinition.entryProps t = None.
Proof. destruct f; simpl; auto. discriminate. Qed.

Lemma entryProps_assign (updates : list IngestionTaskDefinition.field) :
  forall t : Task,
    IngestionTaskDefinition.entryProps
      (IngestionTaskDefinition.assign t updates) = None ->
    IngestionTaskDefinition.entryProps t = None.
Proof.
  unfold IngestionTaskDefinition.assign.
  induction updates as [|f r IH]; simpl; intros t H; [exact H|].
  eapply entryProps_assign1, IH, H.
Qed.

(** [Object.assign(t, u)] makes [t] equal to [u], unless [t] has registry
    properties that [u] lacks. *)
Lemma assign_ownProperties (t u : Task) :
  (IngestionTaskDefinition.entryProps u = None ->
   IngestionTaskDefinition.entryProps t = None) ->
  IngestionTaskDefinition.assign t (Ops.ownProperties u) = u.
Proof.
  destruct t as [i n e s d tr c l ls sp np op ep].
  destruct u as [i' n' e' s' d' tr' c' l' ls' sp' np' op' ep'].
  unfold Ops.ownProperties, IngestionTaskDefinition.assign. simpl.
  intros H. destruct ep'; simpl; [reflexivity|].
  now rewrite (H eq_refl).
Qed.

Lemma assign_ownProperties_assign (t : Task)
  (updates : list IngestionTaskDefinition.field) :
  IngestionTaskDefinition.assign t
    (Ops.ownProperties (IngestionTaskDefinition.assign t updates))
  = IngestionTaskDefinition.assign t updates.
Proof. apply assign_ownProperties, entryProps_assign. Qed.

Section UpdateTask.
Variable E : Env.

Lemma deregisterWebhook_total taskId : total (Ops.deregisterWebhook E taskId).
Proof. unfold Ops.deregisterWebhook. total_auto. Qed.

Lemma registerWebhook_total task : total (Ops.registerWebhook E task).
Proof. unfold Ops.registerWebhook. total_auto. Qed.

Lemma updateTask_webhooks_total taskId oldTask updatedTask updates :
  total (Ops.updateTask_webhooks E taskId oldTask updatedTask updates).
Proof.
  unfold Ops.updateTask_webhooks. total_auto;
    first [apply deregisterWebhook_total | apply registerWebhook_total].
Qed.

(** The state in which the webhook block of [updateTask] starts. *)
Lemma updateTask_shape (w : World) (taskId : string) (t : Task)
  (updates : list IngestionTaskDefinition.field) :
  JsMap.get taskId (tasks w) = Some t ->
  let updated := IngestionTaskDefinition.assign t updates in
  let w1 :=
    record (Emit (TASK_UPDATED updated))
      (set_tasks (JsMap.set taskId updated) w) in
  Ops.updateTask E taskId updates w
  = match Ops.updateTask_webhooks E taskId t updated updates w1 with
    | (Ok _, w2) => (Ok (GSStatus3 true 200 "Task updated successfully."), w2)
    | (Throw e, w2) => (Throw e, w2)
    end.
Proof.
  intros Hget updated w1.
  unfold Ops.updateTask, DB.getTask, DB.updateTask, emit, effect, bind, gets,
    update, ret. cbv beta iota zeta. rewrite Hget. cbv beta iota zeta.
  unfold set_tasks at 1. cbv beta.
  erewrite modify_some by exact Hget.
  rewrite assign_ownProperties_assign. reflexivity.
Qed.

Lemma updateTask_answer (w : World) (taskId : string) (t : Task)
  (updates : list IngestionTaskDefinition.field) :
  JsMap.get taskId (tasks w) = Some t ->
  fst (Ops.updateTask E taskId updates w)
  = Ok (GSStatus3 true 200 "Task updated successfully.").
Proof.
  intros Hget. rewrite (@updateTask_shape w taskId t updates Hget).
  match goal with
  | |- context [Ops.updateTask_webhooks E ?a ?b ?c ?d ?w1] =>
      destruct (@updateTask_webhooks_total a b c d w1) as [u Hu];
      destruct (Ops.updateTask_webhooks E a b c d w1) as [[u'|e] w2]
  end; simpl in *; [reflexivity | discriminate].
Qed.

(** [updateTask] on a stored task always answers 200: what the webhook
    registration or deregistration it starts answers is dropped, and neither
    of them throws.  On an id that is not in the store it answers 404 and
    changes nothing. *)
Theorem updateTask_status_ignores_webhook_outcome (w : World)
  (taskId : string) (updates : list IngestionTaskDefinition.field) :
  (JsMap.get taskId (tasks w) = None ->
   Ops.updateTask E taskId updates w
   = (Ok (GSStatus3 false 404
            ("Task with ID " ++ taskId ++ " not found.")%string), w))
  /\ (forall t, JsMap.get taskId (tasks w) = Some t ->
        fst (Ops.updateTask E taskId updates w)
        = Ok (GSStatus3 true 200 "Task updated successfully.")).
Proof.
  split.
  - intros Hget. unfold Ops.updateTask, DB.getTask, bind, gets.
    cbv beta iota zeta. rewrite Hget. reflexivity.
  - intros t Hget. eapply updateTask_answer; exact Hget.
Qed.

(** Changing the trigger of a stored webhook task to one that is not a
    webhook trigger never deregisters its webhook: the deregister flow reads
    the task after the update, finds no webhook trigger and gives up.  The
    registry is left as it was, the provider is not called, and the answer
    is 200. *)
Theorem updateTask_off_webhook_keeps_registration (w : World)
  (taskId : string) (t : Task)
  (updates : list IngestionTaskDefinition.field) :
  JsMap.get taskId (tasks w) = Some t ->
  IngestionTaskDefinition.id t = taskId ->
  is_webhook (IngestionTaskDefinition.trigger t) = true ->
  is_webhook (IngestionTaskDefinition.trigger
                (IngestionTaskDefinition.assign t updates)) = false ->
  let updated := IngestionTaskDefinition.assign t updates in
  let r := Ops.updateTask E taskId updates w in
  fst r = Ok (GSStatus3 true 200 "Task updated successfully.")
  /\ JsMap.get taskId (tasks (snd r)) = Some updated
  /\ webhookRegistrations (snd r) = webhookRegistrations w
  /\ history (snd r) = history w ++ [Emit (TASK_UPDATED updated)].
Proof.
  intros Hget Hid Hold Hnew updated r. subst r updated.
  rewrite (@updateTask_shape w taskId t updates Hget). cbv zeta.
  unfold Ops.updateTask_webhooks. rewrite Hold, Hnew.
  cbn [orb andb negb]. rewrite Hid.
  unfold Ops.deregisterWebhook, DB.getTask, bind, gets, ret.
  cbn [tasks record set_tasks]. rewrite get_set_eq. rewrite Hnew.
  cbn [negb fst snd tasks webhookRegistrations history record set_tasks].
  rewrite get_set_eq. repeat split; reflexivity.
Qed.

Lemma bind_discard A (m : M A) (w : World) :
  (exists a, fst (m w) = Ok a) -> (m ;; ret tt)%monad w = (Ok tt, snd (m w)).
Proof.
  intros [a Ha]. unfold bind, ret.
  destruct (m w) as [[a'|e] w']; simpl in *; [reflexivity | discriminate].
Qed.

Lemma identifier_differs_same (a : option string) :
  Ops.identifier_differs a a = false.
Proof. destruct a; simpl; [now rewrite String.eqb_refl | reflexivity]. Qed.

(** Whatever the deregister flow answers for a stored webhook task, the
    entry of its source no longer lists the task afterwards. *)
Lemma deregisterWebhook_removes_id (w : World) (taskId : string)
  (task : Task) (sid : string) :
  JsMap.get taskId (tasks w) = Some task ->
  is_webhook (IngestionTaskDefinition.trigger task) = true ->
  Ops.getSourceIdentifier (pluginType (IngestionTaskDefinition.source task))
    (config (IngestionTaskDefinition.source task)) = Some sid ->
  sid <> EmptyString ->
  forall e,
    JsMap.get sid
      (webhookRegistrations (snd (Ops.deregisterWebhook E taskId w)))
    = Some e ->
    ~ In taskId (WebhookRegistryEntry.registeredTasks e).
Proof.
  intros Hget Hweb Hsid Hne e.
  destruct (JsMap.get sid (webhookRegistrations w)) as [entry|] eqn:Hentry.
  - rewrite (@deregisterWebhook_shape E w taskId task sid entry Hget Hweb Hsid
               Hne Hentry).
    cbv zeta.
    set (remaining :=
           filter (fun id => negb (id =? taskId)%string)
                  (WebhookRegistryEntry.registeredTasks entry)).
    assert (Hrem : ~ In taskId remaining).
    { unfold remaining. rewrite filter_In. intros [_ H].
      now rewrite String.eqb_refl in H. }
    set (w1 := set_webhookRegistrations _ w).
    assert (Hw1 : JsMap.get sid (webhookRegistrations w1)
                  = Some (WebhookRegistryEntry.assign entry
                            [WebhookRegistryEntry.RegisteredTasks remaining])).
    { unfold w1, set_webhookRegistrations. cbn [webhookRegistrations].
      rewrite get_modify_eq, Hentry. reflexivity. }
    destruct remaining as [|x rest] eqn:Hremaining.
    + destruct (@deregisterWebhook_external_outcome E task entry sid w1)
        as (st & _ & [[_ Hreg] | (_ & _ & Hreg)]); rewrite Hreg.
      * rewrite get_delete_eq. discriminate.
      * rewrite Hw1. intros H. inversion H. simpl. tauto.
    + cbn [snd]. rewrite Hw1. intros H. inversion H. exact Hrem.
  - unfold Ops.deregisterWebhook, DB.getTask, DB.getWebhookRegistration,
      bind, gets, ret, try_catch. cbv beta iota zeta.
    rewrite Hget. cbv beta iota zeta. rewrite Hweb, Hsid.
    cbn [negb truthy_str tmpl].
    apply String.eqb_neq in Hne. rewrite Hne. cbn [negb].
    rewrite Hentry. cbn [snd]. rewrite Hentry. discriminate.
Qed.

Lemma disableTask_webhook_effect (w : World) (taskId : string)
  (t : Task) (wt : WebhookTrigger.t) (x sid : string) :
  JsMap.get taskId (tasks w) = Some t ->
  IngestionTaskDefinition.enabled t = true ->
  IngestionTaskDefinition.trigger t = Webhook wt ->
  WebhookTrigger.externalWebhookId wt = Some x ->
  x <> EmptyString ->
  Ops.getSourceIdentifier (pluginType (IngestionTaskDefinition.source t))
    (config (IngestionTaskDefinition.source t)) = Some sid ->
  sid <> EmptyString ->
  let r := Ops.disableTask E taskId w in
  fst r = Ok (GSStatus3 true 200 "Task updated successfully.")
  /\ JsMap.get taskId (tasks (snd r))
     = Some (IngestionTaskDefinition.assign t
               [IngestionTaskDefinition.Enabled false])
  /\ forall e,
       JsMap.get sid (webhookRegistrations (snd r)) = Some e ->
       ~ In taskId (WebhookRegistryEntry.registeredTasks e).
Proof.
  intros Hget Hen Htr Hext Hx Hsid Hne r. subst r.
  assert (Hdis : Ops.disableTask E taskId w
                 = Ops.updateTask E taskId
                     [IngestionTaskDefinition.Enabled false] w).
  { unfold Ops.disableTask, DB.getTask, bind, gets. cbv beta iota zeta.
    rewrite Hget. cbv beta iota zeta. rewrite Hen. reflexivity. }
  rewrite Hdis.
  split; [eapply updateTask_answer; exact Hget|].
  rewrite (@updateTask_shape w taskId t
             [IngestionTaskDefinition.Enabled false] Hget). cbv zeta.
  set (updated := IngestionTaskDefinition.assign t
                    [IngestionTaskDefinition.Enabled false]).
  set (w1 := record _ _).
  assert (Htr' : IngestionTaskDefinition.trigger updated = Webhook wt)
    by (unfold updated; destruct t; exact Htr).
  assert (Hsrc : IngestionTaskDefinition.source updated
                 = IngestionTaskDefinition.source t)
    by (unfold updated; destruct t; reflexivity).
  assert (Hblock : Ops.updateTask_webhooks E taskId t updated
                     [IngestionTaskDefinition.Enabled false] w1
                   = (Ok tt, snd (Ops.deregisterWebhook E taskId w1))).
  { unfold Ops.updateTask_webhooks. rewrite Htr, Htr', Hsrc.
    cbn [is_webhook orb andb negb Ops.as_externalWebhookId].
    rewrite identifier_differs_same, Hext. cbn [truthy_str].
    apply String.eqb_neq in Hx. rewrite Hx.
    cbn [negb orb Ops.updates_enabled fold_left].
    apply bind_discard, deregisterWebhook_total. }
  rewrite Hblock. cbn [snd].
  assert (Hstored : JsMap.get taskId (tasks w1) = Some updated).
  { unfold w1. cbn [tasks record set_tasks]. apply get_set_eq. }
  split.
  - rewrite (@deregisterWebhook_same_tasks E taskId w1). exact Hstored.
  - apply (@deregisterWebhook_removes_id w1 taskId updated sid Hstored);
      [rewrite Htr'; reflexivity | rewrite Hsrc; exact Hsid | exact Hne].
Qed.

(** Enabling a disabled webhook task whose trigger already carries an
    external webhook id only sets the flag. *)
Lemma enableTask_with_external_id (w : World)
  (taskId : string) (t : Task) (wt : WebhookTrigger.t) (x : string) :
  JsMap.get taskId (tasks w) = Some t ->
  IngestionTaskDefinition.enabled t = false ->
  IngestionTaskDefinition.trigger t = Webhook wt ->
  WebhookTrigger.externalWebhookId wt = Some x ->
  x <> EmptyString ->
  let updated :=
    IngestionTaskDefinition.assign t [IngestionTaskDefinition.Enabled true] in
  Ops.enableTask E taskId w
  = (Ok (GSStatus3 true 200 "Task updated successfully."),
     record (Emit (TASK_UPDATED updated))
       (set_tasks (JsMap.set taskId updated) w)).
Proof.
  intros Hget Hen Htr Hext Hx updated.
  unfold Ops.enableTask, DB.getTask, bind at 1, gets. cbv beta iota zeta.
  rewrite Hget. cbv beta iota zeta. rewrite Hen.
  rewrite (@updateTask_shape w taskId t
             [IngestionTaskDefinition.Enabled true] Hget). cbv zeta.
  fold updated.
  assert (Htr' : IngestionTaskDefinition.trigger updated = Webhook wt)
    by (unfold updated; destruct t; exact Htr).
  assert (Hsrc : IngestionTaskDefinition.source updated
                 = IngestionTaskDefinition.source t)
    by (unfold updated; destruct t; reflexivity).
  unfold Ops.updateTask_webhooks. rewrite Htr, Htr', Hsrc.
  cbn [is_webhook orb andb negb Ops.as_externalWebhookId].
  rewrite identifier_differs_same, Hext. cbn [truthy_str].
  apply String.eqb_neq in Hx. rewrite Hx.
  cbn [negb orb Ops.updates_enabled fold_left]. reflexivity.
Qed.

(** Disabling an enabled webhook task whose trigger carries an external
    webhook id runs the deregister flow and answers 200 whatever that flow
    answers: the task is stored disabled and otherwise unchanged, and the
    entry of its source, if there is still one, no longer lists it. *)
Theorem disableTask_webhook_leaves_entry (w : World) (taskId : string)
  (t : Task) (wt : WebhookTrigger.t) (x sid : string) :
  JsMap.get taskId (tasks w) = Some t ->
  IngestionTaskDefinition.enabled t = true ->
  IngestionTaskDefinition.trigger t = Webhook wt ->
  WebhookTrigger.externalWebhookId wt = Some x ->
  x <> EmptyString ->
  Ops.getSourceIdentifier (pluginType (IngestionTaskDefinition.source t))
    (config (IngestionTaskDefinition.source t)) = Some sid ->
  sid <> EmptyString ->
  let r := Ops.disableTask E taskId w in
  fst r = Ok (GSStatus3 true 200 "Task updated successfully.")
  /\ JsMap.get taskId (tasks (snd r))
     = Some (IngestionTaskDefinition.assign t
               [IngestionTaskDefinition.Enabled false])
  /\ forall e,
       JsMap.get sid (webhookRegistrations (snd r)) = Some e ->
       ~ In taskId (WebhookRegistryEntry.registeredTasks e).
Proof. intros. eapply disableTask_webhook_effect; eauto. Qed.

(** Disabling a registered webhook task and enabling it again does not bring
    the registration back.  Both calls answer 200 and the stored task is the
    one there was before, enabled and with the external webhook id still on
    its trigger; but the second call neither calls the provider nor touches
    the registry, so no entry of the source lists the task any more. *)
Theorem disable_then_enable_loses_registration (w : World) (taskId : string)
  (t : Task) (wt : WebhookTrigger.t) (x sid : string) :
  JsMap.get taskId (tasks w) = Some t ->
  IngestionTaskDefinition.enabled t = true ->
  IngestionTaskDefinition.trigger t = Webhook wt ->
  WebhookTrigger.externalWebhookId wt = Some x ->
  x <> EmptyString ->
  Ops.getSourceIdentifier (pluginType (IngestionTaskDefinition.source t))
    (config (IngestionTaskDefinition.source t)) = Some sid ->
  sid <> EmptyString ->
  let w1 := snd (Ops.disableTask E taskId w) in
  let r := Ops.enableTask E taskId w1 in
  fst r = Ok (GSStatus3 true 200 "Task updated successfully.")
  /\ JsMap.get taskId (tasks (snd r)) = Some t
  /\ webhookRegistrations (snd r) = webhookRegistrations w1
  /\ history (snd r) = history w1 ++ [Emit (TASK_UPDATED t)]
  /\ forall e,
       JsMap.get sid (webhookRegistrations (snd r)) = Some e ->
       ~ In taskId (WebhookRegistryEntry.registeredTasks e).
Proof.
  intros Hget Hen Htr Hext Hx Hsid Hne w1 r.
  destruct (@disableTask_webhook_effect w taskId t wt x sid Hget Hen Htr Hext
              Hx Hsid Hne) as (_ & Hstored & Hentry).
  fold w1 in Hstored, Hentry.
  set (t1 := IngestionTaskDefinition.assign t
               [IngestionTaskDefinition.Enabled false]) in Hstored.
  assert (Hback : IngestionTaskDefinition.assign t1
                    [IngestionTaskDefinition.Enabled true] = t).
  { unfold t1. destruct t. simpl in *. now subst. }
  assert (H : r = (Ok (GSStatus3 true 200 "Task updated successfully."),
                   record (Emit (TASK_UPDATED t))
                     (set_tasks (JsMap.set taskId t) w1))).
  { assert (Hen1 : IngestionTaskDefinition.enabled t1 = false)
      by (unfold t1; destruct t; reflexivity).
    assert (Htr1 : IngestionTaskDefinition.trigger t1 = Webhook wt)
      by (unfold t1; destruct t; exact Htr).
    pose proof (@enableTask_with_external_id w1 taskId t1 wt x Hstored Hen1
                  Htr1 Hext Hx) as H.
    cbv zeta in H. rewrite Hback in H. exact H. }
  rewrite H. cbn [fst snd tasks webhookRegistrations history record set_tasks].
  rewrite get_set_eq. repeat split; auto.
Qed.

Lemma updateTask_non_webhook (w : World) (taskId : string) (t : Task)
  (updates : list IngestionTaskDefinition.field) :
  JsMap.get taskId (tasks w) = Some t ->
  is_webhook (IngestionTaskDefinition.trigger t) = false ->
  is_webhook (IngestionTaskDefinition.trigger
                (IngestionTaskDefinition.assign t updates)) = false ->
  let updated := IngestionTaskDefinition.assign t updates in
  Ops.updateTask E taskId updates w
  = (Ok (GSStatus3 true 200 "Task updated successfully."),
     record (Emit (TASK_UPDATED updated))
       (set_tasks (JsMap.set taskId updated) w)).
Proof.
  intros Hget Hold Hnew updated. subst updated.
  rewrite (@updateTask_shape w taskId t updates Hget). cbv zeta.
  unfold Ops.updateTask_webhooks. rewrite Hold, Hnew. reflexivity.
Qed.

(** On a stored task that is enabled and not a webhook task, [disableTask]
    followed by [enableTask] is a round trip: both answer 200, the task is
    stored disabled in between, and in the end the task store, the registry
    and the plugins are what they were. *)
Theorem disable_enable_round_trip (w : World) (taskId : string) (t : Task) :
  JsMap.get taskId (tasks w) = Some t ->
  IngestionTaskDefinition.enabled t = true ->
  is_webhook (IngestionTaskDefinition.trigger t) = false ->
  let r1 := Ops.disableTask E taskId w in
  let r2 := Ops.enableTask E taskId (snd r1) in
  fst r1 = Ok (GSStatus3 true 200 "Task updated successfully.")
  /\ fst r2 = Ok (GSStatus3 true 200 "Task updated successfully.")
  /\ JsMap.get taskId (tasks (snd r1))
     = Some (IngestionTaskDefinition.assign t
               [IngestionTaskDefinition.Enabled false])
  /\ tasks (snd r2) = tasks w
  /\ webhookRegistrations (snd r2) = webhookRegistrations w
  /\ registeredPlugins (snd r2) = registeredPlugins w.
Proof.
  intros Hget Hen Hweb r1 r2.
  set (t1 := IngestionTaskDefinition.assign t
               [IngestionTaskDefinition.Enabled false]).
  assert (Hweb1 : is_webhook (IngestionTaskDefinition.trigger t1) = false)
    by (unfold t1; destruct t; exact Hweb).
  assert (Hback : IngestionTaskDefinition.assign t1
                    [IngestionTaskDefinition.Enabled true] = t).
  { unfold t1. destruct t. simpl in *. now subst. }
  assert (H1 : r1 = (Ok (GSStatus3 true 200 "Task updated successfully."),
                     record (Emit (TASK_UPDATED t1))
                       (set_tasks (JsMap.set taskId t1) w))).
  { unfold r1, Ops.disableTask, DB.getTask, bind at 1, gets.
    cbv beta iota zeta. rewrite Hget. cbv beta iota zeta. rewrite Hen.
    cbn [negb]. apply updateTask_non_webhook; auto. }
  assert (Hget1 : JsMap.get taskId (tasks (snd r1)) = Some t1).
  { rewrite H1. cbn [snd tasks record set_tasks]. apply get_set_eq. }
  assert (H2 : r2 = (Ok (GSStatus3 true 200 "Task updated successfully."),
                     record (Emit (TASK_UPDATED t))
                       (set_tasks (JsMap.set taskId t) (snd r1)))).
  { unfold r2, Ops.enableTask, DB.getTask, bind at 1, gets.
    cbv beta iota zeta. rewrite Hget1. cbv beta iota zeta.
    replace (IngestionTaskDefinition.enabled t1) with false
      by (unfold t1; destruct t; reflexivity).
    assert (Hweb2 : is_webhook
                      (IngestionTaskDefinition.trigger
                         (IngestionTaskDefinition.assign t1
                            [IngestionTaskDefinition.Enabled true])) = false)
      by (rewrite Hback; exact Hweb).
    pose proof (@updateTask_non_webhook (snd r1) taskId t1
                  [IngestionTaskDefinition.Enabled true] Hget1 Hweb1 Hweb2)
      as H.
    cbv zeta in H. rewrite Hback in H. exact H. }
  rewrite H2. split; [rewrite H1; reflexivity|].
  split; [reflexivity|]. split; [exact Hget1|].
  rewrite H1. cbn [snd tasks webhookRegistrations registeredPlugins record
                     set_tasks].
  rewrite set_set. erewrite set_same by exact Hget. repeat split.
Qed.

End UpdateTask.
(** A registered git webhook task, with a provider that refuses
    deregistrations. *)
Lemma updateTask_status_ignores_webhook_outcome_witness :
  let t := Toy.task "g1" Toy.gitRepo Toy.hooked in
  let w := Toy.world [("g1", t)] [("https://github.com/ex/r", Toy.entry ["g1"])] in
  JsMap.get "g1" (tasks w) = Some t
  /\ fst (Ops.deregisterWebhook (Toy.env false) "g1" w)
     = Ok (GSStatus3 false 500 "Failed to deregister webhook: ")
  /\ fst (Ops.updateTask (Toy.env false) "g1"
            [IngestionTaskDefinition.Enabled false] w)
     = Ok (GSStatus3 true 200 "Task updated successfully.").
Proof.
  cbv zeta. split; [reflexivity|]. split; [reflexivity|].
  apply (proj2 (@updateTask_status_ignores_webhook_outcome (Toy.env false)
                  (Toy.world [("g1", Toy.task "g1" Toy.gitRepo Toy.hooked)]
                     [("https://github.com/ex/r", Toy.entry ["g1"])])
                  "g1" [IngestionTaskDefinition.Enabled false])
               (Toy.task "g1" Toy.gitRepo Toy.hooked)).
  reflexivity.
Defined.

Lemma updateTask_off_webhook_keeps_registration_witness :
  let t := Toy.task "g1" Toy.gitRepo Toy.hooked in
  let w := Toy.world [("g1", t)] [("https://github.com/ex/r", Toy.entry ["g1"])] in
  let r := Ops.updateTask (Toy.env true) "g1"
             [IngestionTaskDefinition.Trigger Manual] w in
  fst r = Ok (GSStatus3 true 200 "Task updated successfully.")
  /\ option_map IngestionTaskDefinition.trigger (JsMap.get "g1" (tasks (snd r)))
     = Some Manual
  /\ JsMap.get "https://github.com/ex/r" (webhookRegistrations (snd r))
     = Some (Toy.entry ["g1"]).
Proof.
  cbv zeta.
  destruct (@updateTask_off_webhook_keeps_registration (Toy.env true)
              (Toy.world [("g1", Toy.task "g1" Toy.gitRepo Toy.hooked)]
                 [("https://github.com/ex/r", Toy.entry ["g1"])])
              "g1" (Toy.task "g1" Toy.gitRepo Toy.hooked)
              [IngestionTaskDefinition.Trigger Manual]
              eq_refl eq_refl eq_refl eq_refl) as (H1 & H2 & H3 & _).
  split; [exact H1|]. split; [rewrite H2; reflexivity|].
  rewrite H3. reflexivity.
Defined.

Lemma disableTask_webhook_leaves_entry_witness :
  let t := Toy.task "g1" Toy.gitRepo Toy.hooked in
  let w := Toy.world [("g1", t)] [("https://github.com/ex/r", Toy.entry ["g1"])] in
  let r := Ops.disableTask (Toy.env false) "g1" w in
  fst r = Ok (GSStatus3 true 200 "Task updated successfully.")
  /\ option_map IngestionTaskDefinition.enabled (JsMap.get "g1" (tasks (snd r)))
     = Some false
  /\ JsMap.get "https://github.com/ex/r" (webhookRegistrations (snd r))
     = Some (Toy.entry []).
Proof.
  cbv zeta.
  destruct (@disableTask_webhook_leaves_entry (Toy.env false)
              (Toy.world [("g1", Toy.task "g1" Toy.gitRepo Toy.hooked)]
                 [("https://github.com/ex/r", Toy.entry ["g1"])])
              "g1" (Toy.task "g1" Toy.gitRepo Toy.hooked)
              (WebhookTrigger.mk "/gh" "https://cb.example/gh" (JStr "pat")
                 (Some "42") (Some "s3cr3t"))
              "42" "https://github.com/ex/r"
              eq_refl eq_refl eq_refl eq_refl ltac:(discriminate) eq_refl
              ltac:(discriminate)) as (H1 & H2 & _).
  split; [exact H1|]. split; [rewrite H2; reflexivity|]. reflexivity.
Defined.

Lemma disable_then_enable_loses_registration_witness :
  let t := Toy.task "g1" Toy.gitRepo Toy.hooked in
  let w := Toy.world [("g1", t); ("g2", Toy.task "g2" Toy.gitRepo Toy.hooked)]
             [("https://github.com/ex/r", Toy.entry ["g1"; "g2"])] in
  let w1 := snd (Ops.disableTask (Toy.env true) "g1" w) in
  let r := Ops.enableTask (Toy.env true) "g1" w1 in
  JsMap.get "g1" (tasks (snd r)) = Some t
  /\ JsMap.get "https://github.com/ex/r" (webhookRegistrations (snd r))
     = Some (Toy.entry ["g2"]).
Proof.
  cbv zeta.
  destruct (@disable_then_enable_loses_registration (Toy.env true)
              (Toy.world [("g1", Toy.task "g1" Toy.gitRepo Toy.hooked);
                          ("g2", Toy.task "g2" Toy.gitRepo Toy.hooked)]
                 [("https://github.com/ex/r", Toy.entry ["g1"; "g2"])])
              "g1" (Toy.task "g1" Toy.gitRepo Toy.hooked)
              (WebhookTrigger.mk "/gh" "https://cb.example/gh" (JStr "pat")
                 (Some "42") (Some "s3cr3t"))
              "42" "https://github.com/ex/r"
              eq_refl eq_refl eq_refl eq_refl ltac:(discriminate) eq_refl
              ltac:(discriminate)) as (_ & H2 & H3 & _).
  split; [exact H2|]. rewrite H3. reflexivity.
Defined.

Lemma disable_enable_round_trip_witness :
  let t := Toy.task "c1" Toy.driveFolder (Cron "*/1 * * * *") in
  let w := Toy.world [("c1", t)] [] in
  let r1 := Ops.disableTask (Toy.env true) "c1" w in
  let r2 := Ops.enableTask (Toy.env true) "c1" (snd r1) in
  option_map IngestionTaskDefinition.enabled
    (JsMap.get "c1" (tasks (snd r1))) = Some false
  /\ tasks (snd r2) = tasks w.
Proof.
  cbv zeta.
  destruct (@disable_enable_round_trip (Toy.env true)
              (Toy.world [("c1", Toy.task "c1" Toy.driveFolder
                                   (Cron "*/1 * * * *"))] [])
              "c1" (Toy.task "c1" Toy.driveFolder (Cron "*/1 * * * *"))
              eq_refl eq_refl eq_refl) as (_ & _ & H3 & H4 & _).
  split; [rewrite H3; reflexivity | exact H4].
Defined.
(* ------------------------------------------------------------------ *)
(** ** Runs of the orchestrator *)

Ltac flatten_history :=
  cbn [history record tasks webhookRegistrations registeredPlugins set_tasks
         set_webhookRegistrations set_registeredPlugins];
  repeat rewrite <- app_assoc; cbn [app].

Section Runs.
Variable E : Env.

(** What a returning [executeTask] has done, read off its effects. *)
Lemma executeTask_outcome o ctx initialPayload w st w' :
  IngestionOrchestrator.executeTask E o ctx initialPayload w = (Ok st, w') ->
  let id := IngestionOrchestrator.taskId o in
  exists l,
    history w' = history w ++ l
    /\ filter is_completed l
       = (if success st then [Emit (TASK_COMPLETED id st)] else [])
    /\ (success st = true -> filter is_failed l = [])
    /\ (forall t r, In (DestinationProcessData t r) l -> t = id /\ r <> [])
    /\ (length (filter is_delivery l) <= 1)%nat
    /\ (success st = true ->
        code st = Some 200
        /\ exists td,
             filter is_transformed l = [Emit (DATA_TRANSFORMED td id)]
             /\ data st
                = JObj [("itemsProcessed",
                         IngestionOrchestrator.items (length td))])
    /\ (success st = false -> code st = Some 500 \/ code st = Some 400).
Proof.
  intros Hrun id. subst id.
  unfold IngestionOrchestrator.executeTask, IngestionOrchestrator.deliver
    in Hrun.
  unfold try_catch, bind, call, emit, effect, update, gets, ret in Hrun.
  repeat (cbv beta iota zeta in Hrun; destruct_innermost Hrun).
  all: cbv beta iota zeta in Hrun; inversion Hrun; subst; clear Hrun.
  all: flatten_history; eexists; split; [reflexivity|].
  all: cbn [filter is_completed is_failed is_delivery is_transformed success
              code data GSStatus3 GSStatus4 length].
  all: repeat split; try (intros; discriminate); auto.
  all: try (eexists; split; reflexivity).
  all: try (left; reflexivity).
  all: try (right; reflexivity).
  all: match goal with
       | H : In _ _ |- _ =>
           simpl in H;
           repeat (destruct H as [H|H];
                   [try discriminate H;
                    try (inversion H; subst; first [reflexivity|discriminate])
                   |]);
           try contradiction
       end.
Qed.

Lemma executeTask_total o ctx initialPayload :
  total (IngestionOrchestrator.executeTask E o ctx initialPayload).
Proof. unfold IngestionOrchestrator.executeTask. total_auto. Qed.

Lemma executeTask_same_tasks o ctx initialPayload :
  respects same_tasks
    (IngestionOrchestrator.executeTask E o ctx initialPayload).
Proof.
  unfold IngestionOrchestrator.executeTask, IngestionOrchestrator.deliver.
  op_auto.
Qed.

Lemma executeTask_same_plugins o ctx initialPayload :
  respects same_plugins
    (IngestionOrchestrator.executeTask E o ctx initialPayload).
Proof.
  unfold IngestionOrchestrator.executeTask, IngestionOrchestrator.deliver.
  op_auto.
Qed.

(** A status without cursors makes the write-back block a no-op. *)
Lemma writeBackCursors_nothing task st w :
  Ops.cursorUpdates st = [] -> Ops.writeBackCursors task st w = (Ok tt, w).
Proof.
  intros Hno. unfold Ops.writeBackCursors. rewrite Hno.
  destruct (truthy_str _ && truthy _); reflexivity.
Qed.

(** [runOrchestrator], step by step. *)
Lemma runOrchestrator_shape ctx task initialPayload w :
  let id := IngestionTaskDefinition.id task in
  let w1 := runStart task initialPayload w in
  Ops.runOrchestrator E ctx task initialPayload w
  = match JsMap.get (pluginType (IngestionTaskDefinition.source task))
            (RegisteredPlugins.source (registeredPlugins w)) with
    | None =>
        (Ok (sourceNotFound task),
         set_tasks
           (JsMap.modify id
              (fun t => IngestionTaskDefinition.assign t
                          [IngestionTaskDefinition.CurrentStatus FAILED;
                           IngestionTaskDefinition.LastRunStatus
                             (Some (sourceNotFound task))]))
           (record (Emit (TASK_FAILED id (sourceNotFound task))) w1))
    | Some sourceEntry =>
        match destinationOf task w with
        | Some (dp, d) =>
            match init dp (history w1) (config d) with
            | Throw msg => (Throw msg, record (DestinationInit id) w1)
            | Ok _ =>
                runClose E task
                  (IngestionOrchestrator.executeTask E
                     (orchestratorOf task sourceEntry (Some dp)) ctx
                     initialPayload (record (DestinationInit id) w1))
            end
        | None =>
            runClose E task
              (IngestionOrchestrator.executeTask E
                 (orchestratorOf task sourceEntry None) ctx initialPayload w1)
        end
    end.
Proof.
  intros id w1. subst id w1.
  unfold Ops.runOrchestrator, DB.updateTask, emit, effect.
  unfold bind at 1 2 3 4. unfold update at 1 2 3. unfold gets at 1.
  cbv beta iota zeta.
  change (registeredPlugins (set_tasks _ (record _ (record _ w))))
    with (registeredPlugins w).
  fold (runStart task initialPayload w).
  destruct (JsMap.get _ (RegisteredPlugins.source (registeredPlugins w)))
    as [sourceEntry|]; [|reflexivity].
  unfold bind at 1. unfold gets at 1. cbv beta iota zeta.
  change (registeredPlugins (runStart task initialPayload w))
    with (registeredPlugins w).
  unfold destinationOf.
  assert (Hclose : forall o w2,
             (finalStatus <- IngestionOrchestrator.executeTask E o ctx
                               initialPayload ;;
              (if success finalStatus
               then
                 update (record (Emit (TASK_COMPLETED
                                         (IngestionTaskDefinition.id task)
                                         finalStatus))) ;;
                 now <- gets (fun w => wallClock E (history w)) ;;
                 update
                   (set_tasks
                      (JsMap.modify (IngestionTaskDefinition.id task)
                         (fun t => IngestionTaskDefinition.assign t
                            [IngestionTaskDefinition.CurrentStatus COMPLETED;
                             IngestionTaskDefinition.LastRun (Some now);
                             IngestionTaskDefinition.LastRunStatus
                               (Some finalStatus)])))
               else
                 update (record (Emit (TASK_FAILED
                                         (IngestionTaskDefinition.id task)
                                         finalStatus))) ;;
                 now <- gets (fun w => wallClock E (history w)) ;;
                 update
                   (set_tasks
                      (JsMap.modify (IngestionTaskDefinition.id task)
                         (fun t => IngestionTaskDefinition.assign t
                            [IngestionTaskDefinition.CurrentStatus FAILED;
                             IngestionTaskDefinition.LastRun (Some now);
                             IngestionTaskDefinition.LastRunStatus
                               (Some finalStatus)])))) ;;
              Ops.writeBackCursors task finalStatus ;;
              ret finalStatus)%monad w2
             = runClose E task
                 (IngestionOrchestrator.executeTask E o ctx initialPayload
                    w2)).
  { intros o w2. unfold bind at 1. unfold runClose.
    destruct (IngestionOrchestrator.executeTask E o ctx initialPayload w2)
      as [[st|e] w3] eqn:Hex; [|reflexivity].
    pose proof (@executeTask_no_cursors E o ctx initialPayload w2 st w3 Hex)
      as Hno.
    unfold runFinish.
    destruct (success st); unfold bind, update, gets, ret;
      cbv beta iota zeta; rewrite (@writeBackCursors_nothing task st _ Hno);
      reflexivity. }
  destruct (IngestionTaskDefinition.destination task) as [d|].
  - destruct (JsMap.get (pluginType d) _) as [dp|].
    + unfold bind at 1. unfold bind at 1. unfold call at 1.
      cbv beta iota zeta.
      destruct (init dp (history (runStart task initialPayload w)) (config d));
        [|reflexivity].
      unfold ret at 1. cbv beta iota zeta. apply Hclose.
    + unfold bind at 1. unfold ret at 1. cbv beta iota zeta. apply Hclose.
  - unfold bind at 1. unfold ret at 1. cbv beta iota zeta. apply Hclose.
Qed.

(** The three ways a run can go. *)
Lemma runOrchestrator_ways ctx task initialPayload w :
  let id := IngestionTaskDefinition.id task in
  let w1 := runStart task initialPayload w in
  let r := Ops.runOrchestrator E ctx task initialPayload w in
  (JsMap.get (pluginType (IngestionTaskDefinition.source task))
     (RegisteredPlugins.source (registeredPlugins w)) = None
   /\ r = (Ok (sourceNotFound task),
           set_tasks
             (JsMap.modify id
                (fun t => IngestionTaskDefinition.assign t
                            [IngestionTaskDefinition.CurrentStatus FAILED;
                             IngestionTaskDefinition.LastRunStatus
                               (Some (sourceNotFound task))]))
             (record (Emit (TASK_FAILED id (sourceNotFound task))) w1)))
  \/ (exists sourceEntry dp d msg,
        JsMap.get (pluginType (IngestionTaskDefinition.source task))
          (RegisteredPlugins.source (registeredPlugins w)) = Some sourceEntry
        /\ destinationOf task w = Some (dp, d)
        /\ init dp (history w1) (config d) = Throw msg
        /\ r = (Throw msg, record (DestinationInit id) w1))
  \/ (exists o w2 st w3,
        IngestionOrchestrator.taskId o = id
        /\ (w2 = w1 \/ w2 = record (DestinationInit id) w1)
        /\ IngestionOrchestrator.executeTask E o ctx initialPayload w2
           = (Ok st, w3)
        /\ r = (Ok st, runFinish E task st w3)).
Proof.
  intros id w1 r. subst r.
  rewrite runOrchestrator_shape. fold id. fold w1.
  assert (Hclose : forall o w2,
             IngestionOrchestrator.taskId o = id ->
             w2 = w1 \/ w2 = record (DestinationInit id) w1 ->
             exists o' w2' st w3,
               IngestionOrchestrator.taskId o' = id
               /\ (w2' = w1 \/ w2' = record (DestinationInit id) w1)
               /\ IngestionOrchestrator.executeTask E o' ctx initialPayload w2'
                  = (Ok st, w3)
               /\ runClose E task
                    (IngestionOrchestrator.executeTask E o ctx initialPayload
                       w2)
                  = (Ok st, runFinish E task st w3)).
  { intros o w2 Ho Hw2.
    destruct (@executeTask_total o ctx initialPayload w2) as [st Hst].
    destruct (IngestionOrchestrator.executeTask E o ctx initialPayload w2)
      as [[st'|e] w3] eqn:Hex; simpl in Hst; [|discriminate].
    exists o, w2, st', w3. rewrite Hex. auto. }
  destruct (JsMap.get _ (RegisteredPlugins.source (registeredPlugins w)))
    as [sourceEntry|] eqn:Hsrc; [|left; auto].
  right.
  destruct (destinationOf task w) as [[dp d]|] eqn:Hdest.
  - destruct (init dp (history w1) (config d)) as [u|msg] eqn:Hinit.
    + right. apply Hclose; auto.
    + left. exists sourceEntry, dp, d, msg. auto.
  - right. apply Hclose; auto.
Qed.

Lemma history_runStart task initialPayload w :
  history (runStart task initialPayload w)
  = history w
    ++ [RunOrchestrator (IngestionTaskDefinition.id task) initialPayload;
        Emit (TASK_TRIGGERED (IngestionTaskDefinition.id task))].
Proof. unfold runStart. flatten_history. reflexivity. Qed.

Lemma tasks_runStart task initialPayload w :
  tasks (runStart task initialPayload w)
  = JsMap.modify (IngestionTaskDefinition.id task)
      (fun t => IngestionTaskDefinition.assign t
                  [IngestionTaskDefinition.CurrentStatus RUNNING])
      (tasks w).
Proof. reflexivity. Qed.

(** After a run that returns, the task stored under the id of the run is
    marked [COMPLETED] if the status is a success and [FAILED] if not, never
    left running, with the status as its [lastRunStatus]; its id, name,
    source, destination, trigger and [enabled] are untouched. *)
Theorem runOrchestrator_records_outcome (ctx : GSContext) (task : Task)
  (initialPayload : option Payload.t) (w : World) (st : GSStatus)
  (w' : World) (stored : Task) :
  Ops.runOrchestrator E ctx task initialPayload w = (Ok st, w') ->
  JsMap.get (IngestionTaskDefinition.id task) (tasks w) = Some stored ->
  exists t',
    JsMap.get (IngestionTaskDefinition.id task) (tasks w') = Some t'
    /\ IngestionTaskDefinition.currentStatus t'
       = (if success st then COMPLETED else FAILED)
    /\ IngestionTaskDefinition.lastRunStatus t' = Some st
    /\ IngestionTaskDefinition.id t' = IngestionTaskDefinition.id stored
    /\ IngestionTaskDefinition.name t' = IngestionTaskDefinition.name stored
    /\ IngestionTaskDefinition.enabled t'
       = IngestionTaskDefinition.enabled stored
    /\ IngestionTaskDefinition.source t'
       = IngestionTaskDefinition.source stored
    /\ IngestionTaskDefinition.destination t'
       = IngestionTaskDefinition.destination stored
    /\ IngestionTaskDefinition.trigger t'
       = IngestionTaskDefinition.trigger stored.
Proof.
  intros Hrun Hget.
  destruct (@runOrchestrator_ways ctx task initialPayload w)
    as [[_ H] | [(se & dp & d & msg & _ & _ & _ & H)
                | (o & w2 & st' & w3 & _ & Hw2 & Hex & H)]];
    rewrite Hrun in H; inversion H; subst; clear H.
  - eexists. split.
    + cbn [tasks set_tasks record]. rewrite get_modify_eq, tasks_runStart,
        get_modify_eq, Hget. reflexivity.
    + destruct stored; repeat split.
  - assert (Ht : tasks w3 = tasks (runStart task initialPayload w)).
    { pose proof (@executeTask_same_tasks o ctx initialPayload w2) as Hs.
      rewrite Hex in Hs. unfold same_tasks in Hs. cbn [snd] in Hs.
      rewrite Hs. destruct Hw2; subst w2; reflexivity. }
    eexists. split.
    + unfold runFinish. cbn [tasks set_tasks record].
      rewrite get_modify_eq, Ht, tasks_runStart, get_modify_eq, Hget.
      reflexivity.
    + destruct stored; repeat split.
Qed.

(** The effects of a run that went through [executeTask]. *)
Lemma run_effects task initialPayload w o ctx w2 st w3 :
  let id := IngestionTaskDefinition.id task in
  let w1 := runStart task initialPayload w in
  w2 = w1 \/ w2 = record (DestinationInit id) w1 ->
  IngestionOrchestrator.executeTask E o ctx initialPayload w2 = (Ok st, w3) ->
  exists pre l,
    (pre = [RunOrchestrator id initialPayload; Emit (TASK_TRIGGERED id)]
     \/ pre = [RunOrchestrator id initialPayload; Emit (TASK_TRIGGERED id);
               DestinationInit id])
    /\ history w3 = history w2 ++ l
    /\ new_effects w (runFinish E task st w3)
       = pre ++ l ++ [Emit (if success st then TASK_COMPLETED id st
                            else TASK_FAILED id st)].
Proof.
  intros id w1 Hw2 Hex.
  destruct (@executeTask_outcome o ctx initialPayload w2 st w3 Hex)
    as (l & Hl & _).
  assert (Hpre : exists pre,
             (pre = [RunOrchestrator id initialPayload;
                     Emit (TASK_TRIGGERED id)]
              \/ pre = [RunOrchestrator id initialPayload;
                        Emit (TASK_TRIGGERED id); DestinationInit id])
             /\ history w2 = history w ++ pre).
  { destruct Hw2; subst w2 w1; eexists; (split; [|unfold runStart;
      flatten_history; reflexivity]); auto. }
  destruct Hpre as (pre & Hpre & Hw2h).
  exists pre, l. split; [exact Hpre|]. split; [exact Hl|].
  apply new_effects_app. unfold runFinish. cbn [history set_tasks record].
  rewrite Hl, Hw2h. now rewrite <- !app_assoc.
Qed.

(** A run for a task whose source plugin is not registered: the answer is
    a 500, [TASK_TRIGGERED] and [TASK_FAILED] are the only events, neither
    source nor destination is called, and the stored task is marked
    [FAILED] with the answer as [lastRunStatus] while its [lastRun] stays
    what it was. *)
Theorem runOrchestrator_unregistered_source (ctx : GSContext) (task : Task)
  (initialPayload : option Payload.t) (w : World) (stored : Task) :
  JsMap.get (pluginType (IngestionTaskDefinition.source task))
    (RegisteredPlugins.source (registeredPlugins w)) = None ->
  JsMap.get (IngestionTaskDefinition.id task) (tasks w) = Some stored ->
  let id := IngestionTaskDefinition.id task in
  let r := Ops.runOrchestrator E ctx task initialPayload w in
  fst r = Ok (sourceNotFound task)
  /\ new_effects w (snd r)
     = [RunOrchestrator id initialPayload; Emit (TASK_TRIGGERED id);
        Emit (TASK_FAILED id (sourceNotFound task))]
  /\ JsMap.get id (tasks (snd r))
     = Some (IngestionTaskDefinition.assign stored
               [IngestionTaskDefinition.CurrentStatus FAILED;
                IngestionTaskDefinition.LastRunStatus
                  (Some (sourceNotFound task))])
  /\ webhookRegistrations (snd r) = webhookRegistrations w.
Proof.
  intros Hsrc Hget id r. subst r id.
  rewrite runOrchestrator_shape, Hsrc. cbv zeta.
  cbn [fst snd]. split; [reflexivity|]. split; [|split; [|reflexivity]].
  - apply new_effects_app. unfold runStart. flatten_history. reflexivity.
  - cbn [tasks set_tasks record]. rewrite get_modify_eq, tasks_runStart.
    rewrite get_modify_eq, Hget. destruct stored; reflexivity.
Qed.

(** When the [init] of the destination plugin throws, the exception leaves
    [runOrchestrator]: no terminal event is emitted, the source is not
    called, and the stored task is left marked [RUNNING]. *)
Theorem runOrchestrator_destination_init_throws (ctx : GSContext)
  (task : Task) (initialPayload : option Payload.t) (w : World)
  (sourceEntry : SourceEntry) (dp : IDestinationPlugin) (d : PluginRef)
  (msg : string) (stored : Task) :
  JsMap.get (pluginType (IngestionTaskDefinition.source task))
    (RegisteredPlugins.source (registeredPlugins w)) = Some sourceEntry ->
  IngestionTaskDefinition.destination task = Some d ->
  JsMap.get (pluginType d)
    (RegisteredPlugins.destination (registeredPlugins w)) = Some dp ->
  init dp (history (runStart task initialPayload w)) (config d) = Throw msg ->
  JsMap.get (IngestionTaskDefinition.id task) (tasks w) = Some stored ->
  let id := IngestionTaskDefinition.id task in
  let r := Ops.runOrchestrator E ctx task initialPayload w in
  fst r = Throw msg
  /\ new_effects w (snd r)
     = [RunOrchestrator id initialPayload; Emit (TASK_TRIGGERED id);
        DestinationInit id]
  /\ JsMap.get id (tasks (snd r))
     = Some (IngestionTaskDefinition.assign stored
               [IngestionTaskDefinition.CurrentStatus RUNNING]).
Proof.
  intros Hsrc Hd Hdp Hinit Hget id r. subst r id.
  rewrite runOrchestrator_shape, Hsrc. cbv zeta. unfold destinationOf.
  rewrite Hd, Hdp, Hinit. cbn [fst snd].
  split; [reflexivity|]. split.
  - apply new_effects_app. unfold runStart. flatten_history. reflexivity.
  - cbn [tasks record]. rewrite tasks_runStart.
    rewrite get_modify_eq, Hget. reflexivity.
Qed.

(** A run that returns a success has emitted [TASK_COMPLETED] twice, both
    times with the returned status (once from [executeTask], once from
    [runOrchestrator]), and no [TASK_FAILED]. *)
Theorem runOrchestrator_completes_twice (ctx : GSContext) (task : Task)
  (initialPayload : option Payload.t) (w : World) (st : GSStatus)
  (w' : World) :
  Ops.runOrchestrator E ctx task initialPayload w = (Ok st, w') ->
  success st = true ->
  let id := IngestionTaskDefinition.id task in
  filter is_completed (new_effects w w')
  = [Emit (TASK_COMPLETED id st); Emit (TASK_COMPLETED id st)]
  /\ filter is_failed (new_effects w w') = [].
Proof.
  intros Hrun Hok id. subst id.
  destruct (@runOrchestrator_ways ctx task initialPayload w)
    as [[_ H] | [(se & dp & d & msg & _ & _ & _ & H)
                | (o & w2 & st' & w3 & Ho & Hw2 & Hex & H)]];
    rewrite Hrun in H;
    [ injection H as Hst Hw; subst st; discriminate Hok
    | discriminate H
    | injection H as Hst Hw; subst st' w' ].
  destruct (@run_effects task initialPayload w o ctx w2 st w3 Hw2 Hex)
    as (pre & l & Hpre & Hl & Hnew).
  destruct (@executeTask_outcome o ctx initialPayload w2 st w3 Hex)
    as (l' & Hl' & Hc & Hf & _).
  assert (l' = l) by (rewrite Hl in Hl'; eapply app_inv_head; eauto).
  subst l'. rewrite Hok in *. specialize (Hf eq_refl).
  rewrite Hnew, !filter_app, Hc, Hf, Ho.
  destruct Hpre; subst pre; split; reflexivity.
Qed.

(** In any run, the destination is handed at most one batch, it is a batch
    of the task of the run, and it is never empty. *)
Theorem runOrchestrator_delivers_once_nonempty (ctx : GSContext) (task : Task)
  (initialPayload : option Payload.t) (w : World) :
  let w' := snd (Ops.runOrchestrator E ctx task initialPayload w) in
  (length (filter is_delivery (new_effects w w')) <= 1)%nat
  /\ forall t records,
       In (DestinationProcessData t records) (new_effects w w') ->
       t = IngestionTaskDefinition.id task /\ records <> [].
Proof.
  intros w'. subst w'.
  destruct (@runOrchestrator_ways ctx task initialPayload w)
    as [[_ H] | [(se & dp & d & msg & _ & _ & _ & H)
                | (o & w2 & st' & w3 & Ho & Hw2 & Hex & H)]];
    rewrite H; cbn [snd]; clear H.
  - erewrite new_effects_app
      by (unfold runStart; flatten_history; reflexivity).
    split; [simpl; auto|].
    intros t r Hin. simpl in Hin.
    repeat (destruct Hin as [Hin|Hin]; try discriminate). contradiction.
  - erewrite new_effects_app
      by (unfold runStart; flatten_history; reflexivity).
    split; [simpl; auto|].
    intros t r Hin. simpl in Hin.
    repeat (destruct Hin as [Hin|Hin]; try discriminate). contradiction.
  - destruct (@run_effects task initialPayload w o ctx w2 st' w3 Hw2 Hex)
      as (pre & l & Hpre & Hl & Hnew).
    destruct (@executeTask_outcome o ctx initialPayload w2 st' w3 Hex)
      as (l' & Hl' & _ & _ & Hin & Hlen & _).
    assert (l' = l) by (rewrite Hl in Hl'; eapply app_inv_head; eauto).
    subst l'. rewrite Hnew. split.
    + rewrite !filter_app, !length_app.
      replace (length (filter is_delivery pre)) with O
        by (destruct Hpre; subst pre; reflexivity).
      replace (length (filter is_delivery
                         [Emit (if success st'
                                then TASK_COMPLETED
                                       (IngestionTaskDefinition.id task) st'
                                else TASK_FAILED
                                       (IngestionTaskDefinition.id task) st')]))
        with O by (destruct (success st'); reflexivity).
      lia.
    + intros t r H. rewrite !in_app_iff in H.
      destruct H as [H|[H|H]].
      * destruct Hpre; subst pre; simpl in H;
          repeat (destruct H as [H|H]; try discriminate); contradiction.
      * rewrite <- Ho. apply Hin. exact H.
      * destruct (success st'); simpl in H;
          destruct H as [H|H]; try discriminate; contradiction.
Qed.

(** The [itemsProcessed] of a successful run counts what the transformer
    returned: the run emitted [DATA_TRANSFORMED] once, and the count is the
    length of the data it carried, whether or not there is a destination. *)
Theorem runOrchestrator_counts_transformed (ctx : GSContext) (task : Task)
  (initialPayload : option Payload.t) (w : World) (st : GSStatus)
  (w' : World) :
  Ops.runOrchestrator E ctx task initialPayload w = (Ok st, w') ->
  success st = true ->
  exists transformedData,
    filter is_transformed (new_effects w w')
    = [Emit (DATA_TRANSFORMED transformedData
               (IngestionTaskDefinition.id task))]
    /\ data st
       = JObj [("itemsProcessed",
                JNum (Z.of_nat (length transformedData)))].
Proof.
  intros Hrun Hok.
  destruct (@runOrchestrator_ways ctx task initialPayload w)
    as [[_ H] | [(se & dp & d & msg & _ & _ & _ & H)
                | (o & w2 & st' & w3 & Ho & Hw2 & Hex & H)]];
    rewrite Hrun in H;
    [ injection H as Hst Hw; subst st; discriminate Hok
    | discriminate H
    | injection H as Hst Hw; subst st' w' ].
  destruct (@run_effects task initialPayload w o ctx w2 st w3 Hw2 Hex)
    as (pre & l & Hpre & Hl & Hnew).
  destruct (@executeTask_outcome o ctx initialPayload w2 st w3 Hex)
    as (l' & Hl' & _ & _ & _ & _ & Hs & _).
  assert (l' = l) by (rewrite Hl in Hl'; eapply app_inv_head; eauto).
  subst l'. destruct (Hs Hok) as (_ & td & Htd & Hdata).
  exists td. rewrite Hnew, !filter_app, Htd, Hok, Ho.
  split; [destruct Hpre; subst pre; reflexivity | exact Hdata].
Qed.

(** [triggerManualTask] answers 404 for an id that is not in the store and
    403 for a disabled task, in both cases without running or changing
    anything.  For an enabled task whose source has a registry entry, it
    runs the orchestrator with the caller's payload in which the three
    cursors are those of the entry. *)
Theorem triggerManualTask_dispatch (ctx : GSContext) (taskId : string)
  (initialPayload : option Payload.t) (w : World) :
  (JsMap.get taskId (tasks w) = None ->
   Ops.triggerManualTask E ctx taskId initialPayload w
   = (Ok (GSStatus3 false 404
            ("Task with ID " ++ taskId ++ " not found.")%string), w))
  /\ (forall task,
        JsMap.get taskId (tasks w) = Some task ->
        IngestionTaskDefinition.enabled task = false ->
        Ops.triggerManualTask E ctx taskId initialPayload w
        = (Ok (GSStatus3 false 403
                 ("Task with ID " ++ taskId
                  ++ " is disabled and cannot be triggered manually.")%string),
           w))
  /\ (forall task sid e,
        JsMap.get taskId (tasks w) = Some task ->
        IngestionTaskDefinition.enabled task = true ->
        Ops.getSourceIdentifier
          (pluginType (IngestionTaskDefinition.source task))
          (config (IngestionTaskDefinition.source task)) = Some sid ->
        sid <> EmptyString ->
        JsMap.get sid (webhookRegistrations w) = Some e ->
        let payload := Ops.enrich initialPayload e in
        Ops.triggerManualTask E ctx taskId initialPayload w
        = Ops.runOrchestrator E ctx task (Some payload) w
        /\ In (RunOrchestrator (IngestionTaskDefinition.id task)
                 (Some payload))
              (new_effects w
                 (snd (Ops.triggerManualTask E ctx taskId initialPayload w)))
        /\ Payload.startPageToken payload
           = WebhookRegistryEntry.startPageToken e
        /\ Payload.nextPageToken payload
           = WebhookRegistryEntry.nextPageToken e
        /\ Payload.otherCrawlerSpecificTokens payload
           = WebhookRegistryEntry.otherCrawlerSpecificTokens e).
Proof.
  split; [|split].
  - intros Hget. unfold Ops.triggerManualTask, DB.getTask, bind, gets.
    cbv beta iota zeta. rewrite Hget. reflexivity.
  - intros task Hget Hen.
    unfold Ops.triggerManualTask, DB.getTask, bind, gets.
    cbv beta iota zeta. rewrite Hget. cbv beta iota zeta. rewrite Hen.
    reflexivity.
  - intros task sid e Hget Hen Hsid Hne He payload.
    assert (Heq : Ops.triggerManualTask E ctx taskId initialPayload w
                  = Ops.runOrchestrator E ctx task (Some payload) w).
    { unfold Ops.triggerManualTask, DB.getTask, DB.getWebhookRegistration.
      unfold bind at 1. unfold gets at 1. cbv beta iota zeta.
      rewrite Hget. cbv beta iota zeta. rewrite Hen, Hsid.
      cbn [negb truthy_str tmpl].
      apply String.eqb_neq in Hne. rewrite Hne. cbn [negb].
      unfold bind at 1. unfold bind at 1. unfold gets at 1.
      cbv beta iota zeta. rewrite He. reflexivity. }
    split; [exact Heq|]. split; [|repeat split].
    rewrite Heq.
    destruct (@runOrchestrator_history E ctx task (Some payload) w)
      as (l & Hl & _).
    erewrite new_effects_app by exact Hl. left. reflexivity.
Qed.

End Runs.
(** A git task of the small platform, run on its own. *)
Lemma runOrchestrator_records_outcome_witness :
  let t := Toy.task "g1" Toy.gitRepo Toy.hook in
  let w := Toy.world [("g1", t)] [] in
  let r := Ops.runOrchestrator (Toy.env true) (mkGSContext None) t None w in
  exists t',
    JsMap.get "g1" (tasks (snd r)) = Some t'
    /\ IngestionTaskDefinition.currentStatus t' = COMPLETED.
Proof.
  cbv zeta.
  destruct (@runOrchestrator_records_outcome (Toy.env true)
              (mkGSContext None) (Toy.task "g1" Toy.gitRepo Toy.hook) None
              (Toy.world [("g1", Toy.task "g1" Toy.gitRepo Toy.hook)] [])
              (GSStatus4 true 200 "Ingestion task completed successfully."
                 (JObj [("itemsProcessed", JNum 2)]))
              (snd (Ops.runOrchestrator (Toy.env true) (mkGSContext None)
                      (Toy.task "g1" Toy.gitRepo Toy.hook) None
                      (Toy.world [("g1", Toy.task "g1" Toy.gitRepo Toy.hook)]
                         [])))
              (Toy.task "g1" Toy.gitRepo Toy.hook) eq_refl eq_refl)
    as (t' & H1 & H2 & _).
  exists t'. split; [exact H1 | exact H2].
Defined.

(** A task of a plugin type that the small platform has not registered. *)
Lemma runOrchestrator_unregistered_source_witness :
  let t := Toy.task "h1" (mkPluginRef "http-crawler"
                            [("url", "https://example.com")]) Manual in
  let w := Toy.world [("h1", t)] [] in
  let r := Ops.runOrchestrator (Toy.env true) (mkGSContext None) t None w in
  fst r = Ok (GSStatus3 false 500
                "Orchestrator failed: Source plugin 'http-crawler' not found for task 'h1'")
  /\ option_map IngestionTaskDefinition.lastRun
       (JsMap.get "h1" (tasks (snd r))) = Some None.
Proof.
  cbv zeta.
  destruct (@runOrchestrator_unregistered_source (Toy.env true)
              (mkGSContext None)
              (Toy.task "h1" (mkPluginRef "http-crawler"
                                [("url", "https://example.com")]) Manual)
              None
              (Toy.world [("h1", Toy.task "h1"
                                   (mkPluginRef "http-crawler"
                                      [("url", "https://example.com")])
                                   Manual)] [])
              (Toy.task "h1" (mkPluginRef "http-crawler"
                                [("url", "https://example.com")]) Manual)
              eq_refl eq_refl) as (H1 & _ & H3 & _).
  split; [exact H1|].
  exact (f_equal (option_map IngestionTaskDefinition.lastRun) H3).
Defined.

(** A destination whose [init] throws. *)
Lemma runOrchestrator_destination_init_throws_witness :
  let broken :=
    mkIDestinationPlugin (fun _ _ => Throw "EACCES")
      (fun _ _ => Ok (GSStatus3 true 200 "stored")) in
  let t := Toy.task "g1" Toy.gitRepo Manual in
  let w := mkWorld [("g1", t)] []
             (RegisteredPlugins.mk
                [("git-crawler", mkSourceEntry Toy.source Toy.passthrough)]
                [("file-system-destination", broken)]) [] in
  let r := Ops.runOrchestrator (Toy.env true) (mkGSContext None) t None w in
  fst r = Throw "EACCES"
  /\ option_map IngestionTaskDefinition.currentStatus
       (JsMap.get "g1" (tasks (snd r))) = Some RUNNING.
Proof.
  cbv zeta.
  destruct (@runOrchestrator_destination_init_throws (Toy.env true)
              (mkGSContext None) (Toy.task "g1" Toy.gitRepo Manual) None
              (mkWorld [("g1", Toy.task "g1" Toy.gitRepo Manual)] []
                 (RegisteredPlugins.mk
                    [("git-crawler",
                      mkSourceEntry Toy.source Toy.passthrough)]
                    [("file-system-destination",
                      mkIDestinationPlugin (fun _ _ => Throw "EACCES")
                        (fun _ _ => Ok (GSStatus3 true 200 "stored")))]) [])
              (mkSourceEntry Toy.source Toy.passthrough)
              (mkIDestinationPlugin (fun _ _ => Throw "EACCES")
                 (fun _ _ => Ok (GSStatus3 true 200 "stored")))
              (mkPluginRef "file-system-destination"
                 [("outputPath", "./out")])
              "EACCES" (Toy.task "g1" Toy.gitRepo Manual)
              eq_refl eq_refl eq_refl eq_refl eq_refl) as (H1 & _ & H3).
  split; [exact H1|].
  exact (f_equal (option_map IngestionTaskDefinition.currentStatus) H3).
Defined.

Lemma runOrchestrator_completes_twice_witness :
  let t := Toy.task "g1" Toy.gitRepo Toy.hook in
  let w := Toy.world [("g1", t)] [] in
  let r := Ops.runOrchestrator (Toy.env true) (mkGSContext None) t None w in
  let st := GSStatus4 true 200 "Ingestion task completed successfully."
              (JObj [("itemsProcessed", JNum 2)]) in
  fst r = Ok st
  /\ filter is_completed (new_effects w (snd r))
     = [Emit (TASK_COMPLETED "g1" st); Emit (TASK_COMPLETED "g1" st)].
Proof.
  cbv zeta. split; [reflexivity|].
  apply (@runOrchestrator_completes_twice (Toy.env true) (mkGSContext None)
           (Toy.task "g1" Toy.gitRepo Toy.hook) None
           (Toy.world [("g1", Toy.task "g1" Toy.gitRepo Toy.hook)] [])
           (GSStatus4 true 200 "Ingestion task completed successfully."
              (JObj [("itemsProcessed", JNum 2)]))
           (snd (Ops.runOrchestrator (Toy.env true) (mkGSContext None)
                   (Toy.task "g1" Toy.gitRepo Toy.hook) None
                   (Toy.world [("g1", Toy.task "g1" Toy.gitRepo Toy.hook)]
                      [])))
           eq_refl eq_refl).
Defined.

Lemma runOrchestrator_delivers_once_nonempty_witness :
  let t := Toy.task "g1" Toy.gitRepo Toy.hook in
  let w := Toy.world [("g1", t)] [] in
  let r := Ops.runOrchestrator (Toy.env true) (mkGSContext None) t None w in
  In (DestinationProcessData "g1" [JStr "a"; JStr "b"])
     (new_effects w (snd r))
  /\ [JStr "a"; JStr "b"] <> [].
Proof.
  cbv zeta.
  assert (Hin : In (DestinationProcessData "g1" [JStr "a"; JStr "b"])
                  (new_effects
                     (Toy.world [("g1", Toy.task "g1" Toy.gitRepo Toy.hook)]
                        [])
                     (snd (Ops.runOrchestrator (Toy.env true)
                             (mkGSContext None)
                             (Toy.task "g1" Toy.gitRepo Toy.hook) None
                             (Toy.world
                                [("g1", Toy.task "g1" Toy.gitRepo Toy.hook)]
                                []))))).
  { vm_compute. tauto. }
  split; [exact Hin|].
  exact (proj2 (proj2 (@runOrchestrator_delivers_once_nonempty (Toy.env true)
                         (mkGSContext None)
                         (Toy.task "g1" Toy.gitRepo Toy.hook) None
                         (Toy.world
                            [("g1", Toy.task "g1" Toy.gitRepo Toy.hook)] []))
                  "g1" [JStr "a"; JStr "b"] Hin)).
Defined.

Lemma runOrchestrator_counts_transformed_witness :
  let t := Toy.task "g1" Toy.gitRepo Toy.hook in
  let w := Toy.world [("g1", t)] [] in
  let r := Ops.runOrchestrator (Toy.env true) (mkGSContext None) t None w in
  exists transformedData,
    filter is_transformed (new_effects w (snd r))
    = [Emit (DATA_TRANSFORMED transformedData "g1")]
    /\ data (GSStatus4 true 200 "Ingestion task completed successfully."
               (JObj [("itemsProcessed", JNum 2)]))
       = JObj [("itemsProcessed", JNum (Z.of_nat (length transformedData)))].
Proof.
  cbv zeta.
  exact (@runOrchestrator_counts_transformed (Toy.env true)
           (mkGSContext None) (Toy.task "g1" Toy.gitRepo Toy.hook) None
           (Toy.world [("g1", Toy.task "g1" Toy.gitRepo Toy.hook)] [])
           (GSStatus4 true 200 "Ingestion task completed successfully."
              (JObj [("itemsProcessed", JNum 2)]))
           (snd (Ops.runOrchestrator (Toy.env true) (mkGSContext None)
                   (Toy.task "g1" Toy.gitRepo Toy.hook) None
                   (Toy.world [("g1", Toy.task "g1" Toy.gitRepo Toy.hook)]
                      [])))
           eq_refl eq_refl).
Defined.

(** A manual trigger of a drive task whose folder has a registry entry with
    cursors. *)
Lemma triggerManualTask_dispatch_witness :
  let t := Toy.task "d1" Toy.driveFolder Manual in
  let e := WebhookRegistryEntry.mk "f1" "/drive" "s3cr3t" "ch" ["w1"] true
             (JStr "t0") (JStr "n1") JUndef in
  let w := Toy.world [("d1", t)] [("f1", e)] in
  In (RunOrchestrator "d1"
        (Some (Payload.mk None JUndef None None (JStr "t0") (JStr "n1")
                 JUndef)))
     (new_effects w
        (snd (Ops.triggerManualTask (Toy.env true) (mkGSContext None) "d1"
                None w)))
  /\ fst (Ops.triggerManualTask (Toy.env true) (mkGSContext None) "zz" None w)
     = Ok (GSStatus3 false 404 "Task with ID zz not found.").
Proof.
  cbv zeta. split.
  - exact (proj1 (proj2 (proj2 (proj2
             (@triggerManualTask_dispatch (Toy.env true) (mkGSContext None)
                "d1" None
                (Toy.world [("d1", Toy.task "d1" Toy.driveFolder Manual)]
                   [("f1", WebhookRegistryEntry.mk "f1" "/drive" "s3cr3t"
                             "ch" ["w1"] true (JStr "t0") (JStr "n1")
                             JUndef)])))
             (Toy.task "d1" Toy.driveFolder Manual) "f1"
             (WebhookRegistryEntry.mk "f1" "/drive" "s3cr3t" "ch" ["w1"] true
                (JStr "t0") (JStr "n1") JUndef)
             eq_refl eq_refl eq_refl ltac:(discriminate) eq_refl))).
  - reflexivity.
Defined.
(* ------------------------------------------------------------------ *)
(** ** Which requests [processWebhookRequest] accepts *)

Section Requests.
Variable E : Env.

Lemma handleGitWebhook_cases headers body secret :
  handleGitWebhook E headers body secret
  = match JSON_parse E body with
    | None => Ok (WebhookResult.failure "Invalid JSON payload." false)
    | Some payload =>
        match checkGitSignature E headers body secret with
        | Rejected r => Ok r
        | Checked v =>
            match payload with
            | JNull =>
                Throw (if is_text (header headers "x-github-event") "push"
                       then "Cannot read properties of null (reading 'deleted')"
                       else "Cannot read properties of null (reading 'repository')")
            | _ =>
                if negb (truthy (repositoryFullName payload))
                then Ok (WebhookResult.failure
                           "Could not extract externalResourceId (repository full name)."
                           v)
                else Ok (WebhookResult.mk true
                           (Some ("https://github.com/"
                                  ++ text_of E (repositoryFullName payload))%string)
                           payload (Some (gitChangeType headers payload)) None
                           (Some v))
            end
        end
    end.
Proof.
  unfold handleGitWebhook.
  destruct (JSON_parse E body) as [payload|]; [|reflexivity].
  destruct (checkGitSignature E headers body secret); [reflexivity|].
  destruct payload; reflexivity.
Qed.

(** What the signature block of [handleGitWebhook] decides. *)
Lemma checkGitSignature_spec headers body secret :
  match checkGitSignature E headers body secret with
  | Checked true =>
      exists sec sig rest,
        secret = Some sec /\ sec <> EmptyString
        /\ signature_header headers = Some sig
        /\ split "=" sig
           = "sha256"%string :: hmac_sha256_hex E sec body :: rest
  | Checked false =>
      truthy_str secret = false
      \/ truthy_str (signature_header headers) = false
  | Rejected r =>
      WebhookResult.success r = false
      /\ truthy_str secret = true
      /\ ~ signedFor E headers secret body
  end.
Proof.
  unfold checkGitSignature. fold (signature_header headers).
  destruct secret as [sec|]; [|left; reflexivity].
  destruct (sec =? EmptyString)%string eqn:Hsec.
  { left. simpl. now rewrite Hsec. }
  assert (Htruthy : truthy_str (Some sec) = true) by (simpl; now rewrite Hsec).
  destruct (signature_header headers) as [sig|] eqn:Hsig;
    [|right; reflexivity].
  destruct (sig =? EmptyString)%string eqn:Hsigne.
  { right. simpl. now rewrite Hsigne. }
  assert (Hnot : forall alg parts,
             split "=" sig = alg :: parts ->
             (alg <> "sha256"%string
              \/ nth_error parts 0 <> Some (hmac_sha256_hex E sec body)) ->
             ~ signedFor E headers (Some sec) body).
  { intros alg parts Hsplit Hbad [Hf | (sec' & sig' & rest & Hs & Hh & Hsp)].
    - rewrite Htruthy in Hf. discriminate.
    - injection Hs as <-. rewrite Hsig in Hh. injection Hh as <-.
      rewrite Hsplit in Hsp. injection Hsp as -> ->.
      destruct Hbad as [H|H]; apply H; reflexivity. }
  destruct (split "=" sig) as [|alg parts] eqn:Hsplit.
  { cbn [nth_error]. split; [reflexivity|]. split; [exact Htruthy|].
    intros [Hf | (sec' & sig' & rest & Hs & Hh & Hsp)].
    - rewrite Htruthy in Hf. discriminate.
    - injection Hs as <-. rewrite Hsig in Hh. injection Hh as <-.
      rewrite Hsplit in Hsp. discriminate. }
  cbn [nth_error].
  destruct (alg =? "sha256")%string eqn:Halg; cbn [negb].
  - apply String.eqb_eq in Halg. subst alg.
    destruct parts as [|h rest]; cbn [nth_error].
    + split; [reflexivity|]. split; [exact Htruthy|].
      eapply Hnot; [reflexivity|]. right. discriminate.
    + destruct (hmac_sha256_hex E sec body =? h)%string eqn:Hh.
      * apply String.eqb_eq in Hh. subst h.
        exists sec, sig, rest. repeat split; auto.
        intros ->. discriminate Hsec.
      * split; [reflexivity|]. split; [exact Htruthy|].
        eapply Hnot; [reflexivity|]. right.
        apply String.eqb_neq in Hh. intros H. injection H as H. auto.
  - split; [reflexivity|]. split; [exact Htruthy|].
    eapply Hnot; [reflexivity|]. left.
    apply String.eqb_neq in Halg. exact Halg.
Qed.

Lemma processWebhookRequest_git headers secret raw :
  processWebhookRequest E "git-crawler" headers secret raw
  = match bodyStringOf E raw with
    | None =>
        Ok (ProcessedWebhookResult.mk false JUndef None None
              (Some "Invalid webhook body type."))
    | Some body =>
        match handleGitWebhook E headers body secret with
        | Throw msg => Throw msg
        | Ok result => Ok (processed secret result)
        end
    end.
Proof.
  unfold processWebhookRequest. fold (bodyStringOf E raw).
  destruct (bodyStringOf E raw); reflexivity.
Qed.

Lemma processWebhookRequest_drive headers secret raw :
  processWebhookRequest E "googledrive-crawler" headers secret raw
  = match bodyStringOf E raw with
    | None =>
        Ok (ProcessedWebhookResult.mk false JUndef None None
              (Some "Invalid webhook body type."))
    | Some body => Ok (processed secret (handleGDriveWebhook E headers body secret))
    end.
Proof.
  unfold processWebhookRequest. fold (bodyStringOf E raw).
  destruct (bodyStringOf E raw); reflexivity.
Qed.

Lemma split_go_nonempty sep acc s : split_go sep acc s <> [].
Proof.
  revert acc. induction s as [|c r IH]; simpl; intros acc; [discriminate|].
  destruct (Ascii.eqb c sep); [discriminate | apply IH].
Qed.

Lemma signed_header_truthy headers sec body sig rest :
  signature_header headers = Some sig ->
  split "=" sig = "sha256"%string :: hmac_sha256_hex E sec body :: rest ->
  truthy_str (signature_header headers) = true.
Proof.
  intros Hsig Hsplit. rewrite Hsig. simpl.
  destruct sig; [discriminate Hsplit | reflexivity].
Qed.

Lemma git_accepted_iff (headers : Headers) (secret : option string)
  (raw : jsval) (r : ProcessedWebhookResult.t) :
  (processWebhookRequest E "git-crawler" headers secret raw = Ok r
   /\ ProcessedWebhookResult.isValid r = true)
  <-> exists body payload,
        bodyStringOf E raw = Some body
        /\ JSON_parse E body = Some payload
        /\ truthy (repositoryFullName payload) = true
        /\ signedFor E headers secret body
        /\ r = ProcessedWebhookResult.mk true payload
                 (Some ("https://github.com/"
                        ++ text_of E (repositoryFullName payload))%string)
                 (Some (gitChangeType headers payload)) None.
Proof.
  rewrite processWebhookRequest_git. split.
  - intros [Hrun Hvalid].
    destruct (bodyStringOf E raw) as [body|] eqn:Hbody;
      [|injection Hrun as <-; discriminate Hvalid].
    rewrite handleGitWebhook_cases in Hrun.
    destruct (JSON_parse E body) as [payload|] eqn:Hparse;
      [|injection Hrun as <-; discriminate Hvalid].
    pose proof (checkGitSignature_spec headers body secret) as Hspec.
    destruct (checkGitSignature E headers body secret) as [r0|v].
    { injection Hrun as <-. destruct Hspec as (Hs & _ & _).
      unfold processed in Hvalid. cbn [ProcessedWebhookResult.isValid] in Hvalid.
      rewrite Hs in Hvalid. discriminate Hvalid. }
    assert (Hrun' :
              match (if negb (truthy (repositoryFullName payload))
                     then Ok (WebhookResult.failure
                                "Could not extract externalResourceId (repository full name)."
                                v)
                     else Ok (WebhookResult.mk true
                                (Some ("https://github.com/"
                                       ++ text_of E
                                            (repositoryFullName payload))%string)
                                payload
                                (Some (gitChangeType headers payload))
                                None (Some v)))
              with
              | Throw msg => Throw msg
              | Ok result => Ok (processed secret result)
              end = Ok r).
    { destruct payload; try exact Hrun. discriminate Hrun. }
    clear Hrun.
    destruct (truthy (repositoryFullName payload)) eqn:Hname;
      cbn [negb] in Hrun'; injection Hrun' as <-;
      [|discriminate Hvalid].
    exists body, payload. split; [reflexivity|]. split; [exact Hparse|].
    split; [exact Hname|].
    unfold processed in *.
    cbn [WebhookResult.signatureValidated WebhookResult.success
           WebhookResult.error WebhookResult.rawPayload
           WebhookResult.externalResourceId WebhookResult.changeType
           truthy_str ProcessedWebhookResult.isValid andb] in *.
    destruct (truthy_str secret) eqn:Hsecret.
    + subst v. destruct Hspec as (sec & sig & rest & Hs & _ & Hh & Hsp).
      split; [|reflexivity]. right. exists sec, sig, rest. auto.
    + split; [left; exact Hsecret|].
      rewrite andb_false_r. reflexivity.
  - intros (body & payload & Hbody & Hparse & Hname & Hsigned & ->).
    rewrite Hbody, handleGitWebhook_cases, Hparse.
    pose proof (checkGitSignature_spec headers body secret) as Hspec.
    destruct (checkGitSignature E headers body secret) as [r0|v].
    { destruct Hspec as (_ & _ & Hn). contradiction. }
    assert (Hv : (if truthy_str secret then v else true) = true).
    { destruct (truthy_str secret) eqn:Hsecret; [|reflexivity].
      destruct v; [reflexivity|].
      destruct Hspec as [Hf|Hf]; [discriminate Hf|].
      destruct Hsigned as [Hs | (sec & sig & rest & _ & Hh & Hsp)];
        [rewrite Hsecret in Hs; discriminate Hs|].
      rewrite (@signed_header_truthy headers sec body sig rest Hh Hsp) in Hf.
      discriminate Hf. }
    assert (Hnn : payload <> JNull).
    { intros ->. discriminate Hname. }
    assert (Hgo :
              match payload with
              | JNull =>
                  Throw (if is_text (header headers "x-github-event") "push"
                         then "Cannot read properties of null (reading 'deleted')"
                         else "Cannot read properties of null (reading 'repository')")
              | _ =>
                  if negb (truthy (repositoryFullName payload))
                  then Ok (WebhookResult.failure
                             "Could not extract externalResourceId (repository full name)."
                             v)
                  else Ok (WebhookResult.mk true
                             (Some ("https://github.com/"
                                    ++ text_of E (repositoryFullName payload))%string)
                             payload (Some (gitChangeType headers payload))
                             None (Some v))
              end
              = Ok (WebhookResult.mk true
                      (Some ("https://github.com/"
                             ++ text_of E (repositoryFullName payload))%string)
                      payload (Some (gitChangeType headers payload)) None
                      (Some v))).
    { rewrite Hname. destruct payload; try reflexivity. contradiction. }
    rewrite Hgo. unfold processed.
    cbn [WebhookResult.signatureValidated WebhookResult.success
           WebhookResult.error WebhookResult.rawPayload
           WebhookResult.externalResourceId WebhookResult.changeType
           truthy_str ProcessedWebhookResult.isValid andb].
    rewrite Hv. split; [|reflexivity].
    destruct (truthy_str secret); [|rewrite andb_false_r; reflexivity].
    subst v. reflexivity.
Qed.

Lemma handleGDriveWebhook_cases headers body expectedToken :
  handleGDriveWebhook E headers body expectedToken
  = let tokenOk :=
      if truthy_str expectedToken
      then match header headers "x-goog-channel-id", expectedToken with
           | Some channelToken, Some tok =>
               if (channelToken =? EmptyString)%string then None
               else if (channelToken =? tok)%string then Some true else None
           | _, _ => None
           end
      else Some false in
    match tokenOk with
    | None =>
        WebhookResult.failure "Invalid channel ID or token mismatch." false
    | Some v =>
        if negb (truthy_str (driveResourceId E headers))
        then WebhookResult.failure
               "Could not extract actual Drive folder ID from x-goog-resource-uri."
               v
        else
          WebhookResult.mk true (driveResourceId E headers)
            (JObj [("channelResourceId",
                    opt_to_js (header headers "x-goog-resource-id"));
                   ("resourceState",
                    opt_to_js (header headers "x-goog-resource-state"));
                   ("x-goog-channel-id",
                    opt_to_js (header headers "x-goog-channel-id"));
                   ("x-goog-message-number",
                    opt_to_js (header headers "x-goog-message-number"));
                   ("x-goog-resource-state",
                    opt_to_js (header headers "x-goog-resource-state"));
                   ("x-goog-resource-uri",
                    opt_to_js (header headers "x-goog-resource-uri"))])
            (Some (driveChangeType headers)) None (Some v)
    end.
Proof.
  unfold handleGDriveWebhook, driveResourceId. cbv zeta.
  destruct (if truthy_str expectedToken then _ else _); [|reflexivity].
  destruct (header headers "x-goog-resource-uri") as [uri|]; [|reflexivity].
  cbn [truthy_str]. destruct (uri =? EmptyString)%string; reflexivity.
Qed.

(** The token test of [handleGDriveWebhook] passes exactly when the channel
    id is the expected token, if one is expected. *)
Lemma drive_token_spec headers expectedToken :
  (exists v,
     (if truthy_str expectedToken
      then match header headers "x-goog-channel-id", expectedToken with
           | Some channelToken, Some tok =>
               if (channelToken =? EmptyString)%string then None
               else if (channelToken =? tok)%string then Some true else None
           | _, _ => None
           end
      else Some false) = Some v
     /\ (if truthy_str expectedToken then v else true) = true)
  <-> channelMatches headers expectedToken.
Proof.
  unfold channelMatches.
  destruct (truthy_str expectedToken) eqn:Htok.
  - destruct expectedToken as [tok|]; [|discriminate Htok].
    simpl in Htok.
    destruct (header headers "x-goog-channel-id") as [c|].
    + destruct (c =? EmptyString)%string eqn:Hc.
      * apply String.eqb_eq in Hc. subst c. split.
        -- intros (v & H & _). discriminate H.
        -- intros [H|H]; [discriminate H|]. injection H as <-.
           discriminate Htok.
      * destruct (c =? tok)%string eqn:Hct.
        -- apply String.eqb_eq in Hct. subst c. split; [auto|].
           intros _. exists true. auto.
        -- apply String.eqb_neq in Hct. split.
           ++ intros (v & H & _). discriminate H.
           ++ intros [H|H]; [discriminate H|]. injection H as H.
              contradiction.
    + split.
      * intros (v & H & _). discriminate H.
      * intros [H|H]; discriminate H.
  - split; [auto|]. intros _. exists false. auto.
Qed.

Lemma drive_accepted_iff (headers : Headers)
  (secret : option string) (raw : jsval) :
  (exists r,
     processWebhookRequest E "googledrive-crawler" headers secret raw = Ok r)
  /\ forall r,
       (processWebhookRequest E "googledrive-crawler" headers secret raw
        = Ok r
        /\ ProcessedWebhookResult.isValid r = true)
       <-> (bodyStringOf E raw <> None
            /\ channelMatches headers secret
            /\ truthy_str (driveResourceId E headers) = true
            /\ processWebhookRequest E "googledrive-crawler" headers secret
                 raw = Ok r
            /\ ProcessedWebhookResult.externalResourceId r
               = driveResourceId E headers
            /\ ProcessedWebhookResult.changeType r
               = Some (driveChangeType headers)
            /\ ProcessedWebhookResult.error r = None).
Proof.
  rewrite processWebhookRequest_drive.
  split; [destruct (bodyStringOf E raw); eexists; reflexivity|].
  intros r. split.
  - intros [Hrun Hvalid].
    destruct (bodyStringOf E raw) as [body|] eqn:Hbody;
      [|injection Hrun as <-; discriminate Hvalid].
    split; [discriminate|].
    pose proof (drive_token_spec headers secret) as Htoken.
    pose proof Hrun as Hrun0.
    rewrite handleGDriveWebhook_cases in Hrun. cbv zeta in Hrun.
    destruct (if truthy_str secret then _ else _) as [v|] eqn:Htok;
      [|injection Hrun as <-; discriminate Hvalid].
    destruct (truthy_str (driveResourceId E headers)) eqn:Hrid;
      cbn [negb] in Hrun; injection Hrun as <-;
      [|discriminate Hvalid].
    unfold processed in *.
    cbn [WebhookResult.signatureValidated WebhookResult.success
           WebhookResult.error WebhookResult.rawPayload
           WebhookResult.externalResourceId WebhookResult.changeType
           truthy_str ProcessedWebhookResult.isValid
           ProcessedWebhookResult.externalResourceId
           ProcessedWebhookResult.changeType ProcessedWebhookResult.error
           andb] in *.
    split; [apply Htoken; exists v; auto|].
    split; [reflexivity|]. split; [exact Hrun0|].
    split; [reflexivity|]. split; [reflexivity|].
    clear Hrun0 Htoken Htok.
    destruct (truthy_str secret); cbv iota in Hvalid;
      [subst v; reflexivity | rewrite andb_false_r; reflexivity].
  - intros (Hbody & Htoken & Hrid & Hrun & _).
    split; [exact Hrun|].
    destruct (bodyStringOf E raw) as [body|]; [|contradiction].
    apply drive_token_spec in Htoken. destruct Htoken as (v & Htok & Hv).
    rewrite handleGDriveWebhook_cases in Hrun. cbv zeta in Hrun.
    rewrite Htok, Hrid in Hrun. cbn [negb] in Hrun. injection Hrun as <-.
    unfold processed.
    cbn [WebhookResult.signatureValidated WebhookResult.success
           ProcessedWebhookResult.isValid andb].
    exact Hv.
Qed.

(** A git request is accepted exactly when its body is an object or a
    string whose text parses to a payload with a truthy
    [repository.full_name], and it is signed as the secret asks; what is
    accepted then carries the parsed payload, the repository URL built from
    the full name and the change type read off the event header.  With no
    secret, or an empty one, no header is looked at for a signature. *)
Theorem git_request_accepted_iff (headers : Headers) (secret : option string)
  (raw : jsval) (r : ProcessedWebhookResult.t) :
  (processWebhookRequest E "git-crawler" headers secret raw = Ok r
   /\ ProcessedWebhookResult.isValid r = true)
  <-> exists body payload,
        bodyStringOf E raw = Some body
        /\ JSON_parse E body = Some payload
        /\ truthy (repositoryFullName payload) = true
        /\ signedFor E headers secret body
        /\ r = ProcessedWebhookResult.mk true payload
                 (Some ("https://github.com/"
                        ++ text_of E (repositoryFullName payload))%string)
                 (Some (gitChangeType headers payload)) None.
Proof. apply git_accepted_iff. Qed.

(** A Google Drive notification is accepted exactly when its body is an
    object or a string (it is not read further), its channel id is the
    expected token if one is expected, and its resource URI parses to a
    path whose last segment is not empty; that segment is then the resource
    id, and the change type is read off the resource state.  No such
    request makes [processWebhookRequest] throw. *)
Theorem drive_request_accepted_iff (headers : Headers)
  (secret : option string) (raw : jsval) :
  exists r,
    processWebhookRequest E "googledrive-crawler" headers secret raw = Ok r
    /\ (ProcessedWebhookResult.isValid r = true
        <-> bodyStringOf E raw <> None
            /\ channelMatches headers secret
            /\ truthy_str (driveResourceId E headers) = true)
    /\ (ProcessedWebhookResult.isValid r = true ->
        ProcessedWebhookResult.externalResourceId r
        = driveResourceId E headers
        /\ ProcessedWebhookResult.changeType r
           = Some (driveChangeType headers)
        /\ ProcessedWebhookResult.error r = None).
Proof.
  destruct (drive_accepted_iff headers secret raw) as [[r Hrun] Hiff].
  exists r. split; [exact Hrun|]. split; [split|].
  - intros Hvalid.
    destruct (proj1 (Hiff r) (conj Hrun Hvalid)) as (H1 & H2 & H3 & _). auto.
  - intros (H1 & H2 & H3).
    (* the three conditions decide the answer, which is [r] *)
    rewrite processWebhookRequest_drive in Hrun.
    destruct (bodyStringOf E raw) as [body|]; [|contradiction].
    apply drive_token_spec in H2. destruct H2 as (v & Htok & Hv).
    rewrite handleGDriveWebhook_cases in Hrun. cbv zeta in Hrun.
    rewrite Htok, H3 in Hrun. cbn [negb] in Hrun. injection Hrun as <-.
    unfold processed.
    cbn [WebhookResult.signatureValidated WebhookResult.success
           ProcessedWebhookResult.isValid andb].
    exact Hv.
  - intros Hvalid.
    destruct (proj1 (Hiff r) (conj Hrun Hvalid)) as (_ & _ & _ & _ & H).
    exact H.
Qed.

Lemma accepted_names_resource (webhookService : string)
  (headers : Headers) (secret : option string) (raw : jsval)
  (r : ProcessedWebhookResult.t) :
  processWebhookRequest E webhookService headers secret raw = Ok r ->
  ProcessedWebhookResult.isValid r = true ->
  exists rid,
    ProcessedWebhookResult.externalResourceId r = Some rid
    /\ rid <> EmptyString.
Proof.
  intros Hrun Hvalid.
  destruct (webhookService =? "git-crawler")%string eqn:Hgit.
  { apply String.eqb_eq in Hgit. subst webhookService.
    destruct (proj1 (git_accepted_iff headers secret raw r)
                (conj Hrun Hvalid))
      as (body & payload & _ & _ & _ & _ & ->).
    eexists. split; [reflexivity|]. discriminate. }
  destruct (webhookService =? "googledrive-crawler")%string eqn:Hdrive.
  { apply String.eqb_eq in Hdrive. subst webhookService.
    destruct (proj1 (proj2 (drive_accepted_iff headers secret raw) r)
                (conj Hrun Hvalid))
      as (_ & _ & Htruthy & _ & Hrid & _).
    rewrite Hrid.
    destruct (driveResourceId E headers) as [rid|]; [|discriminate Htruthy].
    exists rid. split; [reflexivity|]. intros ->. discriminate Htruthy. }
  unfold processWebhookRequest in Hrun. rewrite Hgit, Hdrive in Hrun.
  destruct raw; injection Hrun as <-; discriminate Hvalid.
Qed.

(** Whatever the service and the secret, a request that is accepted carries
    a resource id that is not empty. *)
Theorem accepted_request_names_resource (webhookService : string)
  (headers : Headers) (secret : option string) (raw : jsval)
  (r : ProcessedWebhookResult.t) :
  processWebhookRequest E webhookService headers secret raw = Ok r ->
  ProcessedWebhookResult.isValid r = true ->
  exists rid,
    ProcessedWebhookResult.externalResourceId r = Some rid
    /\ rid <> EmptyString.
Proof. apply accepted_names_resource. Qed.

Lemma accepted_same_resource (webhookService : string) (headers : Headers)
  (secret1 secret2 : option string) (raw : jsval)
  (r1 r2 : ProcessedWebhookResult.t) :
  processWebhookRequest E webhookService headers secret1 raw = Ok r1 ->
  ProcessedWebhookResult.isValid r1 = true ->
  processWebhookRequest E webhookService headers secret2 raw = Ok r2 ->
  ProcessedWebhookResult.isValid r2 = true ->
  ProcessedWebhookResult.externalResourceId r2
  = ProcessedWebhookResult.externalResourceId r1
  /\ ProcessedWebhookResult.payload r2 = ProcessedWebhookResult.payload r1
  /\ ProcessedWebhookResult.changeType r2
     = ProcessedWebhookResult.changeType r1.
Proof.
  intros Hrun1 Hvalid1 Hrun2 Hvalid2.
  destruct (webhookService =? "git-crawler")%string eqn:Hgit.
  { apply String.eqb_eq in Hgit. subst webhookService.
    destruct (proj1 (git_accepted_iff headers secret1 raw r1)
                (conj Hrun1 Hvalid1))
      as (body1 & payload1 & Hb1 & Hp1 & _ & _ & ->).
    destruct (proj1 (git_accepted_iff headers secret2 raw r2)
                (conj Hrun2 Hvalid2))
      as (body2 & payload2 & Hb2 & Hp2 & _ & _ & ->).
    rewrite Hb1 in Hb2. injection Hb2 as <-.
    rewrite Hp1 in Hp2. injection Hp2 as <-.
    repeat split. }
  destruct (webhookService =? "googledrive-crawler")%string eqn:Hdrive.
  { apply String.eqb_eq in Hdrive. subst webhookService.
    rewrite processWebhookRequest_drive in Hrun1, Hrun2.
    destruct (bodyStringOf E raw) as [body|];
      [|injection Hrun1 as <-; discriminate Hvalid1].
    rewrite handleGDriveWebhook_cases in Hrun1, Hrun2.
    cbv zeta in Hrun1, Hrun2.
    destruct (if truthy_str secret1 then _ else _) as [v1|];
      [|injection Hrun1 as <-; discriminate Hvalid1].
    destruct (if truthy_str secret2 then _ else _) as [v2|];
      [|injection Hrun2 as <-; discriminate Hvalid2].
    destruct (truthy_str (driveResourceId E headers));
      cbn [negb] in Hrun1, Hrun2;
      injection Hrun1 as <-; injection Hrun2 as <-;
      [|discriminate Hvalid1].
    repeat split. }
  unfold processWebhookRequest in Hrun1. rewrite Hgit, Hdrive in Hrun1.
  destruct raw; injection Hrun1 as <-; discriminate Hvalid1.
Qed.

(** What is accepted does not depend on the secret it was checked against:
    a request accepted without a secret and accepted again with one gives
    the same resource id, payload and change type. *)
Theorem accepted_request_same_under_any_secret (webhookService : string)
  (headers : Headers) (secret1 secret2 : option string) (raw : jsval)
  (r1 r2 : ProcessedWebhookResult.t) :
  processWebhookRequest E webhookService headers secret1 raw = Ok r1 ->
  ProcessedWebhookResult.isValid r1 = true ->
  processWebhookRequest E webhookService headers secret2 raw = Ok r2 ->
  ProcessedWebhookResult.isValid r2 = true ->
  ProcessedWebhookResult.externalResourceId r2
  = ProcessedWebhookResult.externalResourceId r1
  /\ ProcessedWebhookResult.payload r2 = ProcessedWebhookResult.payload r1
  /\ ProcessedWebhookResult.changeType r2
     = ProcessedWebhookResult.changeType r1.
Proof. apply accepted_same_resource. Qed.

End Requests.
(* ------------------------------------------------------------------ *)
(** ** Dispatching a webhook request to tasks *)

Section Dispatch.
Variable E : Env.

Lemma runOrchestrator_same_registry ctx task initialPayload :
  respects same_registry (Ops.runOrchestrator E ctx task initialPayload).
Proof.
  intros w. unfold same_registry.
  destruct (@runOrchestrator_ways E ctx task initialPayload w)
    as [[_ H] | [(se & dp & d & msg & _ & _ & _ & H)
                | (o & w2 & st & w3 & _ & Hw2 & Hex & H)]];
    rewrite H; cbn [snd]; try reflexivity.
  unfold runFinish. cbn [webhookRegistrations set_tasks record].
  pose proof (@executeTask_same_registry E o ctx initialPayload w2) as Hs.
  rewrite Hex in Hs. unfold same_registry in Hs. cbn [snd] in Hs.
  rewrite Hs. destruct Hw2; subst w2; reflexivity.
Qed.

(** With destinations whose [init] does not throw, a run returns. *)
Lemma runOrchestrator_returns ctx task initialPayload w :
  destinations_init_ok w ->
  exists st, fst (Ops.runOrchestrator E ctx task initialPayload w) = Ok st.
Proof.
  intros Hok.
  destruct (@runOrchestrator_ways E ctx task initialPayload w)
    as [[_ H] | [(se & dp & d & msg & _ & Hd & Hinit & H)
                | (o & w2 & st & w3 & _ & _ & _ & H)]].
  - rewrite H. eexists. reflexivity.
  - exfalso. unfold destinationOf in Hd.
    destruct (IngestionTaskDefinition.destination task) as [d'|];
      [|discriminate Hd].
    destruct (JsMap.get (pluginType d') _) as [dp'|] eqn:Hget;
      [|discriminate Hd].
    injection Hd as -> ->.
    destruct (Hok _ _ Hget (history (runStart task initialPayload w))
                (config d)) as [u Hu].
    rewrite Hu in Hinit. discriminate Hinit.
  - rewrite H. eexists. reflexivity.
Qed.

Lemma filter_no_run l :
  forallb (fun e => negb (is_run e)) l = true -> filter is_run l = [].
Proof.
  induction l as [|e r IH]; simpl; [reflexivity|].
  intros H. apply andb_prop in H. destruct H as [He Hr].
  destruct (is_run e); [discriminate He | auto].
Qed.

(** The loop of [triggerWebhookTask], on tasks that the store holds under
    their own, distinct ids: every one of them is run, in order, with the
    payload built from the request and the registry, and the first status
    is the one kept. *)
Lemma triggerWebhookTask_loop_spec ctx final :
  forall ts first w,
    NoDup (map IngestionTaskDefinition.id ts) ->
    (forall t, In t ts ->
               JsMap.get (IngestionTaskDefinition.id t) (tasks w) = Some t) ->
    destinations_init_ok w ->
    let r := Ops.triggerWebhookTask_loop E ctx final ts first w in
    exists o,
      fst r = Ok o
      /\ match first, ts with
         | Some s, _ => o = Some s
         | None, [] => o = None
         | None, t :: _ =>
             fst (Ops.runOrchestrator E ctx t
                    (Some (webhookPayloadFor final (webhookRegistrations w) t))
                    w) = match o with
                         | Some s => Ok s
                         | None => Throw EmptyString
                         end
         end
      /\ webhookRegistrations (snd r) = webhookRegistrations w
      /\ registeredPlugins (snd r) = registeredPlugins w
      /\ exists l,
           history (snd r) = history w ++ l
           /\ filter is_run l
              = map (fun t =>
                       RunOrchestrator (IngestionTaskDefinition.id t)
                         (Some (webhookPayloadFor final
                                  (webhookRegistrations w) t)))
                    ts.
Proof.
  induction ts as [|t rest IH]; intros first w Hnd Hstored Hok r; subst r.
  - simpl. exists first. split; [reflexivity|].
    split; [destruct first; reflexivity|]. split; [reflexivity|].
    split; [reflexivity|]. exists []. now rewrite app_nil_r.
  - set (payload := webhookPayloadFor final (webhookRegistrations w) t).
    destruct (@runOrchestrator_returns ctx t (Some payload) w Hok)
      as [status Hstatus].
    pose proof (@runOrchestrator_same_registry ctx t (Some payload) w)
      as Hreg.
    pose proof (@runOrchestrator_untouched E ctx t (Some payload) w)
      as (Hkeys & Hother & Hself & Hplug).
    destruct (@runOrchestrator_history E ctx t (Some payload) w)
      as (l0 & Hl0 & Hquiet).
    destruct (Ops.runOrchestrator E ctx t (Some payload) w)
      as [[status'|e] w1] eqn:Hrun; cbn [fst snd] in *;
      [|discriminate Hstatus].
    injection Hstatus as ->.
    unfold same_registry in Hreg.
    assert (Hstep :
              Ops.triggerWebhookTask_loop E ctx final (t :: rest) first w
              = Ops.triggerWebhookTask_loop E ctx final rest
                  (match first with
                   | Some s => Some s
                   | None => Some status
                   end) w1).
    { cbn [Ops.triggerWebhookTask_loop].
      unfold bind at 1. unfold DB.getTask at 1. unfold gets at 1.
      cbv beta iota zeta.
      rewrite (Hstored t (or_introl eq_refl)). cbv beta iota zeta.
      unfold bind at 1.
      assert (Hstate :
                (if truthy_str
                      (Ops.getSourceIdentifier
                         (pluginType (IngestionTaskDefinition.source t))
                         (config (IngestionTaskDefinition.source t)))
                 then DB.getWebhookRegistration
                        (tmpl (Ops.getSourceIdentifier
                                 (pluginType
                                    (IngestionTaskDefinition.source t))
                                 (config
                                    (IngestionTaskDefinition.source t))))
                 else ret None) w
                = (Ok (if truthy_str
                            (Ops.getSourceIdentifier
                               (pluginType (IngestionTaskDefinition.source t))
                               (config (IngestionTaskDefinition.source t)))
                       then JsMap.get
                              (tmpl (Ops.getSourceIdentifier
                                       (pluginType
                                          (IngestionTaskDefinition.source t))
                                       (config
                                          (IngestionTaskDefinition.source t))))
                              (webhookRegistrations w)
                       else None), w)).
      { destruct (truthy_str _); reflexivity. }
      rewrite Hstate. cbv beta iota zeta.
      change (Payload.mk (Some t) _ _ _ _ _ _) with payload.
      unfold bind at 1. rewrite Hrun. reflexivity. }
    rewrite Hstep.
    inversion Hnd as [|x xs Hnotin Hnd' Heq]; subst.
    assert (Hstored1 : forall t', In t' rest ->
              JsMap.get (IngestionTaskDefinition.id t') (tasks w1) = Some t').
    { intros t' Hin. rewrite Hother; [apply Hstored; right; exact Hin|].
      intros Heq. apply Hnotin. rewrite <- Heq. apply in_map. exact Hin. }
    assert (Hok1 : destinations_init_ok w1).
    { unfold destinations_init_ok. rewrite Hplug. exact Hok. }
    destruct (IH (match first with
                  | Some s => Some s
                  | None => Some status
                  end) w1 Hnd' Hstored1 Hok1)
      as (o & Ho & Hfirst & Hreg2 & Hplug2 & l & Hl & Hruns).
    exists o. split; [exact Ho|]. split; [|split; [|split]].
    + destruct first as [s|]; simpl in Hfirst; subst o; reflexivity.
    + rewrite Hreg2. exact Hreg.
    + rewrite Hplug2. exact Hplug.
    + exists (RunOrchestrator (IngestionTaskDefinition.id t) (Some payload)
              :: l0 ++ l).
      split.
      * rewrite Hl, Hl0. rewrite <- app_assoc. reflexivity.
      * cbn [filter is_run map]. rewrite filter_app, (filter_no_run _ Hquiet).
        cbn [app]. rewrite Hruns, Hreg. reflexivity.
Qed.

Lemma keyed_values (ts : JsMap.t Task) :
  keyed_by_id ts ->
  (forall t, In t (JsMap.values ts) ->
             JsMap.get (IngestionTaskDefinition.id t) ts = Some t)
  /\ map IngestionTaskDefinition.id (JsMap.values ts) = JsMap.keys ts.
Proof.
  induction ts as [|[k v] r IH]; intros [Hnd Hid].
  - split; [intros t []|reflexivity].
  - cbn [JsMap.keys map fst] in Hnd.
    inversion Hnd as [|x xs Hnotin Hnd' Heq]; subst.
    assert (Hv : IngestionTaskDefinition.id v = k).
    { apply Hid. simpl. now rewrite String.eqb_refl. }
    assert (Hr : keyed_by_id r).
    { split; [exact Hnd'|]. intros k' t Hget. apply Hid. simpl.
      destruct (String.eqb k' k) eqn:Hk; [|exact Hget].
      apply String.eqb_eq in Hk. subst k'. exfalso. apply Hnotin.
      eapply get_some_in_keys. exact Hget. }
    destruct (IH Hr) as [Hvals Hkeys]. split.
    + intros t [Ht|Ht].
      * simpl in Ht. subst t. rewrite Hv. simpl. now rewrite String.eqb_refl.
      * pose proof (Hvals t Ht) as Hget. simpl.
        destruct (String.eqb (IngestionTaskDefinition.id t) k) eqn:Hk;
          [|exact Hget].
        apply String.eqb_eq in Hk. exfalso. apply Hnotin. rewrite <- Hk.
        eapply get_some_in_keys. exact Hget.
    + cbn [JsMap.values JsMap.keys map fst snd]. rewrite Hv. f_equal.
      exact Hkeys.
Qed.

Lemma NoDup_map_filter A B (f : A -> B) (P : A -> bool) (l : list A) :
  NoDup (map f l) -> NoDup (map f (filter P l)).
Proof.
  induction l as [|a r IH]; simpl; intros H; [constructor|].
  inversion H as [|x xs Hnotin Hnd Heq]; subst.
  destruct (P a); [|auto]. simpl. constructor; [|auto].
  intros Hin. apply Hnotin. apply in_map_iff in Hin.
  destruct Hin as (y & Hy & Hin). apply filter_In in Hin.
  apply in_map_iff. exists y. tauto.
Qed.

(** The dispatch of an accepted request. *)
Lemma triggerWebhookTask_accepted ctx w endpointId raw headers first others
  initial final entry rid :
  keyed_by_id (tasks w) ->
  destinations_init_ok w ->
  tasksMatchingEndpoint endpointId w = first :: others ->
  let service := pluginType (IngestionTaskDefinition.source first) in
  processWebhookRequest E service headers None raw = Ok initial ->
  ProcessedWebhookResult.isValid initial = true ->
  ProcessedWebhookResult.externalResourceId initial = Some rid ->
  JsMap.get rid (webhookRegistrations w) = Some entry ->
  processWebhookRequest E service headers
    (Some (WebhookRegistryEntry.secret entry)) raw = Ok final ->
  ProcessedWebhookResult.isValid final = true ->
  let targets :=
    filter (fun t => Ops.includes (IngestionTaskDefinition.id t)
                       (WebhookRegistryEntry.registeredTasks entry))
           (first :: others) in
  let payload t := webhookPayloadFor final (webhookRegistrations w) t in
  let r := Ops.triggerWebhookTask E ctx endpointId raw headers w in
  filter is_run (new_effects w (snd r))
  = map (fun t => RunOrchestrator (IngestionTaskDefinition.id t)
                    (Some (payload t))) targets
  /\ webhookRegistrations (snd r) = webhookRegistrations w
  /\ match targets with
     | [] =>
         r = (Ok (GSStatus3 true 200
                    ("Webhook registration for resource '" ++ rid
                     ++ "' exists, but no enabled tasks are currently linked to it.")%string),
              w)
     | t :: _ =>
         fst r = fst (Ops.runOrchestrator E ctx t (Some (payload t)) w)
     end.
Proof.
  intros Hkeyed Hok Hmatch service Hinit Hvalid Hrid Hentry Hfinal Hvalid2
    targets payload r. subst payload. cbv beta.
  destruct (@accepted_names_resource E service headers None raw initial Hinit
              Hvalid) as (rid' & Hrid' & Hne).
  rewrite Hrid in Hrid'. injection Hrid' as <-.
  destruct (@accepted_same_resource E service headers None
              (Some (WebhookRegistryEntry.secret entry)) raw initial final
              Hinit Hvalid Hfinal Hvalid2) as (Hsame & _ & _).
  rewrite Hrid in Hsame.
  assert (Hshape :
            r = match targets with
                | [] =>
                    (Ok (GSStatus3 true 200
                           ("Webhook registration for resource '" ++ rid
                            ++ "' exists, but no enabled tasks are currently linked to it.")%string),
                     w)
                | _ :: _ =>
                    try_catch
                      (firstStatus <-
                         Ops.triggerWebhookTask_loop E ctx final targets None ;;
                       match firstStatus with
                       | Some s => ret s
                       | None =>
                           ret (GSStatus3 false 500
                                  "Webhook could not be triggered due to an unknown error.")
                       end)
                      (fun err_message =>
                         ret (GSStatus3 false 500
                                ("Error processing webhook payload: "
                                 ++ err_message)%string)) w
                end).
  { unfold r, Ops.triggerWebhookTask.
    unfold bind at 1. unfold Ops.DB.listAllTasks, gets. cbv beta iota.
    fold (tasksMatchingEndpoint endpointId w). rewrite Hmatch.
    unfold try_catch. unfold bind at 1. cbv zeta. fold service.
    unfold lift at 1. rewrite Hinit. rewrite Hvalid, Hrid.
    apply String.eqb_neq in Hne.
    cbn [negb truthy_str tmpl]. rewrite Hne. cbn [negb].
    unfold bind at 1. unfold Ops.DB.getWebhookRegistration, gets.
    rewrite Hentry. unfold bind at 1. unfold lift at 1.
    rewrite Hfinal. rewrite Hvalid2, Hsame. cbn [negb].
    rewrite String.eqb_refl. cbn [negb]. fold targets.
    destruct targets; reflexivity. }
  assert (Hvals := keyed_values Hkeyed). destruct Hvals as [Hvals Hids].
  assert (Hin : forall t, In t targets ->
                          JsMap.get (IngestionTaskDefinition.id t) (tasks w)
                          = Some t).
  { intros t Ht. apply Hvals. unfold targets in Ht. rewrite <- Hmatch in Ht.
    apply filter_In in Ht. destruct Ht as [Ht _].
    unfold tasksMatchingEndpoint in Ht. apply filter_In in Ht. tauto. }
  assert (Hnd : NoDup (map IngestionTaskDefinition.id targets)).
  { unfold targets. rewrite <- Hmatch. apply NoDup_map_filter.
    unfold tasksMatchingEndpoint. apply NoDup_map_filter.
    rewrite Hids. apply Hkeyed. }
  destruct (@triggerWebhookTask_loop_spec ctx final targets None w Hnd Hin
              Hok) as (o & Ho & Hfirst & Hreg & _ & l & Hl & Hruns).
  rewrite Hshape. clear Hshape.
  destruct targets as [|t rest] eqn:Htargets.
  - cbn [snd map]. split; [|split; reflexivity].
    unfold new_effects. rewrite skipn_all. reflexivity.
  - destruct (@runOrchestrator_returns ctx t
                (Some (webhookPayloadFor final (webhookRegistrations w) t)) w
                Hok)
      as [st Hst].
    rewrite Hst in Hfirst.
    destruct o as [s|]; [injection Hfirst as <-|discriminate Hfirst].
    unfold try_catch, bind.
    destruct (Ops.triggerWebhookTask_loop E ctx final (t :: rest) None w)
      as [[o'|e] w1]; cbn [fst snd] in *; [|discriminate Ho].
    injection Ho as ->. unfold ret. cbn [fst snd].
    split; [|split; [exact Hreg | symmetry; exact Hst]].
    erewrite new_effects_app by exact Hl. exact Hruns.
Qed.

(** An accepted request runs exactly the tasks it is for.  On a store that
    holds each task under its own id, with destinations whose [init] does
    not throw: when the request is accepted without a secret, its resource
    has a registry entry and it is accepted again under the secret of that
    entry, the orchestrator is run once for each enabled webhook task of the
    endpoint that the entry lists, in the order of the store and for no
    other task; each run gets the parsed payload, the resource id, the
    change type and the cursors of the registry entry of the task's source;
    the registry is not changed; and the answer is the status of the first
    of these runs, whatever the later ones give. *)
Theorem triggerWebhookTask_runs_registered_tasks (ctx : GSContext)
  (w : World) (endpointId : string) (raw : jsval) (headers : Headers)
  (first : Task) (others : list Task)
  (initial final : ProcessedWebhookResult.t) (entry : Entry) (rid : string) :
  keyed_by_id (tasks w) ->
  destinations_init_ok w ->
  tasksMatchingEndpoint endpointId w = first :: others ->
  let service := pluginType (IngestionTaskDefinition.source first) in
  processWebhookRequest E service headers None raw = Ok initial ->
  ProcessedWebhookResult.isValid initial = true ->
  ProcessedWebhookResult.externalResourceId initial = Some rid ->
  JsMap.get rid (webhookRegistrations w) = Some entry ->
  processWebhookRequest E service headers
    (Some (WebhookRegistryEntry.secret entry)) raw = Ok final ->
  ProcessedWebhookResult.isValid final = true ->
  let targets :=
    filter (fun t => Ops.includes (IngestionTaskDefinition.id t)
                       (WebhookRegistryEntry.registeredTasks entry))
           (first :: others) in
  let payload t := webhookPayloadFor final (webhookRegistrations w) t in
  let r := Ops.triggerWebhookTask E ctx endpointId raw headers w in
  filter is_run (new_effects w (snd r))
  = map (fun t => RunOrchestrator (IngestionTaskDefinition.id t)
                    (Some (payload t))) targets
  /\ webhookRegistrations (snd r) = webhookRegistrations w
  /\ match targets with
     | [] =>
         r = (Ok (GSStatus3 true 200
                    ("Webhook registration for resource '" ++ rid
                     ++ "' exists, but no enabled tasks are currently linked to it.")%string),
              w)
     | t :: _ =>
         fst r = fst (Ops.runOrchestrator E ctx t (Some (payload t)) w)
     end.
Proof. intros. eapply triggerWebhookTask_accepted; eauto. Qed.

(** Requests that reach no task change nothing.  With no enabled webhook
    task on the endpoint the answer is 404; with a request that is accepted
    without a secret but whose resource has no registry entry, the answer is
    a success (200) that names the resource.  Either way the world is left
    as it was. *)
Theorem triggerWebhookTask_without_target (ctx : GSContext) (w : World)
  (endpointId : string) (raw : jsval) (headers : Headers) :
  (tasksMatchingEndpoint endpointId w = [] ->
   Ops.triggerWebhookTask E ctx endpointId raw headers w
   = (Ok (GSStatus3 false 404
            ("(from trg webhook)No enabled tasks found for webhook endpoint ID: "
             ++ endpointId ++ ".")%string), w))
  /\ (forall first others initial rid,
        tasksMatchingEndpoint endpointId w = first :: others ->
        processWebhookRequest E
          (pluginType (IngestionTaskDefinition.source first)) headers None raw
        = Ok initial ->
        ProcessedWebhookResult.isValid initial = true ->
        ProcessedWebhookResult.externalResourceId initial = Some rid ->
        JsMap.get rid (webhookRegistrations w) = None ->
        Ops.triggerWebhookTask E ctx endpointId raw headers w
        = (Ok (GSStatus3 true 200
                 ("No webhook registration found for resource '" ++ rid
                  ++ "' linked to endpoint '" ++ endpointId ++ "'.")%string),
           w)).
Proof.
  split.
  - intros Hmatch. unfold Ops.triggerWebhookTask.
    unfold bind at 1. unfold Ops.DB.listAllTasks, gets. cbv beta iota.
    fold (tasksMatchingEndpoint endpointId w). rewrite Hmatch. reflexivity.
  - intros first others initial rid Hmatch Hinit Hvalid Hrid Hentry.
    destruct (@accepted_names_resource E _ headers None raw initial Hinit
                Hvalid) as (rid' & Hrid' & Hne).
    rewrite Hrid in Hrid'. injection Hrid' as <-.
    unfold Ops.triggerWebhookTask.
    unfold bind at 1. unfold Ops.DB.listAllTasks, gets. cbv beta iota.
    fold (tasksMatchingEndpoint endpointId w). rewrite Hmatch.
    unfold try_catch. unfold bind at 1. cbv zeta.
    unfold lift at 1. rewrite Hinit. rewrite Hvalid, Hrid.
    apply String.eqb_neq in Hne.
    cbn [negb truthy_str tmpl]. rewrite Hne. cbn [negb].
    unfold bind at 1. unfold Ops.DB.getWebhookRegistration, gets.
    rewrite Hentry. reflexivity.
Qed.

End Dispatch.
(** A push request of the small platform, signed under ["s3cr3t"]. *)
Lemma git_request_accepted_iff_witness :
  let headers :=
    [("x-github-event", "push");
     ("x-hub-signature-256",
      ("sha256=" ++ Toy.hmac "s3cr3t" Toy.pushBody)%string)] in
  processWebhookRequest (Toy.env true) "git-crawler" headers (Some "s3cr3t")
    (JStr Toy.pushBody)
  = Ok (ProcessedWebhookResult.mk true Toy.pushPayload
          (Some "https://github.com/ex/r") (Some UPSERT) None)
  /\ ProcessedWebhookResult.isValid
       (ProcessedWebhookResult.mk true Toy.pushPayload
          (Some "https://github.com/ex/r") (Some UPSERT) None) = true.
Proof.
  cbv zeta.
  apply (proj2 (@git_request_accepted_iff (Toy.env true)
                  [("x-github-event", "push");
                   ("x-hub-signature-256",
                    ("sha256=" ++ Toy.hmac "s3cr3t" Toy.pushBody)%string)]
                  (Some "s3cr3t") (JStr Toy.pushBody)
                  (ProcessedWebhookResult.mk true Toy.pushPayload
                     (Some "https://github.com/ex/r") (Some UPSERT) None))).
  exists Toy.pushBody, Toy.pushPayload.
  split; [reflexivity|]. split; [reflexivity|]. split; [reflexivity|].
  split; [|reflexivity].
  right. exists "s3cr3t"%string,
    ("sha256=" ++ Toy.hmac "s3cr3t" Toy.pushBody)%string, [].
  split; [reflexivity|]. split; reflexivity.
Defined.

(** A Drive notification on the channel ["tok"] for the folder ["f1"]. *)
Lemma drive_request_accepted_iff_witness :
  let headers :=
    [("x-goog-channel-id", "tok");
     ("x-goog-resource-state", "update");
     ("x-goog-resource-uri", ToyDrive.resourceUri)] in
  exists r,
    processWebhookRequest ToyDrive.env "googledrive-crawler" headers
      (Some "tok") (JStr EmptyString) = Ok r
    /\ ProcessedWebhookResult.isValid r = true
    /\ ProcessedWebhookResult.externalResourceId r = Some "f1"%string
    /\ ProcessedWebhookResult.changeType r = Some UPSERT.
Proof.
  cbv zeta.
  destruct (@drive_request_accepted_iff ToyDrive.env
              [("x-goog-channel-id", "tok");
               ("x-goog-resource-state", "update");
               ("x-goog-resource-uri", ToyDrive.resourceUri)]
              (Some "tok") (JStr EmptyString))
    as (r & Hrun & Hiff & Hfields).
  assert (Hvalid : ProcessedWebhookResult.isValid r = true).
  { apply Hiff. split; [discriminate|]. split; [right; reflexivity|].
    reflexivity. }
  exists r. split; [exact Hrun|]. split; [exact Hvalid|].
  destruct (Hfields Hvalid) as (H1 & H2 & _). split; [exact H1 | exact H2].
Defined.

Lemma accepted_request_names_resource_witness :
  exists rid,
    ProcessedWebhookResult.externalResourceId
      (ProcessedWebhookResult.mk true Toy.pushPayload
         (Some "https://github.com/ex/r") (Some UPSERT) None) = Some rid
    /\ rid <> EmptyString.
Proof.
  exact (@accepted_request_names_resource (Toy.env true) "git-crawler"
           [("x-github-event", "push")] None (JStr Toy.pushBody)
           (ProcessedWebhookResult.mk true Toy.pushPayload
              (Some "https://github.com/ex/r") (Some UPSERT) None)
           eq_refl eq_refl).
Defined.

Lemma accepted_request_same_under_any_secret_witness :
  let headers :=
    [("x-github-event", "push");
     ("x-hub-signature-256",
      ("sha256=" ++ Toy.hmac "s3cr3t" Toy.pushBody)%string)] in
  let r := ProcessedWebhookResult.mk true Toy.pushPayload
             (Some "https://github.com/ex/r") (Some UPSERT) None in
  processWebhookRequest (Toy.env true) "git-crawler" headers None
    (JStr Toy.pushBody) = Ok r
  /\ processWebhookRequest (Toy.env true) "git-crawler" headers
       (Some "s3cr3t") (JStr Toy.pushBody) = Ok r
  /\ ProcessedWebhookResult.externalResourceId r
     = ProcessedWebhookResult.externalResourceId r.
Proof.
  cbv zeta. split; [reflexivity|]. split; [reflexivity|].
  exact (proj1 (@accepted_request_same_under_any_secret (Toy.env true)
                  "git-crawler"
                  [("x-github-event", "push");
                   ("x-hub-signature-256",
                    ("sha256=" ++ Toy.hmac "s3cr3t" Toy.pushBody)%string)]
                  None (Some "s3cr3t") (JStr Toy.pushBody)
                  (ProcessedWebhookResult.mk true Toy.pushPayload
                     (Some "https://github.com/ex/r") (Some UPSERT) None)
                  (ProcessedWebhookResult.mk true Toy.pushPayload
                     (Some "https://github.com/ex/r") (Some UPSERT) None)
                  eq_refl eq_refl eq_refl eq_refl)).
Defined.

Lemma toy_destinations_init_ok ts reg : destinations_init_ok (Toy.world ts reg).
Proof.
  intros name dp Hget h c. simpl in Hget.
  destruct (name =? "file-system-destination")%string; [|discriminate Hget].
  injection Hget as <-. exists tt. reflexivity.
Qed.

Lemma keyed_by_id_pair (a b : Task) :
  IngestionTaskDefinition.id a <> IngestionTaskDefinition.id b ->
  keyed_by_id [(IngestionTaskDefinition.id a, a);
               (IngestionTaskDefinition.id b, b)].
Proof.
  intros Hne. split.
  - simpl. constructor; [|constructor; [intros []|constructor]].
    intros [H|[]]. auto.
  - intros k t. simpl.
    destruct (k =? IngestionTaskDefinition.id a)%string eqn:Ha.
    + intros H. injection H as <-. apply String.eqb_eq in Ha. auto.
    + destruct (k =? IngestionTaskDefinition.id b)%string eqn:Hb;
        [|discriminate].
      intros H. injection H as <-. apply String.eqb_eq in Hb. auto.
Qed.

(** Two tasks on the endpoint, one of them listed by the entry of the
    repository: a signed push runs that one, with the cursors of the entry. *)
Lemma triggerWebhookTask_runs_registered_tasks_witness :
  let g1 := Toy.task "g1" Toy.gitRepo Toy.hooked in
  let g2 := Toy.task "g2" Toy.gitRepo Toy.hooked in
  let w := Toy.world [("g1", g1); ("g2", g2)]
             [("https://github.com/ex/r", Toy.entry ["g2"])] in
  let headers :=
    [("x-github-event", "push");
     ("x-hub-signature-256",
      ("sha256=" ++ Toy.hmac "s3cr3t" Toy.pushBody)%string)] in
  let final := ProcessedWebhookResult.mk true Toy.pushPayload
                 (Some "https://github.com/ex/r") (Some UPSERT) None in
  let r := Ops.triggerWebhookTask (Toy.env true) (mkGSContext None) "/gh"
             (JStr Toy.pushBody) headers w in
  filter is_run (new_effects w (snd r))
  = [RunOrchestrator "g2"
       (Some (Payload.mk (Some g2) Toy.pushPayload
                (Some "https://github.com/ex/r") (Some UPSERT) (JStr "t0")
                (JStr "n1") JUndef))].
Proof.
  cbv zeta.
  exact (proj1
           (@triggerWebhookTask_runs_registered_tasks (Toy.env true)
              (mkGSContext None)
              (Toy.world [("g1", Toy.task "g1" Toy.gitRepo Toy.hooked);
                          ("g2", Toy.task "g2" Toy.gitRepo Toy.hooked)]
                 [("https://github.com/ex/r", Toy.entry ["g2"])])
              "/gh" (JStr Toy.pushBody)
              [("x-github-event", "push");
               ("x-hub-signature-256",
                ("sha256=" ++ Toy.hmac "s3cr3t" Toy.pushBody)%string)]
              (Toy.task "g1" Toy.gitRepo Toy.hooked)
              [Toy.task "g2" Toy.gitRepo Toy.hooked]
              (ProcessedWebhookResult.mk true Toy.pushPayload
                 (Some "https://github.com/ex/r") (Some UPSERT) None)
              (ProcessedWebhookResult.mk true Toy.pushPayload
                 (Some "https://github.com/ex/r") (Some UPSERT) None)
              (Toy.entry ["g2"]) "https://github.com/ex/r"
              (@keyed_by_id_pair (Toy.task "g1" Toy.gitRepo Toy.hooked)
                 (Toy.task "g2" Toy.gitRepo Toy.hooked)
                 ltac:(discriminate))
              (toy_destinations_init_ok _ _)
              eq_refl eq_refl eq_refl eq_refl eq_refl eq_refl eq_refl)).
Defined.

Lemma triggerWebhookTask_without_target_witness :
  let w := Toy.world [("g1", Toy.task "g1" Toy.gitRepo Toy.hooked)] [] in
  Ops.triggerWebhookTask (Toy.env true) (mkGSContext None) "/nope"
    (JStr Toy.pushBody) [("x-github-event", "push")] w
  = (Ok (GSStatus3 false 404
           "(from trg webhook)No enabled tasks found for webhook endpoint ID: /nope."),
     w)
  /\ Ops.triggerWebhookTask (Toy.env true) (mkGSContext None) "/gh"
       (JStr Toy.pushBody) [("x-github-event", "push")] w
     = (Ok (GSStatus3 true 200
              "No webhook registration found for resource 'https://github.com/ex/r' linked to endpoint '/gh'."),
        w).
Proof.
  cbv zeta. split.
  - exact (proj1 (@triggerWebhookTask_without_target (Toy.env true)
                    (mkGSContext None)
                    (Toy.world [("g1", Toy.task "g1" Toy.gitRepo Toy.hooked)]
                       [])
                    "/nope" (JStr Toy.pushBody) [("x-github-event", "push")])
             eq_refl).
  - exact (proj2 (@triggerWebhookTask_without_target (Toy.env true)
                    (mkGSContext None)
                    (Toy.world [("g1", Toy.task "g1" Toy.gitRepo Toy.hooked)]
                       [])
                    "/gh" (JStr Toy.pushBody) [("x-github-event", "push")])
             (Toy.task "g1" Toy.gitRepo Toy.hooked) []
             (ProcessedWebhookResult.mk true Toy.pushPayload
                (Some "https://github.com/ex/r") (Some UPSERT) None)
             "https://github.com/ex/r" eq_refl eq_refl eq_refl eq_refl
             eq_refl).
Defined.
(* ------------------------------------------------------------------ *)
(** ** Registering a webhook *)

Section Register.
Variable E : Env.

Lemma includes_last x l : Ops.includes x (l ++ [x]) = true.
Proof.
  unfold Ops.includes. rewrite existsb_app. simpl.
  rewrite String.eqb_refl. now rewrite orb_true_r.
Qed.

Lemma with_webhook_ids_twice tr a b :
  Ops.with_webhook_ids (Ops.with_webhook_ids tr a b) a b
  = Ops.with_webhook_ids tr a b.
Proof. destruct tr; reflexivity. Qed.

Lemma set_tasks_same (w : World) (f : JsMap.t Task -> JsMap.t Task) :
  f (tasks w) = tasks w -> set_tasks f w = w.
Proof. destruct w. unfold set_tasks. simpl. intros ->. reflexivity. Qed.

(** A task whose source already has an entry joins it. *)
Lemma registerWebhook_join (task : Task) (w : World) (sid : string)
  (e : Entry) :
  Ops.getSourceIdentifier (pluginType (IngestionTaskDefinition.source task))
    (config (IngestionTaskDefinition.source task)) = Some sid ->
  sid <> EmptyString ->
  JsMap.get sid (webhookRegistrations w) = Some e ->
  let id := IngestionTaskDefinition.id task in
  Ops.registerWebhook E task w
  = (Ok (GSStatus3 true 200
           ("Task associated with existing webhook for '" ++ sid
            ++ "'.")%string),
     set_tasks
       (JsMap.modify id
          (fun t => IngestionTaskDefinition.assign t
                      (joined_update (IngestionTaskDefinition.trigger task) e)))
       (if Ops.includes id (WebhookRegistryEntry.registeredTasks e)
        then w
        else set_webhookRegistrations
               (JsMap.modify sid
                  (fun e0 => WebhookRegistryEntry.assign e0
                     [WebhookRegistryEntry.RegisteredTasks
                        (WebhookRegistryEntry.registeredTasks e ++ [id]);
                      WebhookRegistryEntry.WebhookFlag true])) w)).
Proof.
  intros Hsid Hne He id. subst id.
  unfold Ops.registerWebhook. rewrite Hsid.
  apply String.eqb_neq in Hne. rewrite Hne.
  unfold try_catch. unfold bind at 1.
  unfold DB.getWebhookRegistration at 1. unfold gets at 1.
  cbv beta iota zeta. rewrite He. cbv beta iota zeta.
  destruct (Ops.includes _ _); reflexivity.
Qed.

(** A failed registration leaves no trace in the stores: [registerWebhook]
    never throws, and when it answers a failure (400 or 500) the task store
    and the registry are what they were. *)
Theorem registerWebhook_failure_changes_nothing (task : Task) (w : World) :
  let r := Ops.registerWebhook E task w in
  exists st,
    fst r = Ok st
    /\ (success st = false ->
        tasks (snd r) = tasks w
        /\ webhookRegistrations (snd r) = webhookRegistrations w
        /\ (code st = Some 400 \/ code st = Some 500)).
Proof.
  intros r. subst r.
  destruct (@registerWebhook_total E task w) as [st Hst].
  destruct (Ops.registerWebhook E task w) as [[st'|e] w'] eqn:Hrun;
    cbn [fst snd] in *; [|discriminate Hst].
  injection Hst as ->. exists st. split; [reflexivity|]. intros Hfail.
  destruct (@registerWebhook_outcome E task w st w' Hrun)
    as [H | [(sid & e & _ & _ & _ & Hs & _)
            | (sid & res & reg & _ & _ & _ & Hs & _)]];
    [tauto | rewrite Hs in Hfail; discriminate
    | rewrite Hs in Hfail; discriminate].
Qed.

(** A task whose source already has a registry entry joins it without a
    call to the provider: the answer is a success, the entry lists the task
    (once more only if it did not list it), its secret and external id are
    kept and are written to the trigger of the stored task, and no other
    entry is touched. *)
Theorem registerWebhook_joins_existing_entry (task : Task) (w : World)
  (sid : string) (e : Entry) (wt : WebhookTrigger.t) (stored : Task) :
  Ops.getSourceIdentifier (pluginType (IngestionTaskDefinition.source task))
    (config (IngestionTaskDefinition.source task)) = Some sid ->
  sid <> EmptyString ->
  JsMap.get sid (webhookRegistrations w) = Some e ->
  IngestionTaskDefinition.trigger task = Webhook wt ->
  JsMap.get (IngestionTaskDefinition.id task) (tasks w) = Some stored ->
  let id := IngestionTaskDefinition.id task in
  let r := Ops.registerWebhook E task w in
  fst r = Ok (GSStatus3 true 200
                ("Task associated with existing webhook for '" ++ sid
                 ++ "'.")%string)
  /\ new_effects w (snd r) = []
  /\ (exists e',
        JsMap.get sid (webhookRegistrations (snd r)) = Some e'
        /\ WebhookRegistryEntry.registeredTasks e'
           = (if Ops.includes id (WebhookRegistryEntry.registeredTasks e)
              then WebhookRegistryEntry.registeredTasks e
              else WebhookRegistryEntry.registeredTasks e ++ [id])
        /\ WebhookRegistryEntry.secret e' = WebhookRegistryEntry.secret e
        /\ WebhookRegistryEntry.externalWebhookId e'
           = WebhookRegistryEntry.externalWebhookId e)
  /\ (forall k, k <> sid ->
        JsMap.get k (webhookRegistrations (snd r))
        = JsMap.get k (webhookRegistrations w))
  /\ exists t',
       JsMap.get id (tasks (snd r)) = Some t'
       /\ Ops.as_secret (IngestionTaskDefinition.trigger t')
          = Some (WebhookRegistryEntry.secret e)
       /\ Ops.as_externalWebhookId (IngestionTaskDefinition.trigger t')
          = Some (WebhookRegistryEntry.externalWebhookId e).
Proof.
  intros Hsid Hne He Htr Hstored id r. subst r id.
  rewrite (@registerWebhook_join task w sid e Hsid Hne He). cbv zeta.
  cbn [fst snd]. split; [reflexivity|].
  destruct (Ops.includes _ _) eqn:Hinc.
  - split; [unfold new_effects; cbn [history set_tasks];
            apply skipn_all|].
    split; [exists e; cbn [webhookRegistrations set_tasks]; auto|].
    split; [reflexivity|].
    eexists. cbn [tasks set_tasks].
    rewrite get_modify_eq, Hstored. split; [reflexivity|].
    rewrite Htr. destruct stored; split; reflexivity.
  - split; [unfold new_effects;
            cbn [history set_tasks set_webhookRegistrations];
            apply skipn_all|].
    split.
    { eexists. cbn [webhookRegistrations set_tasks set_webhookRegistrations].
      rewrite get_modify_eq, He. split; [reflexivity|].
      destruct e; repeat split. }
    split.
    { intros k Hk.
      cbn [webhookRegistrations set_tasks set_webhookRegistrations].
      apply get_modify_neq. exact Hk. }
    eexists. cbn [tasks set_tasks set_webhookRegistrations].
    rewrite get_modify_eq, Hstored. split; [reflexivity|].
    rewrite Htr. destruct stored; split; reflexivity.
Qed.

(** Registering twice is registering once.  When [registerWebhook]
    succeeded for a task stored under its id, calling it again on the task
    as it is now stored succeeds and leaves the world exactly as it is: no
    provider call, no second listing of the task, no change to the task. *)
Theorem registerWebhook_again_changes_nothing (task : Task) (w : World)
  (st : GSStatus) (w1 : World) :
  JsMap.get (IngestionTaskDefinition.id task) (tasks w) = Some task ->
  Ops.registerWebhook E task w = (Ok st, w1) ->
  success st = true ->
  exists task1 st2,
    JsMap.get (IngestionTaskDefinition.id task) (tasks w1) = Some task1
    /\ Ops.registerWebhook E task1 w1 = (Ok st2, w1)
    /\ success st2 = true.
Proof.
  intros Hstored Hrun Hok.
  assert (Hagain : forall sid e1 updates,
            Ops.getSourceIdentifier
              (pluginType (IngestionTaskDefinition.source task))
              (config (IngestionTaskDefinition.source task)) = Some sid ->
            (sid =? EmptyString)%string = false ->
            JsMap.get sid (webhookRegistrations w1) = Some e1 ->
            Ops.includes (IngestionTaskDefinition.id task)
              (WebhookRegistryEntry.registeredTasks e1) = true ->
            tasks w1
            = JsMap.modify (IngestionTaskDefinition.id task)
                (fun t => IngestionTaskDefinition.assign t updates) (tasks w) ->
            IngestionTaskDefinition.id
              (IngestionTaskDefinition.assign task updates)
            = IngestionTaskDefinition.id task ->
            IngestionTaskDefinition.source
              (IngestionTaskDefinition.assign task updates)
            = IngestionTaskDefinition.source task ->
            IngestionTaskDefinition.trigger
              (IngestionTaskDefinition.assign task updates)
            = Ops.with_webhook_ids (IngestionTaskDefinition.trigger task)
                (WebhookRegistryEntry.externalWebhookId e1)
                (WebhookRegistryEntry.secret e1) ->
            exists task1 st2,
              JsMap.get (IngestionTaskDefinition.id task) (tasks w1)
              = Some task1
              /\ Ops.registerWebhook E task1 w1 = (Ok st2, w1)
              /\ success st2 = true).
  { intros sid e1 updates Hsid Hne He1 Hinc Htasks Hid Hsrc Htr.
    set (task1 := IngestionTaskDefinition.assign task updates).
    assert (Hget1 : JsMap.get (IngestionTaskDefinition.id task) (tasks w1)
                    = Some task1).
    { rewrite Htasks, get_modify_eq, Hstored. reflexivity. }
    exists task1. eexists. split; [exact Hget1|].
    apply String.eqb_neq in Hne.
    assert (Hsid1 : Ops.getSourceIdentifier
                      (pluginType (IngestionTaskDefinition.source task1))
                      (config (IngestionTaskDefinition.source task1))
                    = Some sid)
      by (unfold task1; rewrite Hsrc; exact Hsid).
    rewrite (@registerWebhook_join task1 w1 sid e1 Hsid1 Hne He1).
    cbv zeta. fold task1 in Hid, Htr. rewrite Hid, Hinc.
    split; [apply f_equal2; [reflexivity|] | reflexivity].
    apply set_tasks_same.
    erewrite modify_some by exact Hget1.
    apply set_same. rewrite Hget1. f_equal.
    unfold joined_update. rewrite Htr, with_webhook_ids_twice.
    rewrite <- Htr. destruct task1; reflexivity. }
  destruct (@registerWebhook_outcome E task w st w1 Hrun)
    as [(Hs & _) | [(sid & e & Hsid & Hne & He & _ & _ & Htasks & Hreg)
                   | (sid & res & reg & Hsid & Hne & He & _ & _ & _ & _ & _
                      & Hreg & Htasks)]].
  - rewrite Hs in Hok. discriminate.
  - destruct (Ops.includes (IngestionTaskDefinition.id task)
                (WebhookRegistryEntry.registeredTasks e)) eqn:Hinc.
    + apply (Hagain sid e
               (joined_update (IngestionTaskDefinition.trigger task) e));
        [ exact Hsid | exact Hne | rewrite Hreg; exact He | exact Hinc
        | exact Htasks | destruct task; reflexivity
        | destruct task; reflexivity | destruct task; reflexivity ].
    + apply (Hagain sid
               (WebhookRegistryEntry.assign e
                  [WebhookRegistryEntry.RegisteredTasks
                     (WebhookRegistryEntry.registeredTasks e
                      ++ [IngestionTaskDefinition.id task]);
                   WebhookRegistryEntry.WebhookFlag true])
               (joined_update (IngestionTaskDefinition.trigger task) e));
        [ exact Hsid | exact Hne
        | rewrite Hreg, get_modify_eq, He; reflexivity
        | destruct e; apply includes_last
        | exact Htasks | destruct task; reflexivity
        | destruct task; reflexivity | destruct task, e; reflexivity ].
  - apply (Hagain sid (newEntry E task sid reg w)
             (created_update (IngestionTaskDefinition.trigger task)
                (newEntry E task sid reg w)));
      [ exact Hsid | exact Hne | rewrite Hreg; apply get_set_eq
      | unfold newEntry, Ops.includes; simpl; now rewrite String.eqb_refl
      | exact Htasks | destruct task; reflexivity
      | destruct task; reflexivity | destruct task; reflexivity ].
Qed.

(** A new subscription has one secret.  When the source has no entry yet
    and [registerWebhook] succeeds, the provider was called exactly once,
    and the secret passed to it is the secret stored in the new entry and
    on the trigger of the stored task; the new entry lists only this task
    and no other entry is touched. *)
Theorem registerWebhook_new_subscription_one_secret (task : Task)
  (w : World) (st : GSStatus) (w' : World) (sid : string)
  (wt : WebhookTrigger.t) (stored : Task) :
  let id := IngestionTaskDefinition.id task in
  let pt := pluginType (IngestionTaskDefinition.source task) in
  Ops.registerWebhook E task w = (Ok st, w') ->
  success st = true ->
  Ops.getSourceIdentifier pt (config (IngestionTaskDefinition.source task))
  = Some sid ->
  JsMap.get sid (webhookRegistrations w) = None ->
  IngestionTaskDefinition.trigger task = Webhook wt ->
  JsMap.get id (tasks w) = Some stored ->
  exists resource e',
    new_effects w w'
    = [ProviderRegister pt resource (WebhookTrigger.callbackurl wt)
         (WebhookRegistryEntry.secret e')]
    /\ JsMap.get sid (webhookRegistrations w') = Some e'
    /\ WebhookRegistryEntry.registeredTasks e' = [id]
    /\ (forall k, k <> sid ->
          JsMap.get k (webhookRegistrations w')
          = JsMap.get k (webhookRegistrations w))
    /\ exists t',
         JsMap.get id (tasks w') = Some t'
         /\ Ops.as_secret (IngestionTaskDefinition.trigger t')
            = Some (WebhookRegistryEntry.secret e')
         /\ Ops.as_externalWebhookId (IngestionTaskDefinition.trigger t')
            = Some (WebhookRegistryEntry.externalWebhookId e').
Proof.
  intros id pt Hrun Hok Hsid Hnone Htr Hstored. subst id pt.
  destruct (@registerWebhook_outcome E task w st w' Hrun)
    as [(Hs & _) | [(sid' & e & Hsid' & _ & He & _)
                   | (sid' & res & reg & Hsid' & _ & _ & _ & _ & _ & _
                      & Hhist & Hreg & Htasks)]].
  - rewrite Hs in Hok. discriminate.
  - rewrite Hsid in Hsid'. injection Hsid' as <-.
    rewrite Hnone in He. discriminate.
  - rewrite Hsid in Hsid'. injection Hsid' as <-.
    exists res, (newEntry E task sid reg w).
    split.
    { unfold new_effects. rewrite Hhist.
      rewrite skipn_app, skipn_all, Nat.sub_diag. rewrite Htr. reflexivity. }
    split; [rewrite Hreg; apply get_set_eq|].
    split; [reflexivity|].
    split; [intros k Hk; rewrite Hreg; apply get_set_neq; exact Hk|].
    eexists. rewrite Htasks, get_modify_eq, Hstored.
    split; [reflexivity|].
    rewrite Htr. destruct stored; split; reflexivity.
Qed.

End Register.
(** A second task on a repository that already has its webhook. *)
Lemma registerWebhook_joins_existing_entry_witness :
  let t := Toy.task "g2" Toy.gitRepo Toy.hook in
  let w := Toy.world [("g1", Toy.task "g1" Toy.gitRepo Toy.hooked); ("g2", t)]
             [("https://github.com/ex/r", Toy.entry ["g1"])] in
  let r := Ops.registerWebhook (Toy.env true) t w in
  fst r = Ok (GSStatus3 true 200
                "Task associated with existing webhook for 'https://github.com/ex/r'.")
  /\ new_effects w (snd r) = []
  /\ JsMap.get "https://github.com/ex/r" (webhookRegistrations (snd r))
     = Some (Toy.entry ["g1"; "g2"])
  /\ option_map IngestionTaskDefinition.trigger
       (JsMap.get "g2" (tasks (snd r)))
     = Some Toy.hooked.
Proof.
  cbv zeta.
  destruct (@registerWebhook_joins_existing_entry (Toy.env true)
              (Toy.task "g2" Toy.gitRepo Toy.hook)
              (Toy.world [("g1", Toy.task "g1" Toy.gitRepo Toy.hooked);
                          ("g2", Toy.task "g2" Toy.gitRepo Toy.hook)]
                 [("https://github.com/ex/r", Toy.entry ["g1"])])
              "https://github.com/ex/r" (Toy.entry ["g1"])
              (WebhookTrigger.mk "/gh" "https://cb.example/gh" (JStr "pat")
                 None None)
              (Toy.task "g2" Toy.gitRepo Toy.hook)
              eq_refl ltac:(discriminate) eq_refl eq_refl eq_refl)
    as (H1 & H2 & _).
  split; [exact H1|]. split; [exact H2|]. split; reflexivity.
Defined.

(** The first webhook task of a repository, registered twice. *)
Lemma registerWebhook_again_changes_nothing_witness :
  let t := Toy.task "g1" Toy.gitRepo Toy.hook in
  let w := Toy.world [("g1", t)] [] in
  let w1 := snd (Ops.registerWebhook (Toy.env true) t w) in
  exists task1 st2,
    JsMap.get "g1" (tasks w1) = Some task1
    /\ Ops.registerWebhook (Toy.env true) task1 w1 = (Ok st2, w1)
    /\ success st2 = true.
Proof.
  cbv zeta.
  exact (@registerWebhook_again_changes_nothing (Toy.env true)
           (Toy.task "g1" Toy.gitRepo Toy.hook)
           (Toy.world [("g1", Toy.task "g1" Toy.gitRepo Toy.hook)] [])
           (GSStatus3 true 200
              "Webhook registered successfully for 'https://github.com/ex/r'.")
           (snd (Ops.registerWebhook (Toy.env true)
                   (Toy.task "g1" Toy.gitRepo Toy.hook)
                   (Toy.world [("g1", Toy.task "g1" Toy.gitRepo Toy.hook)]
                      [])))
           eq_refl eq_refl eq_refl).
Defined.

(** The first webhook task of a repository: one call to the provider, one
    secret. *)
Lemma registerWebhook_new_subscription_one_secret_witness :
  let t := Toy.task "g1" Toy.gitRepo Toy.hook in
  let w := Toy.world [("g1", t)] [] in
  let w' := snd (Ops.registerWebhook (Toy.env true) t w) in
  exists resource e',
    new_effects w w'
    = [ProviderRegister "git-crawler" resource "https://cb.example/gh"
         (WebhookRegistryEntry.secret e')]
    /\ JsMap.get "https://github.com/ex/r" (webhookRegistrations w') = Some e'
    /\ WebhookRegistryEntry.registeredTasks e' = ["g1"]
    /\ (forall k, k <> "https://github.com/ex/r"%string ->
          JsMap.get k (webhookRegistrations w')
          = JsMap.get k (webhookRegistrations w))
    /\ exists t',
         JsMap.get "g1" (tasks w') = Some t'
         /\ Ops.as_secret (IngestionTaskDefinition.trigger t')
            = Some (WebhookRegistryEntry.secret e')
         /\ Ops.as_externalWebhookId (IngestionTaskDefinition.trigger t')
            = Some (WebhookRegistryEntry.externalWebhookId e').
Proof.
  cbv zeta.
  exact (@registerWebhook_new_subscription_one_secret (Toy.env true)
           (Toy.task "g1" Toy.gitRepo Toy.hook)
           (Toy.world [("g1", Toy.task "g1" Toy.gitRepo Toy.hook)] [])
           (GSStatus3 true 200
              "Webhook registered successfully for 'https://github.com/ex/r'.")
           (snd (Ops.registerWebhook (Toy.env true)
                   (Toy.task "g1" Toy.gitRepo Toy.hook)
                   (Toy.world [("g1", Toy.task "g1" Toy.gitRepo Toy.hook)]
                      []))) "https://github.com/ex/r"
           (WebhookTrigger.mk "/gh" "https://cb.example/gh" (JStr "pat")
              None None)
           (Toy.task "g1" Toy.gitRepo Toy.hook)
           eq_refl eq_refl eq_refl eq_refl eq_refl eq_refl).
Defined.
(* ------------------------------------------------------------------ *)
(** ** Start-up and the cron sweep *)

Section Start.
Variable E : Env.

Lemma same_subscription_refl t : same_subscription t t.
Proof. repeat split. Qed.

Lemma same_subscription_trans t1 t2 t3 :
  same_subscription t1 t2 -> same_subscription t2 t3 ->
  same_subscription t1 t3.
Proof.
  intros (A1 & A2 & A3 & A4) (B1 & B2 & B3 & B4).
  repeat split; congruence.
Qed.

Lemma tasks_keep_refl w : tasks_keep w w.
Proof.
  intros k. destruct (JsMap.get k (tasks w)); [apply same_subscription_refl|
                                                exact I].
Qed.

Lemma tasks_keep_trans w1 w2 w3 :
  tasks_keep w1 w2 -> tasks_keep w2 w3 -> tasks_keep w1 w3.
Proof.
  intros H12 H23 k. specialize (H12 k). specialize (H23 k).
  destruct (JsMap.get k (tasks w1)), (JsMap.get k (tasks w2)),
    (JsMap.get k (tasks w3)); try tauto.
  eapply same_subscription_trans; eassumption.
Qed.

Lemma tasks_keep_same w w' : tasks w' = tasks w -> tasks_keep w w'.
Proof.
  intros H k. rewrite H.
  destruct (JsMap.get k (tasks w)); [apply same_subscription_refl|exact I].
Qed.

Lemma tasks_keep_modify w w' id f :
  tasks w' = JsMap.modify id f (tasks w) ->
  (forall t, JsMap.get id (tasks w) = Some t -> same_subscription t (f t)) ->
  tasks_keep w w'.
Proof.
  intros H Hf k. rewrite H.
  destruct (String.eqb k id) eqn:Hk.
  - apply String.eqb_eq in Hk. subst k. rewrite get_modify_eq.
    destruct (JsMap.get id (tasks w)) eqn:Hg; simpl; [now apply Hf|exact I].
  - apply String.eqb_neq in Hk. rewrite (@get_modify_neq _ id k f _ Hk).
    destruct (JsMap.get k (tasks w)); [apply same_subscription_refl|exact I].
Qed.

Lemma registry_grows_refl w : registry_grows w w.
Proof. intros sid e H. exists e. auto. Qed.

Lemma registry_grows_trans w1 w2 w3 :
  registry_grows w1 w2 -> registry_grows w2 w3 -> registry_grows w1 w3.
Proof.
  intros H12 H23 sid e H.
  destruct (H12 _ _ H) as (e2 & H2 & S2 & X2 & I2).
  destruct (H23 _ _ H2) as (e3 & H3 & S3 & X3 & I3).
  exists e3. repeat split; try congruence. auto.
Qed.

Lemma registry_grows_same w w' :
  webhookRegistrations w' = webhookRegistrations w -> registry_grows w w'.
Proof. intros H sid e He. exists e. rewrite H. auto. Qed.

Lemma keyed_ids_kept w w' :
  (forall k t, JsMap.get k (tasks w) = Some t ->
               IngestionTaskDefinition.id t = k) ->
  tasks_keep w w' ->
  forall k t, JsMap.get k (tasks w') = Some t ->
              IngestionTaskDefinition.id t = k.
Proof.
  intros Hid Hk k t' Hget. specialize (Hk k). rewrite Hget in Hk.
  destruct (JsMap.get k (tasks w)) as [t|] eqn:Hg; [|contradiction].
  destruct Hk as (Hi & _). rewrite Hi. now apply Hid.
Qed.

(** [registerWebhook] on a stored task keeps every task a subscription of
    the same kind and never takes anything out of the registry. *)
Lemma registerWebhook_keeps (task : Task) (w : World) :
  JsMap.get (IngestionTaskDefinition.id task) (tasks w) = Some task ->
  exists st w',
    Ops.registerWebhook E task w = (Ok st, w')
    /\ tasks_keep w w' /\ registry_grows w w'.
Proof.
  intros Hstored.
  destruct (@registerWebhook_total E task w) as [st Hst].
  destruct (Ops.registerWebhook E task w) as [[st'|x] w'] eqn:Hrun;
    cbn [fst] in Hst; [|discriminate Hst].
  injection Hst as ->. exists st, w'. split; [reflexivity|].
  destruct (@registerWebhook_outcome E task w st w' Hrun)
    as [(_ & Ht & Hr & _)
       | [(sid & e & _ & _ & He & _ & _ & Ht & Hr)
         | (sid & res & reg & _ & _ & He & _ & _ & _ & _ & _ & Hr & Ht)]].
  - split; [now apply tasks_keep_same | now apply registry_grows_same].
  - split.
    + apply (@tasks_keep_modify _ _ _ _ Ht). intros t Hg.
      rewrite Hstored in Hg. injection Hg as <-.
      destruct task as [? ? ? ? ? tr]; destruct tr; repeat split.
    + destruct (Ops.includes _ _);
        [now apply registry_grows_same|].
      intros sid0 e0 Hg. rewrite Hr.
      destruct (String.eqb sid0 sid) eqn:Hs.
      * apply String.eqb_eq in Hs. subst sid0. rewrite get_modify_eq, He.
        rewrite He in Hg. injection Hg as <-.
        eexists. split; [reflexivity|].
        destruct e; simpl. repeat split.
        intros k Hin. apply in_or_app. now left.
      * apply String.eqb_neq in Hs.
        rewrite (@get_modify_neq _ sid sid0 _ _ Hs). exists e0. auto.
  - split.
    + apply (@tasks_keep_modify _ _ _ _ Ht). intros t Hg.
      rewrite Hstored in Hg. injection Hg as <-.
      destruct task as [? ? ? ? ? tr]; destruct tr; repeat split.
    + intros sid0 e0 Hg. rewrite Hr.
      destruct (String.eqb sid0 sid) eqn:Hs.
      * apply String.eqb_eq in Hs. subst sid0. rewrite He in Hg.
        discriminate Hg.
      * apply String.eqb_neq in Hs.
        rewrite (@get_set_neq _ sid sid0 _ _ Hs). exists e0. auto.
Qed.

Lemma startTurn_keeps key w :
  (forall k t, JsMap.get k (tasks w) = Some t ->
               IngestionTaskDefinition.id t = k) ->
  exists w',
    Ops.startTurn E key w = (Ok tt, w')
    /\ tasks_keep w w' /\ registry_grows w w'.
Proof.
  intros Hid. unfold Ops.startTurn. unfold bind at 1. unfold gets at 1.
  cbv beta iota.
  destruct (JsMap.get key (tasks w)) as [task|] eqn:Hget;
    [|exists w; split; [reflexivity|];
      split; [apply tasks_keep_refl|apply registry_grows_refl]].
  destruct (IngestionTaskDefinition.enabled task);
    [|exists w; split; [reflexivity|];
      split; [apply tasks_keep_refl|apply registry_grows_refl]].
  destruct (is_webhook (IngestionTaskDefinition.trigger task));
    [|exists w; split; [reflexivity|];
      split; [apply tasks_keep_refl|apply registry_grows_refl]].
  assert (Hstored : JsMap.get (IngestionTaskDefinition.id task) (tasks w)
                    = Some task)
    by (rewrite (Hid _ _ Hget); exact Hget).
  destruct (@registerWebhook_keeps task w Hstored)
    as (st & w' & Hrun & Hk & Hg).
  exists w'. unfold bind. rewrite Hrun. auto.
Qed.

Lemma startLoop_keeps ks :
  forall w,
    (forall k t, JsMap.get k (tasks w) = Some t ->
                 IngestionTaskDefinition.id t = k) ->
    exists w',
      Ops.startLoop E ks w = (Ok tt, w')
      /\ tasks_keep w w' /\ registry_grows w w'.
Proof.
  induction ks as [|k0 rest IH]; intros w Hid.
  - exists w. split; [reflexivity|].
    split; [apply tasks_keep_refl|apply registry_grows_refl].
  - destruct (@startTurn_keeps k0 w Hid) as (w1 & Hturn & Hk1 & Hg1).
    destruct (IH w1 (@keyed_ids_kept _ _ Hid Hk1)) as (w' & Hloop & Hk & Hg).
    exists w'. simpl Ops.startLoop. unfold bind. rewrite Hturn.
    split; [exact Hloop|].
    split; [eapply tasks_keep_trans; eassumption
           |eapply registry_grows_trans; eassumption].
Qed.

(** The turn of an enabled webhook task whose source has an entry lists the
    task in it. *)
Lemma startTurn_lists key w t sid e :
  (forall k t, JsMap.get k (tasks w) = Some t ->
               IngestionTaskDefinition.id t = k) ->
  JsMap.get key (tasks w) = Some t ->
  IngestionTaskDefinition.enabled t = true ->
  is_webhook (IngestionTaskDefinition.trigger t) = true ->
  Ops.getSourceIdentifier (pluginType (IngestionTaskDefinition.source t))
    (config (IngestionTaskDefinition.source t)) = Some sid ->
  sid <> EmptyString ->
  JsMap.get sid (webhookRegistrations w) = Some e ->
  exists e',
    JsMap.get sid (webhookRegistrations (snd (Ops.startTurn E key w)))
    = Some e'
    /\ In key (WebhookRegistryEntry.registeredTasks e').
Proof.
  intros Hid Hget Hen Hwh Hsid Hne He.
  unfold Ops.startTurn. unfold bind at 1. unfold gets at 1.
  cbv beta iota. rewrite Hget, Hen, Hwh. unfold bind.
  rewrite (@registerWebhook_join E t w sid e Hsid Hne He). cbv zeta.
  cbn [snd ret]. rewrite (Hid _ _ Hget).
  destruct (Ops.includes key (WebhookRegistryEntry.registeredTasks e))
    eqn:Hinc.
  - exists e. cbn [webhookRegistrations set_tasks]. split; [exact He|].
    unfold Ops.includes in Hinc. apply existsb_exists in Hinc.
    destruct Hinc as (x & Hx & Heq). apply String.eqb_eq in Heq.
    now subst x.
  - eexists. cbn [webhookRegistrations set_tasks set_webhookRegistrations].
    rewrite get_modify_eq, He. split; [reflexivity|].
    destruct e; simpl. apply in_or_app. right. now left.
Qed.

Lemma startLoop_lists ks :
  forall w key t sid e,
    (forall k t, JsMap.get k (tasks w) = Some t ->
                 IngestionTaskDefinition.id t = k) ->
    In key ks ->
    JsMap.get key (tasks w) = Some t ->
    IngestionTaskDefinition.enabled t = true ->
    is_webhook (IngestionTaskDefinition.trigger t) = true ->
    Ops.getSourceIdentifier (pluginType (IngestionTaskDefinition.source t))
      (config (IngestionTaskDefinition.source t)) = Some sid ->
    sid <> EmptyString ->
    JsMap.get sid (webhookRegistrations w) = Some e ->
    exists e',
      JsMap.get sid (webhookRegistrations (snd (Ops.startLoop E ks w)))
      = Some e'
      /\ In key (WebhookRegistryEntry.registeredTasks e')
      /\ WebhookRegistryEntry.secret e' = WebhookRegistryEntry.secret e
      /\ WebhookRegistryEntry.externalWebhookId e'
         = WebhookRegistryEntry.externalWebhookId e.
Proof.
  induction ks as [|k0 rest IH];
    intros w key t sid e Hid Hin Hget Hen Hwh Hsid Hne He; [destruct Hin|].
  destruct (@startTurn_keeps k0 w Hid) as (w1 & Hturn & Hk1 & Hg1).
  pose proof (@keyed_ids_kept _ _ Hid Hk1) as Hid1.
  destruct (Hg1 _ _ He) as (e1 & He1 & Hs1 & Hx1 & Hi1).
  simpl Ops.startLoop. unfold bind. rewrite Hturn.
  destruct (String.eqb k0 key) eqn:Hk.
  - apply String.eqb_eq in Hk. subst k0.
    destruct (@startTurn_lists key w t sid e Hid Hget Hen Hwh Hsid Hne He)
      as (e1' & He1' & Hin1).
    rewrite Hturn in He1'. cbn [snd] in He1'.
    rewrite He1 in He1'. injection He1' as <-.
    destruct (@startLoop_keeps rest w1 Hid1) as (w' & Hloop & _ & Hg).
    rewrite Hloop. cbn [snd].
    destruct (Hg _ _ He1) as (e' & He' & Hs' & Hx' & Hi').
    exists e'. split; [exact He'|]. split; [now apply Hi'|].
    split; congruence.
  - apply String.eqb_neq in Hk.
    destruct Hin as [Heq|Hin]; [contradiction|].
    pose proof (Hk1 key) as Hkey. rewrite Hget in Hkey.
    destruct (JsMap.get key (tasks w1)) as [t1|] eqn:Hget1; [|contradiction].
    destruct Hkey as (_ & Hen1 & Hsrc1 & Hwh1).
    destruct (IH w1 key t1 sid e1 Hid1 Hin Hget1) as (e' & He' & Hi' & Hs' & Hx');
      try congruence.
    exists e'. split; [exact He'|]. split; [exact Hi'|]. split; congruence.
Qed.

Lemma get_in_keys (V : Type) k (m : JsMap.t V) v :
  JsMap.get k m = Some v -> In k (JsMap.keys m).
Proof.
  unfold JsMap.keys. induction m as [|[k' v'] r IH]; simpl; [discriminate|].
  destruct (String.eqb k k') eqn:Hk.
  - apply String.eqb_eq in Hk. now left.
  - intros H. right. now apply IH.
Qed.

(** Start-up never throws and never loses a registration: every registry
    entry is still there afterwards with its secret and external id and
    lists at least the tasks it listed, and every stored task is still
    stored with its id, enabled flag, source and kind of trigger. *)
Theorem start_keeps_registrations (w : World) :
  keyed_by_id (tasks w) ->
  exists w',
    Ops.start E w = (Ok tt, w')
    /\ registry_grows w w' /\ tasks_keep w w'.
Proof.
  intros [_ Hid]. unfold Ops.start. unfold bind, gets. cbv beta iota.
  destruct (@startLoop_keeps (JsMap.keys (tasks w)) w Hid)
    as (w' & Hloop & Hk & Hg).
  exists w'. auto.
Qed.

(** Start-up repairs the listing: an enabled webhook task whose source has
    a registry entry is listed in that entry after [start], and the entry
    keeps its secret and external id. *)
Theorem start_lists_enabled_webhook_tasks (w : World) (key : string)
  (t : Task) (sid : string) (e : Entry) :
  keyed_by_id (tasks w) ->
  JsMap.get key (tasks w) = Some t ->
  IngestionTaskDefinition.enabled t = true ->
  is_webhook (IngestionTaskDefinition.trigger t) = true ->
  Ops.getSourceIdentifier (pluginType (IngestionTaskDefinition.source t))
    (config (IngestionTaskDefinition.source t)) = Some sid ->
  sid <> EmptyString ->
  JsMap.get sid (webhookRegistrations w) = Some e ->
  exists e',
    JsMap.get sid (webhookRegistrations (snd (Ops.start E w))) = Some e'
    /\ In key (WebhookRegistryEntry.registeredTasks e')
    /\ WebhookRegistryEntry.secret e' = WebhookRegistryEntry.secret e
    /\ WebhookRegistryEntry.externalWebhookId e'
       = WebhookRegistryEntry.externalWebhookId e.
Proof.
  intros [_ Hid] Hget Hen Hwh Hsid Hne He.
  unfold Ops.start. unfold bind, gets. cbv beta iota.
  apply (@startLoop_lists (JsMap.keys (tasks w)) w key t sid e Hid
           (@get_in_keys _ _ _ _ Hget) Hget Hen Hwh Hsid Hne He).
Qed.

End Start.

Section Sweep.
Variable E : Env.

(** The turn of a task that is not due changes neither the world nor the
    count of due tasks. *)
Lemma cronTurn_not_due ctx now key results n w :
  (forall t, JsMap.get key (tasks w) = Some t -> dueb E now t = false) ->
  exists results',
    Ops.cronTurn E ctx now key (results, n) w = (Ok (results', n), w).
Proof.
  intros Hdue. unfold Ops.cronTurn. unfold bind at 1. unfold gets at 1.
  cbv beta iota.
  destruct (JsMap.get key (tasks w)) as [t|] eqn:Hget;
    [|eexists; reflexivity].
  specialize (Hdue t eq_refl). unfold dueb in Hdue.
  destruct (IngestionTaskDefinition.enabled t); [|eexists; reflexivity].
  destruct (IngestionTaskDefinition.trigger t); try (eexists; reflexivity).
  unfold try_catch. unfold bind at 1. unfold lift at 1.
  destruct (cron_prev E _ now) as [previousRunTime|msg];
    [|eexists; reflexivity].
  rewrite Hdue. eexists. reflexivity.
Qed.

Lemma cronLoop_not_due ctx now ks w :
  nothing_due E now w ->
  forall results n,
  exists results',
    Ops.cronLoop E ctx now ks (results, n) w = (Ok (results', n), w).
Proof.
  intros Hdue. induction ks as [|k0 rest IH]; intros results n.
  - exists results. reflexivity.
  - destruct (@cronTurn_not_due ctx now k0 results n w (Hdue k0))
      as (results1 & Hturn).
    destruct (IH results1 n) as (results' & Hloop).
    exists results'.
    change (Ops.cronLoop E ctx now (k0 :: rest) (results, n) w)
      with (bind (Ops.cronTurn E ctx now k0 (results, n))
              (fun acc' => Ops.cronLoop E ctx now rest acc') w).
    unfold bind. rewrite Hturn. exact Hloop.
Qed.

(** A sweep in which no stored task is due answers 200 "No enabled cron
    tasks were due." and leaves the world as it is.  Disabled tasks, tasks
    with another trigger, tasks that are not in the window and tasks whose
    cron expression does not parse all count as not due: a parse error
    does not show in the answer. *)
Theorem cron_sweep_nothing_due (ctx : GSContext) (w : World) :
  nothing_due E (now_of E ctx w) w ->
  Ops.triggerAllEnabledCronTasks E ctx w
  = (Ok (GSStatus3 true 200 "No enabled cron tasks were due."), w).
Proof.
  intros Hdue. unfold Ops.triggerAllEnabledCronTasks.
  unfold bind at 1. unfold gets at 1. cbv beta iota.
  unfold bind at 1. unfold gets at 1. cbv beta iota.
  unfold bind at 1. fold (now_of E ctx w).
  destruct (@cronLoop_not_due ctx (now_of E ctx w) (JsMap.keys (tasks w)) w
              Hdue [] O) as (results' & Hloop).
  rewrite Hloop. reflexivity.
Qed.

End Sweep.
(** Two enabled webhook tasks on one repository whose entry lists only the
    first. *)
Lemma start_keeps_registrations_witness :
  let w := Toy.world [("g1", Toy.task "g1" Toy.gitRepo Toy.hooked);
                      ("g2", Toy.task "g2" Toy.gitRepo Toy.hook)]
             [("https://github.com/ex/r", Toy.entry ["g1"])] in
  exists w',
    Ops.start (Toy.env true) w = (Ok tt, w')
    /\ registry_grows w w' /\ tasks_keep w w'.
Proof.
  cbv zeta.
  apply (@start_keeps_registrations (Toy.env true)
           (Toy.world [("g1", Toy.task "g1" Toy.gitRepo Toy.hooked);
                       ("g2", Toy.task "g2" Toy.gitRepo Toy.hook)]
              [("https://github.com/ex/r", Toy.entry ["g1"])])).
  apply (@keyed_by_id_pair (Toy.task "g1" Toy.gitRepo Toy.hooked)
           (Toy.task "g2" Toy.gitRepo Toy.hook)).
  discriminate.
Defined.

Lemma start_lists_enabled_webhook_tasks_witness :
  let w := Toy.world [("g1", Toy.task "g1" Toy.gitRepo Toy.hooked);
                      ("g2", Toy.task "g2" Toy.gitRepo Toy.hook)]
             [("https://github.com/ex/r", Toy.entry ["g1"])] in
  JsMap.get "https://github.com/ex/r"
    (webhookRegistrations (snd (Ops.start (Toy.env true) w)))
  = Some (Toy.entry ["g1"; "g2"])
  /\ exists e',
       JsMap.get "https://github.com/ex/r"
         (webhookRegistrations (snd (Ops.start (Toy.env true) w)))
       = Some e'
       /\ In "g2"%string (WebhookRegistryEntry.registeredTasks e')
       /\ WebhookRegistryEntry.secret e' = "s3cr3t"%string
       /\ WebhookRegistryEntry.externalWebhookId e' = "42"%string.
Proof.
  cbv zeta. split; [reflexivity|].
  apply (@start_lists_enabled_webhook_tasks (Toy.env true)
           (Toy.world [("g1", Toy.task "g1" Toy.gitRepo Toy.hooked);
                       ("g2", Toy.task "g2" Toy.gitRepo Toy.hook)]
              [("https://github.com/ex/r", Toy.entry ["g1"])])
           "g2" (Toy.task "g2" Toy.gitRepo Toy.hook)
           "https://github.com/ex/r" (Toy.entry ["g1"])).
  - apply (@keyed_by_id_pair (Toy.task "g1" Toy.gitRepo Toy.hooked)
             (Toy.task "g2" Toy.gitRepo Toy.hook)).
    discriminate.
  - reflexivity.
  - reflexivity.
  - reflexivity.
  - reflexivity.
  - discriminate.
  - reflexivity.
Defined.

(** A manual task and an enabled cron task whose expression does not
    parse. *)
Lemma cron_sweep_nothing_due_witness :
  let w := Toy.world
             [("m1", Toy.task "m1" Toy.gitRepo Manual);
              ("c1", Toy.task "c1" Toy.driveFolder (Cron "every minute"))]
             [] in
  cron_prev (Toy.env true) "every minute" 43230000
  = Throw "Invalid cron expression"
  /\ Ops.triggerAllEnabledCronTasks (Toy.env true) (mkGSContext None) w
     = (Ok (GSStatus3 true 200 "No enabled cron tasks were due."), w).
Proof.
  cbv zeta. split; [reflexivity|].
  apply (@cron_sweep_nothing_due (Toy.env true) (mkGSContext None)
           (Toy.world
              [("m1", Toy.task "m1" Toy.gitRepo Manual);
               ("c1", Toy.task "c1" Toy.driveFolder (Cron "every minute"))]
              [])).
  intros k t Hget. simpl in Hget.
  destruct (k =? "m1")%string; [injection Hget as <-; reflexivity|].
  destruct (k =? "c1")%string; [injection Hget as <-; reflexivity|].
  discriminate Hget.
Defined.
